(** * Stargazer: repository identifiers, the GitHub client and the extractor

    A shallow embedding of [stargazer/extractor.py] and
    [stargazer/github_client.py] (with the records of [stargazer/models.py])
    and the properties of the specification proved about it, followed by
    the rest of the package ([stargazer/config.py], the constructors, the
    session, the timestamp validator) and further properties of the code.

    Python strings are [string]s whose characters are the code points below
    256.  Python integers are [Z].  Exceptions are values of [exn] carried by
    [Result]; code that talks to the network is a function of the world, in
    the monad [M].  The network is a script of answers, consumed one per
    call of [session.get]; the two [while True] loops use up one answer per
    turn, which bounds them. *)

From Stdlib Require Import String Ascii List ZArith Bool Arith Lia PrimFloat.
Import ListNotations.

Local Open Scope string_scope.
Local Open Scope list_scope.
Local Open Scope bool_scope.

Infix "+:+" := String.append (at level 60, right associativity).

(** ** Python strings *)

Module PyStr.

(** [str.isspace] on one character (code points below 256): the characters
    removed by [str.strip()]. *)
Definition is_space (c : ascii) : bool :=
  let n := nat_of_ascii c in
  ((9 <=? n)%nat && (n <=? 13)%nat) || ((28 <=? n)%nat && (n <=? 32)%nat)
  || (n =? 133)%nat || (n =? 160)%nat.

Fixpoint lstrip_by (p : ascii -> bool) (s : string) : string :=
  match s with
  | EmptyString => EmptyString
  | String c s' => if p c then lstrip_by p s' else s
  end.

Fixpoint rstrip_by (p : ascii -> bool) (s : string) : string :=
  match s with
  | EmptyString => EmptyString
  | String c s' =>
      match rstrip_by p s' with
      | EmptyString => if p c then EmptyString else String c EmptyString
      | r => String c r
      end
  end.

Definition strip_by (p : ascii -> bool) (s : string) : string :=
  rstrip_by p (lstrip_by p s).

(** [s.strip()] *)
Definition strip (s : string) : string := strip_by is_space s.

(** [s.strip(c)] for a one-character argument *)
Definition strip_char (c : ascii) (s : string) : string :=
  strip_by (Ascii.eqb c) s.

(** [s.startswith(p)] *)
Fixpoint startswith (s p : string) {struct p} : bool :=
  match p with
  | EmptyString => true
  | String a p' =>
      match s with
      | EmptyString => false
      | String b s' => Ascii.eqb a b && startswith s' p'
      end
  end.

(** [s.endswith(suf)] *)
Fixpoint endswith (s suf : string) : bool :=
  String.eqb s suf
  || match s with
     | EmptyString => false
     | String _ s' => endswith s' suf
     end.

(** [c in s] for a one-character [c] *)
Fixpoint char_in (c : ascii) (s : string) : bool :=
  match s with
  | EmptyString => false
  | String a s' => Ascii.eqb a c || char_in c s'
  end.

(** [s.split(c)] for a one-character separator: never empty, one more
    part than there are separators. *)
Fixpoint split (c : ascii) (s : string) : list string :=
  match s with
  | EmptyString => [EmptyString]
  | String a s' =>
      if Ascii.eqb a c then EmptyString :: split c s'
      else match split c s' with
           | h :: t => String a h :: t
           | [] => [String a EmptyString]
           end
  end.

(** The part of [s] before the first character satisfying [p]
    (all of [s] when there is none), and the part from it on. *)
Fixpoint before (p : ascii -> bool) (s : string) : string :=
  match s with
  | EmptyString => EmptyString
  | String a s' => if p a then EmptyString else String a (before p s')
  end.

Fixpoint from (p : ascii -> bool) (s : string) : string :=
  match s with
  | EmptyString => EmptyString
  | String a s' => if p a then s else from p s'
  end.

Fixpoint remove (p : ascii -> bool) (s : string) : string :=
  match s with
  | EmptyString => EmptyString
  | String a s' => if p a then remove p s' else String a (remove p s')
  end.

Fixpoint forallb (p : ascii -> bool) (s : string) : bool :=
  match s with
  | EmptyString => true
  | String a s' => p a && forallb p s'
  end.

Definition is_digit (c : ascii) : bool :=
  let n := nat_of_ascii c in (48 <=? n)%nat && (n <=? 57)%nat.

Definition is_upper (c : ascii) : bool :=
  let n := nat_of_ascii c in (65 <=? n)%nat && (n <=? 90)%nat.

Definition is_lower (c : ascii) : bool :=
  let n := nat_of_ascii c in (97 <=? n)%nat && (n <=? 122)%nat.

Definition is_alpha (c : ascii) : bool := is_upper c || is_lower c.

(** [str.lower] on one character (code points below 256). *)
Definition lower_char (c : ascii) : ascii :=
  let n := nat_of_ascii c in
  if is_upper c
     || ((192 <=? n)%nat && (n <=? 222)%nat && negb (n =? 215)%nat)
  then ascii_of_nat (n + 32) else c.

Fixpoint lower (s : string) : string :=
  match s with
  | EmptyString => EmptyString
  | String a s' => String (lower_char a) (lower s')
  end.

(** The blanks [int] skips around a literal.  They are not the characters
    [str.strip()] removes: below code point 127 they are the C whitespace,
    9 to 13 and 32, so the separators 28 to 31 make a literal malformed;
    above, they are the Unicode spaces, 133 and 160 (code points below
    256). *)
Definition int_space (c : ascii) : bool :=
  let n := nat_of_ascii c in
  ((9 <=? n)%nat && (n <=? 13)%nat) || (n =? 32)%nat
  || (n =? 133)%nat || (n =? 160)%nat.

(** [sys.int_info.default_max_str_digits]: the limit on the digits of a
    literal, which the package leaves at its default. *)
Definition int_max_str_digits : Z := 4300.

(** The digits of a literal, its underscores not counted. *)
Fixpoint count_digits (s : string) : Z :=
  match s with
  | EmptyString => 0%Z
  | String c s' => ((if is_digit c then 1 else 0) + count_digits s')%Z
  end.

(** The value of the digits of [s] after [acc]; [after_digit] tells
    whether the character before was a digit, which an underscore needs. *)
Fixpoint digits (acc : Z) (after_digit : bool) (s : string) : option Z :=
  match s with
  | EmptyString => if after_digit then Some acc else None
  | String c s' =>
      if is_digit c
      then digits (10 * acc + Z.of_nat (nat_of_ascii c - 48))%Z true s'
      else if Ascii.eqb c "_" && after_digit
           then match s' with
                | EmptyString => None
                | String d _ => if is_digit d then digits acc false s' else None
                end
           else None
  end.

(** [int(s)] on a string, as CPython 3.11 reads it: the blanks around the
    literal are skipped, the literal is an optional sign followed by
    decimal digits, single underscores allowed between digits, and it may
    hold at most [int_max_str_digits] digits.  [None] stands for the
    [ValueError] that [int] raises on anything else. *)
Definition int (s : string) : option Z :=
  let (negative, literal) :=
    match strip_by int_space s with
    | String "-" s' => (true, s')
    | String "+" s' => (false, s')
    | s' => (false, s')
    end in
  match digits 0 false literal with
  | Some z =>
      if (int_max_str_digits <? count_digits literal)%Z then None
      else Some (if negative then (- z)%Z else z)
  | None => None
  end.

End PyStr.

(** ** Values decoded from JSON, and the Python operations the code applies
       to them *)

#[warnings="-register-all"]
Inductive json : Type :=
| JNull
| JBool (b : bool)
| JInt (z : Z)
| JFloat (f : float)
| JStr (s : string)
| JArr (items : list json)
| JObj (fields : list (string * json)).

(** Exceptions.  [GitHubAPIError] and its subclass [RateLimitError] are the
    client's own; the others are Python's and the libraries'. *)
Inductive value_error : Type :=
| OnlyGitHubSupported     (* "Only GitHub repositories are supported" *)
| InvalidRepositoryURL    (* "Invalid GitHub repository URL" *)
| InvalidRepositoryFormat (* "Invalid repository format. Use 'owner/repo'" *)
| InvalidRepositoryIdentifier
    (* "Invalid repository identifier. Use GitHub URL or 'owner/repo' format" *)
| InvalidIPv6URL          (* raised inside urlparse *)
| InvalidBracketedHost    (* raised inside urlparse *)
| InvalidIntLiteral.      (* raised by int() on a string it rejects *)

Inductive api_error : Type :=
| RepositoryNotFound (endpoint : string)  (* "Repository not found: ..." *)
| AccessForbidden (endpoint : string)     (* "Access forbidden: ..." *)
| HTTPStatus (status_code : Z)            (* "HTTP error ...: ..." *)
| RequestFailed.                          (* "Request failed: ..." *)

Inductive exn : Type :=
| ValueError (v : value_error)
| KeyError (key : string)
| TypeError
| AttributeError
| ValidationError
| HTTPError (status_code : Z)   (* requests: raised by raise_for_status *)
| RequestException             (* requests: any other failure of a request *)
| GitHubAPIError (a : api_error)
| RateLimitError (wait_time : Z).

(** [isinstance(e, GitHubAPIError)] *)
Definition is_GitHubAPIError (e : exn) : bool :=
  match e with
  | GitHubAPIError _ | RateLimitError _ => true
  | _ => false
  end.

Inductive Result (A : Type) : Type :=
| Ok (a : A)
| Raise (e : exn).
Arguments Ok {A} a.
Arguments Raise {A} e.

Module PyJson.

(** [bool(v)] *)
Definition truthy (v : json) : bool :=
  match v with
  | JNull => false
  | JBool b => b
  | JInt z => negb (z =? 0)%Z
  | JFloat f => negb (PrimFloat.eqb f PrimFloat.zero)
  | JStr s => negb (String.eqb s "")
  | JArr l => match l with [] => false | _ => true end
  | JObj l => match l with [] => false | _ => true end
  end.

Fixpoint lookup (k : string) (fields : list (string * json)) : option json :=
  match fields with
  | [] => None
  | (k', v) :: rest => if String.eqb k k' then Some v else lookup k rest
  end.

(** [d[k]] with a string key *)
Definition getitem (d : json) (k : string) : Result json :=
  match d with
  | JObj fields =>
      match lookup k fields with
      | Some v => Ok v
      | None => Raise (KeyError k)
      end
  | _ => Raise TypeError
  end.

(** [d.get(k, default)] *)
Definition get (d : json) (k : string) (default : json) : Result json :=
  match d with
  | JObj fields =>
      match lookup k fields with
      | Some v => Ok v
      | None => Ok default
      end
  | _ => Raise AttributeError
  end.

Fixpoint chars (s : string) : list json :=
  match s with
  | EmptyString => []
  | String c s' => JStr (String c EmptyString) :: chars s'
  end.

(** The items a [for] loop over [v] visits. *)
Definition iter (v : json) : Result (list json) :=
  match v with
  | JArr l => Ok l
  | JObj fields => Ok (map (fun kv => JStr (fst kv)) fields)
  | JStr s => Ok (chars s)
  | _ => Raise TypeError
  end.

(** [v[:n]] for a non-negative literal [n] *)
Definition slice_to (n : nat) (v : json) : Result json :=
  match v with
  | JArr l => Ok (JArr (firstn n l))
  | JStr s => Ok (JStr (String.substring 0 n s))
  | _ => Raise TypeError
  end.

(** [v == s] for a string [s] *)
Definition eq_str (v : json) (s : string) : bool :=
  match v with
  | JStr t => String.eqb t s
  | _ => false
  end.

End PyJson.

(** ** What the libraries around the code decide

    Three things are decided outside the repository and are left open: the
    URL parser's validation of a bracketed host (it differs between CPython
    versions), pydantic's validation and coercion of a field (it differs
    between pydantic versions), and what [str()] prints for a value that is
    not a string.  They are the fields of [Platform]; every theorem holds
    for every platform. *)
Class Platform : Type := {
  (** urllib: does a netloc holding both '[' and ']' pass the bracketed-host
      check?  ([false]: urlparse raises ValueError.) *)
  check_bracketed_netloc : string -> bool;
  (** pydantic: validation of a value for a field of type [str],
      [Optional[str]], [int], [Optional[datetime]] (the last after the
      [parse_datetime] pre-validator); [None] is a ValidationError. *)
  datetime : Type;
  validate_str : json -> option string;
  validate_opt_str : json -> option (option string);
  validate_int : json -> option Z;
  validate_opt_datetime : json -> option (option datetime);
  (** [str(v)] as an f-string formats it *)
  format : json -> string;
  format_str : forall s, format (JStr s) = s
}.

(** ** urllib.parse.urlparse: the netloc and the path of a URL *)

Module Urllib.

Record ParseResult : Type := { netloc : string; path : string }.

Definition scheme_char (c : ascii) : bool :=
  PyStr.is_alpha c || PyStr.is_digit c
  || Ascii.eqb c "+" || Ascii.eqb c "-" || Ascii.eqb c ".".

Definition uses_params : list string :=
  [""; "ftp"; "hdl"; "prospero"; "http"; "imap"; "https"; "shttp"; "rtsp";
   "rtspu"; "sip"; "sips"; "mms"; "sftp"; "tel"].

Definition c0_control_or_space (c : ascii) : bool :=
  (nat_of_ascii c <=? 32)%nat.

Definition unsafe_byte (c : ascii) : bool :=
  Ascii.eqb c "009" || Ascii.eqb c "013" || Ascii.eqb c "010".

Definition netloc_delim (c : ascii) : bool :=
  Ascii.eqb c "/" || Ascii.eqb c "?" || Ascii.eqb c "#".

(** [(scheme, rest)]: the scheme is split off when the text before the
    first ':' is non-empty, starts with a letter and holds scheme
    characters only. *)
Definition split_scheme (url : string) : string * string :=
  if PyStr.char_in ":" url then
    let s := PyStr.before (Ascii.eqb ":") url in
    match s with
    | String c _ =>
        if PyStr.is_alpha c && PyStr.forallb scheme_char s
        then (PyStr.lower s,
              match PyStr.from (Ascii.eqb ":") url with
              | String _ rest => rest
              | EmptyString => EmptyString
              end)
        else (EmptyString, url)
    | EmptyString => (EmptyString, url)
    end
  else (EmptyString, url).

(** [_splitparams]: cut at the first ';' of the last path segment. *)
Fixpoint splitparams (url : string) : string :=
  match url with
  | EmptyString => EmptyString
  | String c s' =>
      if Ascii.eqb c ";" && negb (PyStr.char_in "/" s')
      then EmptyString
      else String c (splitparams s')
  end.

Section WithPlatform.
Context {P : Platform}.

Definition urlparse (url : string) : Result ParseResult :=
  let url := PyStr.lstrip_by c0_control_or_space url in
  let url := PyStr.remove unsafe_byte url in
  let '(scheme, url) := split_scheme url in
  let split_netloc :=
    match url with
    | String "/" (String "/" rest) =>
        (PyStr.before netloc_delim rest, PyStr.from netloc_delim rest)
    | _ => (EmptyString, url)
    end in
  let '(netloc, url) := split_netloc in
  let has_open := PyStr.char_in "[" netloc in
  let has_close := PyStr.char_in "]" netloc in
  if xorb has_open has_close then Raise (ValueError InvalidIPv6URL)
  else if has_open && has_close && negb (check_bracketed_netloc netloc)
  then Raise (ValueError InvalidBracketedHost)
  else
    let url := PyStr.before (Ascii.eqb "#") url in
    let url := PyStr.before (Ascii.eqb "?") url in
    let url :=
      if existsb (String.eqb scheme) uses_params && PyStr.char_in ";" url
      then splitparams url else url in
    Ok {| netloc := netloc; path := url |}.

End WithPlatform.

End Urllib.

(** ** stargazer/extractor.py: [_parse_repo_identifier] *)

Section ParseRepoIdentifier.
Context {P : Platform}.

Definition _parse_repo_identifier (repo_identifier : string)
  : Result (string * string) :=
  let repo_identifier := PyStr.strip repo_identifier in
  if PyStr.startswith repo_identifier "http://"
     || PyStr.startswith repo_identifier "https://"
  then
    match Urllib.urlparse repo_identifier with
    | Raise e => Raise e
    | Ok parsed =>
        if negb (String.eqb (Urllib.netloc parsed) "github.com")
        then Raise (ValueError OnlyGitHubSupported)
        else
          let path_parts :=
            PyStr.split "/" (PyStr.strip_char "/" (Urllib.path parsed)) in
          if (length path_parts <? 2)%nat
          then Raise (ValueError InvalidRepositoryURL)
          else Ok (nth 0 path_parts EmptyString, nth 1 path_parts EmptyString)
    end
  else if PyStr.char_in "/" repo_identifier then
    let parts := PyStr.split "/" repo_identifier in
    if negb (length parts =? 2)%nat
    then Raise (ValueError InvalidRepositoryFormat)
    else Ok (nth 0 parts EmptyString, nth 1 parts EmptyString)
  else Raise (ValueError InvalidRepositoryIdentifier).

End ParseRepoIdentifier.

(** ** stargazer/models.py

    The records hold validated fields.  [extracted_at], a clock reading taken
    when the report is created, is left out of [ExtractionResult]. *)

Definition Result_bind {A B} (r : Result A) (k : A -> Result B) : Result B :=
  match r with
  | Ok a => k a
  | Raise e => Raise e
  end.

Notation "'let?' x ':=' r 'in' k" := (Result_bind r (fun x => k))
  (at level 10, x pattern, r at level 100, k at level 200).

(** The outcome of a pydantic validation step. *)
Definition validated {A} (o : option A) : Result A :=
  match o with
  | Some a => Ok a
  | None => Raise ValidationError
  end.

Module UserInfo.
Section WithPlatform.
Context {P : Platform}.

Record t : Type := {
  login : string;
  name : option string;
  email : option string;
  location : option string;
  company : option string;
  bio : option string;
  blog : option string;
  twitter_username : option string;
  public_repos : Z;
  followers : Z;
  following : Z;
  created_at : option datetime;
  updated_at : option datetime;
  avatar_url : option string;
  html_url : option string
}.

(** [UserInfo(login=..., avatar_url=..., html_url=...)]: the other fields
    take their defaults. *)
Definition minimal (login avatar_url html_url : json) : Result t :=
  let? l := validated (validate_str login) in
  let? a := validated (validate_opt_str avatar_url) in
  let? h := validated (validate_opt_str html_url) in
  Ok {| login := l; name := None; email := None; location := None;
        company := None; bio := None; blog := None;
        twitter_username := None; public_repos := 0; followers := 0;
        following := 0; created_at := None; updated_at := None;
        avatar_url := a; html_url := h |}.

(** [UserInfo(...)] with all fifteen keyword arguments. *)
Definition detailed
  (login name email location company bio blog twitter_username
   public_repos followers following created_at updated_at
   avatar_url html_url : json) : Result t :=
  let? v1 := validated (validate_str login) in
  let? v2 := validated (validate_opt_str name) in
  let? v3 := validated (validate_opt_str email) in
  let? v4 := validated (validate_opt_str location) in
  let? v5 := validated (validate_opt_str company) in
  let? v6 := validated (validate_opt_str bio) in
  let? v7 := validated (validate_opt_str blog) in
  let? v8 := validated (validate_opt_str twitter_username) in
  let? v9 := validated (validate_int public_repos) in
  let? v10 := validated (validate_int followers) in
  let? v11 := validated (validate_int following) in
  let? v12 := validated (validate_opt_datetime created_at) in
  let? v13 := validated (validate_opt_datetime updated_at) in
  let? v14 := validated (validate_opt_str avatar_url) in
  let? v15 := validated (validate_opt_str html_url) in
  Ok {| login := v1; name := v2; email := v3; location := v4;
        company := v5; bio := v6; blog := v7; twitter_username := v8;
        public_repos := v9; followers := v10; following := v11;
        created_at := v12; updated_at := v13;
        avatar_url := v14; html_url := v15 |}.

End WithPlatform.
End UserInfo.

Module RepoInfo.
Section WithPlatform.
Context {P : Platform}.

Record t : Type := {
  name : string;
  full_name : string;
  owner : string;
  description : option string;
  html_url : string;
  stargazers_count : Z;
  forks_count : Z;
  language : option string;
  created_at : option datetime;
  updated_at : option datetime
}.

Definition make
  (name full_name owner description html_url stargazers_count
   forks_count language created_at updated_at : json) : Result t :=
  let? v1 := validated (validate_str name) in
  let? v2 := validated (validate_str full_name) in
  let? v3 := validated (validate_str owner) in
  let? v4 := validated (validate_opt_str description) in
  let? v5 := validated (validate_str html_url) in
  let? v6 := validated (validate_int stargazers_count) in
  let? v7 := validated (validate_int forks_count) in
  let? v8 := validated (validate_opt_str language) in
  let? v9 := validated (validate_opt_datetime created_at) in
  let? v10 := validated (validate_opt_datetime updated_at) in
  Ok {| name := v1; full_name := v2; owner := v3; description := v4;
        html_url := v5; stargazers_count := v6; forks_count := v7;
        language := v8; created_at := v9; updated_at := v10 |}.

End WithPlatform.
End RepoInfo.

Module ExtractionResult.
Section WithPlatform.
Context {P : Platform}.

Record t : Type := {
  repository : RepoInfo.t;
  stargazers : list UserInfo.t;
  forkers : list UserInfo.t;
  total_stargazers : Z;
  total_forkers : Z
}.

(** [result.stargazers = l] and [result.forkers = l] *)
Definition set_stargazers (l : list UserInfo.t) (r : t) : t :=
  {| repository := repository r; stargazers := l; forkers := forkers r;
     total_stargazers := total_stargazers r;
     total_forkers := total_forkers r |}.

Definition set_forkers (l : list UserInfo.t) (r : t) : t :=
  {| repository := repository r; stargazers := stargazers r; forkers := l;
     total_stargazers := total_stargazers r;
     total_forkers := total_forkers r |}.

End WithPlatform.
End ExtractionResult.

(** ** The network and the clock

    [session.get] is the [requests] session with its retry adapter mounted:
    one call either returns a response or raises a RequestException.  The
    world holds the answers still to come, one per call, each with the epoch
    second at which it is in; a call made when none is left fails like a
    lost connection.  The URL (the fixed base joined with the endpoint), the
    headers sent and the timeout are the same for every call and are not
    recorded. *)

Record Response : Type := {
  status_code : Z;
  headers : list (string * string);
  body : option json        (* [None]: the body does not decode as JSON *)
}.

Inductive answer : Type :=
| ConnectionFailed
| Answered (r : Response).

Record Exchange : Type := { reply : answer; clock : Z }.

Record Request : Type := {
  endpoint : string;
  params : list (string * json)
}.

Record World : Type := {
  pending : list Exchange;   (* answers to the calls still to be made *)
  now : Z;                   (* int(time.time()) *)
  trace : list Request;      (* the calls made so far, oldest first *)
  naps : nat                 (* how many times time.sleep(0.1) ran *)
}.

Definition M (A : Type) : Type := World -> Result A * World.

Definition ret {A} (a : A) : M A := fun w => (Ok a, w).

Definition raise {A} (e : exn) : M A := fun w => (Raise e, w).

Definition lift {A} (r : Result A) : M A := fun w => (r, w).

Definition bind {A B} (m : M A) (k : A -> M B) : M B :=
  fun w =>
    match m w with
    | (Ok a, w') => k a w'
    | (Raise e, w') => (Raise e, w')
    end.

(** [try: m  except ... as e: h e] *)
Definition try_except {A} (m : M A) (h : exn -> M A) : M A :=
  fun w =>
    match m w with
    | (Ok a, w') => (Ok a, w')
    | (Raise e, w') => h e w'
    end.

Notation "x <- m ;; k" := (bind m (fun x => k))
  (at level 61, m at next level, right associativity).
Notation "m ;;; k" := (bind m (fun _ => k))
  (at level 61, right associativity).

Definition session_get (endpoint : string) (params : list (string * json))
  : M Response :=
  fun w =>
    let called := trace w ++ [{| endpoint := endpoint; params := params |}] in
    match pending w with
    | [] =>
        (Raise RequestException,
         {| pending := []; now := now w; trace := called; naps := naps w |})
    | x :: rest =>
        let w' := {| pending := rest; now := clock x; trace := called;
                     naps := naps w |} in
        match reply x with
        | ConnectionFailed => (Raise RequestException, w')
        | Answered r => (Ok r, w')
        end
    end.

(** [int(time.time())] *)
Definition time_time : M Z := fun w => (Ok (now w), w).

(** [time.sleep(0.1)] *)
Definition time_sleep : M unit :=
  fun w => (Ok tt, {| pending := pending w; now := now w; trace := trace w;
                      naps := S (naps w) |}).

(** [response.headers.get(k)]: header names compare without case. *)
Fixpoint headers_get (k : string) (hs : list (string * string))
  : option string :=
  match hs with
  | [] => None
  | (k', v) :: rest =>
      if String.eqb (PyStr.lower k) (PyStr.lower k') then Some v
      else headers_get k rest
  end.

(** [response.raise_for_status()] *)
Definition raise_for_status (r : Response) : M unit :=
  if (400 <=? status_code r)%Z && (status_code r <? 600)%Z
  then raise (HTTPError (status_code r))
  else ret tt.

(** [response.json()]: a body that does not decode raises requests'
    JSONDecodeError, a RequestException. *)
Definition response_json (r : Response) : M json :=
  match body r with
  | Some v => ret v
  | None => raise RequestException
  end.

(** ** stargazer/github_client.py *)

Section Client.
Context {P : Platform}.

Definition _make_request (endpoint : string) (params : list (string * json))
  : M json :=
  try_except
    (response <- session_get endpoint params ;;
     if (status_code response =? 429)%Z then
       reset_time <-
         lift match headers_get "X-RateLimit-Reset" (headers response) with
              | None => Ok 0%Z
              | Some v =>
                  match PyStr.int v with
                  | Some z => Ok z
                  | None => Raise (ValueError InvalidIntLiteral)
                  end
              end ;;
       current_time <- time_time ;;
       let wait_time := Z.max (reset_time - current_time) 60 in
       raise (RateLimitError wait_time)
     else
       raise_for_status response ;;;
       time_sleep ;;;
       response_json response)
    (fun e =>
       match e with
       | HTTPError status =>
           if (status =? 404)%Z
           then raise (GitHubAPIError (RepositoryNotFound endpoint))
           else if (status =? 403)%Z
           then raise (GitHubAPIError (AccessForbidden endpoint))
           else raise (GitHubAPIError (HTTPStatus status))
       | RequestException => raise (GitHubAPIError RequestFailed)
       | _ => raise e
       end).

Definition get_repository_info (owner repo : string) : M RepoInfo.t :=
  let endpoint := "/repos/" +:+ owner +:+ "/" +:+ repo in
  data <- _make_request endpoint [] ;;
  lift (let? name := PyJson.getitem data "name" in
        let? full_name := PyJson.getitem data "full_name" in
        let? o := PyJson.getitem data "owner" in
        let? owner_login := PyJson.getitem o "login" in
        let? description := PyJson.get data "description" JNull in
        let? html_url := PyJson.getitem data "html_url" in
        let? stargazers_count := PyJson.getitem data "stargazers_count" in
        let? forks_count := PyJson.getitem data "forks_count" in
        let? language := PyJson.get data "language" JNull in
        let? created_at := PyJson.getitem data "created_at" in
        let? updated_at := PyJson.getitem data "updated_at" in
        RepoInfo.make name full_name owner_login description html_url
          stargazers_count forks_count language created_at updated_at).

(** *** Email discovery *)

(** Lines 321-324, 356-359 and 393-396, on a string: the filter on a
    candidate email. *)
Definition email_ok (email : string) : bool :=
  negb (String.eqb email "")
  && negb (PyStr.endswith email "@users.noreply.github.com")
  && PyStr.char_in "@" email
  && negb (PyStr.startswith email "noreply").

(** The same condition on the value found under "email": a value that is
    not a string is false when falsy and has no [endswith] otherwise.
    [Some email] when the condition holds. *)
Definition accept_email (email : json) : Result (option string) :=
  if PyJson.truthy email then
    match email with
    | JStr s => Ok (if email_ok s then Some s else None)
    | _ => Raise AttributeError
    end
  else Ok None.

(** The loop over the commits of one event (lines 317-326 and 353-361):
    [Some email] is the early return. *)
Fixpoint scan_event_commits (commits : list json) : Result (option string) :=
  match commits with
  | [] => Ok None
  | commit :: rest =>
      let? author := PyJson.get commit "author" (JObj []) in
      let? probe := PyJson.get author "email" JNull in
      if PyJson.truthy probe then
        let? author := PyJson.getitem commit "author" in
        let? email := PyJson.getitem author "email" in
        let? accepted := accept_email email in
        match accepted with
        | Some e => Ok (Some e)
        | None => scan_event_commits rest
        end
      else scan_event_commits rest
  end.

(** The loop over the events of [_extract_email_from_commits]. *)
Fixpoint scan_push_events (events : list json) : Result (option string) :=
  match events with
  | [] => Ok None
  | event :: rest =>
      let? type := PyJson.get event "type" JNull in
      if PyJson.eq_str type "PushEvent" then
        let? payload := PyJson.get event "payload" (JObj []) in
        let? commits := PyJson.get payload "commits" (JArr []) in
        let? commits := PyJson.iter commits in
        let? found := scan_event_commits commits in
        match found with
        | Some e => Ok (Some e)
        | None => scan_push_events rest
        end
      else scan_push_events rest
  end.

Definition _extract_email_from_commits (username : string)
  : M (option string) :=
  try_except
    (let endpoint := "/users/" +:+ username +:+ "/events" in
     events <- _make_request endpoint [("per_page", JInt 30)] ;;
     lift (let? events := PyJson.iter events in scan_push_events events))
    (fun _ => ret None).

(** The loop over the events of [_extract_email_from_events]. *)
Fixpoint scan_create_events (events : list json) : Result (option string) :=
  match events with
  | [] => Ok None
  | event :: rest =>
      let? type := PyJson.get event "type" JNull in
      if PyJson.eq_str type "CreateEvent" then
        let? payload := PyJson.get event "payload" (JObj []) in
        let? probe := PyJson.get payload "commits" JNull in
        if PyJson.truthy probe then
          let? payload := PyJson.getitem event "payload" in
          let? commits := PyJson.getitem payload "commits" in
          let? commits := PyJson.iter commits in
          let? found := scan_event_commits commits in
          match found with
          | Some e => Ok (Some e)
          | None => scan_create_events rest
          end
        else scan_create_events rest
      else scan_create_events rest
  end.

Definition _extract_email_from_events (username : string)
  : M (option string) :=
  try_except
    (let endpoint := "/users/" +:+ username +:+ "/events/public" in
     events <- _make_request endpoint [("per_page", JInt 30)] ;;
     lift (let? events := PyJson.iter events in scan_create_events events))
    (fun _ => ret None).

(** The loop over the commits of one repository (lines 390-398). *)
Fixpoint scan_repo_commits (commits : list json) : Result (option string) :=
  match commits with
  | [] => Ok None
  | commit :: rest =>
      let? c := PyJson.get commit "commit" (JObj []) in
      let? author := PyJson.get c "author" (JObj []) in
      let? probe := PyJson.get author "email" JNull in
      if PyJson.truthy probe then
        let? c := PyJson.getitem commit "commit" in
        let? author := PyJson.getitem c "author" in
        let? email := PyJson.getitem author "email" in
        let? accepted := accept_email email in
        match accepted with
        | Some e => Ok (Some e)
        | None => scan_repo_commits rest
        end
      else scan_repo_commits rest
  end.

(** The loop over [repos[:3]] (lines 383-401).  The handler of the inner
    [try] formats [repo['name']] into its log line before it continues. *)
Fixpoint scan_repos (username : string) (repos : list json)
  : M (option string) :=
  match repos with
  | [] => ret None
  | repo :: rest =>
      owner <- lift (PyJson.get repo "owner" (JObj [])) ;;
      owner_login <- lift (PyJson.get owner "login" JNull) ;;
      if PyJson.eq_str owner_login username then
        found <-
          try_except
            (repo_name <- lift (PyJson.getitem repo "name") ;;
             let commits_endpoint :=
               "/repos/" +:+ username +:+ "/" +:+ format repo_name
               +:+ "/commits" in
             commits <- _make_request commits_endpoint
                          [("per_page", JInt 10); ("author", JStr username)] ;;
             lift (let? commits := PyJson.iter commits in
                   scan_repo_commits commits))
            (fun _ => lift (PyJson.getitem repo "name") ;;; ret None) ;;
        match found with
        | Some e => ret (Some e)
        | None => scan_repos username rest
        end
      else scan_repos username rest
  end.

Definition _extract_email_from_user_repos (username : string)
  : M (option string) :=
  try_except
    (let endpoint := "/users/" +:+ username +:+ "/repos" in
     repos <- _make_request endpoint
                [("per_page", JInt 10); ("sort", JStr "updated")] ;;
     first3 <- lift (PyJson.slice_to 3 repos) ;;
     first3 <- lift (PyJson.iter first3) ;;
     scan_repos username first3)
    (fun _ => ret None).

(** A strategy's [Optional[str]] as the value assigned to [email]. *)
Definition of_optional (o : option string) : json :=
  match o with
  | Some s => JStr s
  | None => JNull
  end.

(** Lines 153-189 of [get_user_info]: the value of [email] when the record
    is built, from the profile's value. *)
Definition discover_email (username : string) (aggressive : bool)
  (email : json) : M json :=
  if negb (PyJson.truthy email) && aggressive then
    email <-
      try_except
        (found <- _extract_email_from_commits username ;;
         ret (of_optional found))
        (fun _ => ret email) ;;
    email <-
      (if negb (PyJson.truthy email) then
         try_except
           (found <- _extract_email_from_events username ;;
            ret (of_optional found))
           (fun _ => ret email)
       else ret email) ;;
    email <-
      (if negb (PyJson.truthy email) then
         try_except
           (found <- _extract_email_from_user_repos username ;;
            ret (of_optional found))
           (fun _ => ret email)
       else ret email) ;;
    ret email
  else ret email.

Definition get_user_info (username : string)
  (aggressive_email_extraction : bool) : M UserInfo.t :=
  let endpoint := "/users/" +:+ username in
  data <- _make_request endpoint [] ;;
  email <- lift (PyJson.get data "email" JNull) ;;
  email <- discover_email username aggressive_email_extraction email ;;
  lift (let? login := PyJson.getitem data "login" in
        let? name := PyJson.get data "name" JNull in
        let? location := PyJson.get data "location" JNull in
        let? company := PyJson.get data "company" JNull in
        let? bio := PyJson.get data "bio" JNull in
        let? blog := PyJson.get data "blog" JNull in
        let? twitter_username := PyJson.get data "twitter_username" JNull in
        let? public_repos := PyJson.getitem data "public_repos" in
        let? followers := PyJson.getitem data "followers" in
        let? following := PyJson.getitem data "following" in
        let? created_at := PyJson.getitem data "created_at" in
        let? updated_at := PyJson.getitem data "updated_at" in
        let? avatar_url := PyJson.getitem data "avatar_url" in
        let? html_url := PyJson.getitem data "html_url" in
        UserInfo.detailed login name email location company bio blog
          twitter_username public_repos followers following created_at
          updated_at avatar_url html_url).

(** *** Pagination *)

(** [if max_pages and page > max_pages] *)
Definition page_limit_reached (max_pages : option Z) (page : Z) : bool :=
  match max_pages with
  | Some m => negb (m =? 0)%Z && (page >? m)%Z
  | None => false
  end.

Definition page_params (page per_page : Z) : list (string * json) :=
  [("page", JInt page); ("per_page", JInt per_page)].

(** The [for user_data in data] loop of [_paginate_users]. *)
Fixpoint append_users (users : list UserInfo.t) (data : list json)
  : Result (list UserInfo.t) :=
  match data with
  | [] => Ok users
  | user_data :: rest =>
      let? login := PyJson.getitem user_data "login" in
      let? avatar_url := PyJson.getitem user_data "avatar_url" in
      let? html_url := PyJson.getitem user_data "html_url" in
      let? user := UserInfo.minimal login avatar_url html_url in
      append_users (users ++ [user]) rest
  end.

(** The [while True] loop of [_paginate_users].  Every iteration that goes
    on has used up one pending answer, so the loop is cut after [fuel]
    iterations, [fuel] being more than the answers pending at entry. *)
Fixpoint _paginate_users_loop (fuel : nat) (endpoint : string)
  (per_page : Z) (max_pages : option Z) (users : list UserInfo.t)
  (page : Z) : M (list UserInfo.t) :=
  match fuel with
  | O => ret users
  | S fuel' =>
      if page_limit_reached max_pages page then ret users
      else
        data <- _make_request endpoint (page_params page per_page) ;;
        if negb (PyJson.truthy data) then ret users
        else
          items <- lift (PyJson.iter data) ;;
          users <- lift (append_users users items) ;;
          _paginate_users_loop fuel' endpoint per_page max_pages users
            (page + 1)
  end.

Definition _paginate_users (endpoint : string) (per_page : Z)
  (max_pages : option Z) : M (list UserInfo.t) :=
  fun w =>
    _paginate_users_loop (S (length (pending w))) endpoint per_page
      max_pages [] 1 w.

Definition get_stargazers (owner repo : string) (per_page : Z)
  (max_pages : option Z) : M (list UserInfo.t) :=
  let endpoint := "/repos/" +:+ owner +:+ "/" +:+ repo +:+ "/stargazers" in
  _paginate_users endpoint per_page max_pages.

(** The [for fork in data] loop of [get_forks]. *)
Fixpoint append_fork_owners (users : list UserInfo.t) (data : list json)
  : Result (list UserInfo.t) :=
  match data with
  | [] => Ok users
  | fork :: rest =>
      let? owner_info := PyJson.getitem fork "owner" in
      let? login := PyJson.getitem owner_info "login" in
      let? avatar_url := PyJson.getitem owner_info "avatar_url" in
      let? html_url := PyJson.getitem owner_info "html_url" in
      let? user := UserInfo.minimal login avatar_url html_url in
      append_fork_owners (users ++ [user]) rest
  end.

(** The [while True] loop of [get_forks], cut like the one above. *)
Fixpoint get_forks_loop (fuel : nat) (endpoint : string) (per_page : Z)
  (max_pages : option Z) (users : list UserInfo.t) (page : Z)
  : M (list UserInfo.t) :=
  match fuel with
  | O => ret users
  | S fuel' =>
      if page_limit_reached max_pages page then ret users
      else
        data <- _make_request endpoint (page_params page per_page) ;;
        if negb (PyJson.truthy data) then ret users
        else
          forks <- lift (PyJson.iter data) ;;
          users <- lift (append_fork_owners users forks) ;;
          get_forks_loop fuel' endpoint per_page max_pages users (page + 1)
  end.

Definition get_forks (owner repo : string) (per_page : Z)
  (max_pages : option Z) : M (list UserInfo.t) :=
  let endpoint := "/repos/" +:+ owner +:+ "/" +:+ repo +:+ "/forks" in
  fun w =>
    get_forks_loop (S (length (pending w))) endpoint per_page max_pages
      [] 1 w.

End Client.

(** ** stargazer/extractor.py *)

Section Extractor.
Context {P : Platform}.

(** [if max_count:] on an [Optional[int]] *)
Definition given (max_count : option Z) : bool :=
  match max_count with
  | Some n => negb (n =? 0)%Z
  | None => false
  end.

(** [l[:n]] *)
Definition slice_to {A} (n : Z) (l : list A) : list A :=
  if (0 <=? n)%Z then firstn (Z.to_nat n) l
  else firstn (length l - Z.to_nat (- n)) l.

(** Lines 170-179 and 216-225: the loop that replaces each record by the
    detailed one, keeping the record itself when the fetch fails. *)
Fixpoint fetch_details (aggressive_email_extraction : bool)
  (detailed users : list UserInfo.t) : M (list UserInfo.t) :=
  match users with
  | [] => ret detailed
  | user :: rest =>
      detailed_user <-
        try_except
          (get_user_info (UserInfo.login user) aggressive_email_extraction)
          (fun _ => ret user) ;;
      fetch_details aggressive_email_extraction (detailed ++ [detailed_user])
        rest
  end.

Definition _extract_stargazers (owner repo_name : string)
  (max_count : option Z) (detailed_info aggressive_email_extraction : bool)
  : M (list UserInfo.t) :=
  let per_page := 30%Z in
  let max_pages :=
    match max_count with
    | Some n => if given max_count
                then Some ((n + per_page - 1) / per_page)%Z else None
    | None => None
    end in
  stargazers <- get_stargazers owner repo_name per_page max_pages ;;
  let stargazers :=
    match max_count with
    | Some n => if given max_count then slice_to n stargazers else stargazers
    | None => stargazers
    end in
  if detailed_info
  then fetch_details aggressive_email_extraction [] stargazers
  else ret stargazers.

Definition _extract_forkers (owner repo_name : string)
  (max_count : option Z) (detailed_info aggressive_email_extraction : bool)
  : M (list UserInfo.t) :=
  let per_page := 30%Z in
  let max_pages :=
    match max_count with
    | Some n => if given max_count
                then Some ((n + per_page - 1) / per_page)%Z else None
    | None => None
    end in
  forkers <- get_forks owner repo_name per_page max_pages ;;
  let forkers :=
    match max_count with
    | Some n => if given max_count then slice_to n forkers else forkers
    | None => forkers
    end in
  if detailed_info
  then fetch_details aggressive_email_extraction [] forkers
  else ret forkers.

Definition extract_repository_info (repo_url : string)
  (include_stargazers include_forkers : bool)
  (max_stargazers max_forkers : option Z)
  (detailed_user_info aggressive_email_extraction : bool)
  : M ExtractionResult.t :=
  parsed <- lift (_parse_repo_identifier repo_url) ;;
  let '(owner, repo_name) := parsed in
  repo_info <-
    try_except (get_repository_info owner repo_name)
      (fun e => if is_GitHubAPIError e then raise e else raise e) ;;
  let result :=
    {| ExtractionResult.repository := repo_info;
       ExtractionResult.stargazers := [];
       ExtractionResult.forkers := [];
       ExtractionResult.total_stargazers :=
         RepoInfo.stargazers_count repo_info;
       ExtractionResult.total_forkers := RepoInfo.forks_count repo_info |} in
  result <-
    (if include_stargazers then
       try_except
         (stargazers <- _extract_stargazers owner repo_name max_stargazers
                          detailed_user_info aggressive_email_extraction ;;
          ret (ExtractionResult.set_stargazers stargazers result))
         (fun _ => ret result)
     else ret result) ;;
  result <-
    (if include_forkers then
       try_except
         (forkers <- _extract_forkers owner repo_name max_forkers
                       detailed_user_info aggressive_email_extraction ;;
          ret (ExtractionResult.set_forkers forkers result))
         (fun _ => ret result)
     else ret result) ;;
  ret result.

End Extractor.

(** ** A platform for the worked examples

    Strict validation (a field accepts only the JSON type it declares,
    timestamps are kept as text) and a URL parser without the bracketed-host
    check. *)
Definition strict_platform : Platform := {|
  check_bracketed_netloc := fun _ => true;
  datetime := string;
  validate_str := fun v => match v with JStr s => Some s | _ => None end;
  validate_opt_str := fun v =>
    match v with
    | JStr s => Some (Some s)
    | JNull => Some None
    | _ => None
    end;
  validate_int := fun v => match v with JInt z => Some z | _ => None end;
  validate_opt_datetime := fun v =>
    match v with
    | JStr s => Some (Some s)
    | JNull => Some None
    | _ => None
    end;
  format := fun v => match v with JStr s => s | _ => EmptyString end;
  format_str := fun s => eq_refl
|}.

(** * The vocabulary of the specification *)

(** No character of [s] satisfies [p]. *)
Definition clean (p : ascii -> bool) (s : string) : Prop :=
  PyStr.forallb (fun c => negb (p c)) s = true.

(** A character of a GitHub owner or repository name. *)
Definition name_char (c : ascii) : bool :=
  PyStr.is_alpha c || PyStr.is_digit c
  || Ascii.eqb c "-" || Ascii.eqb c "_" || Ascii.eqb c ".".

(** A valid owner or repository name: not empty, name characters only. *)
Definition valid_name (s : string) : Prop :=
  s <> EmptyString /\ PyStr.forallb name_char s = true.

(** What may follow the repository in a URL: nothing, or whatever starts
    with a further path segment, a query or a fragment. *)
Definition trailing (rest : string) : Prop :=
  rest = EmptyString
  \/ exists c r, rest = String c r /\ (c = "/" \/ c = "?" \/ c = "#")%char.

(** Nothing, or further path segments. *)
Definition more_segments (tail : string) : Prop :=
  tail = EmptyString \/ exists r, tail = String "/" r.

(** [p] holds of no name character. *)
Definition off_names (p : ascii -> bool) : Prop :=
  forall c, name_char c = true -> p c = false.

Definition nonempty (s : string) : bool := negb (String.eqb s EmptyString).

(** The non-empty segments of a path. *)
Definition nonempty_segments (path : string) : list string :=
  filter nonempty (PyStr.split "/" path).

Fixpoint count_char (c : ascii) (s : string) : nat :=
  match s with
  | EmptyString => 0
  | String a s' => (if Ascii.eqb a c then 1 else 0) + count_char c s'
  end.

(** An identifier in URL form. *)
Definition is_url (t : string) : bool :=
  PyStr.startswith t "http://" || PyStr.startswith t "https://".

(** The two failures of [resolve] the specification names. *)
Definition UnsupportedHost : exn := ValueError OnlyGitHubSupported.

Definition InvalidIdentifier (e : exn) : Prop :=
  e = ValueError InvalidRepositoryURL
  \/ e = ValueError InvalidRepositoryFormat
  \/ e = ValueError InvalidRepositoryIdentifier.

(** ** The client, one step at a time *)

Section ClientVocabulary.
Context {P : Platform}.

(** What [_make_request] returns when [x] is the next answer. *)
Definition delivered (endpoint : string) (x : Exchange) : Result json :=
  fst (_make_request endpoint []
         {| pending := [x]; now := 0; trace := []; naps := 0 |}).

(** The records of one page. *)
Definition users_of (data : json) : Result (list UserInfo.t) :=
  let? items := PyJson.iter data in append_users [] items.

(** One turn of the [while True] loop of [_paginate_users], the rest of the
    walk being [continue]. *)
Definition paginate_turn (endpoint : string) (per_page : Z)
  (max_pages : option Z)
  (continue : list UserInfo.t -> Z -> M (list UserInfo.t))
  (users : list UserInfo.t) (page : Z) : M (list UserInfo.t) :=
  fun w =>
    if page_limit_reached max_pages page then (Ok users, w)
    else
      match _make_request endpoint (page_params page per_page) w with
      | (Raise e, w') => (Raise e, w')
      | (Ok data, w') =>
          if PyJson.truthy data then
            match users_of data with
            | Raise e => (Raise e, w')
            | Ok us => continue (users ++ us) (page + 1)%Z w'
            end
          else (Ok users, w')
      end.

(** The walk from page [page] on with [users] collected so far. *)
Definition paginate_from (endpoint : string) (per_page : Z)
  (max_pages : option Z) (users : list UserInfo.t) (page : Z)
  : M (list UserInfo.t) :=
  fun w =>
    _paginate_users_loop (S (length (pending w))) endpoint per_page max_pages
      users page w.

(** A page cap is given and [page] is beyond it; a cap of 0 is no cap. *)
Definition beyond (max_pages : option Z) (page : Z) : Prop :=
  exists m, max_pages = Some m /\ m <> 0%Z /\ (page > m)%Z.

(** The walk of the specification over the answers to come, from page
    [page] on: the pages of records it collects, in order, and the number of
    requests it makes.  It stops when the next page is beyond the cap, or
    at the first page without items. *)
Inductive Walk (endpoint : string) (max_pages : option Z)
  : Z -> list Exchange -> list (list UserInfo.t) -> nat -> Prop :=
| Walk_cap page xs :
    beyond max_pages page ->
    Walk endpoint max_pages page xs [] 0
| Walk_empty page x xs data :
    ~ beyond max_pages page ->
    delivered endpoint x = Ok data ->
    PyJson.truthy data = false ->
    Walk endpoint max_pages page (x :: xs) [] 1
| Walk_page page x xs data us uss n :
    ~ beyond max_pages page ->
    delivered endpoint x = Ok data ->
    PyJson.truthy data = true ->
    users_of data = Ok us ->
    Walk endpoint max_pages (page + 1) xs uss n ->
    Walk endpoint max_pages page (x :: xs) (us :: uss) (S n).

(** The world after the requests for [n] pages from [page] on. *)
Fixpoint after_pages (endpoint : string) (per_page page : Z) (n : nat)
  (w : World) : World :=
  match n with
  | O => w
  | S n' =>
      after_pages endpoint per_page (page + 1) n'
        (snd (_make_request endpoint (page_params page per_page) w))
  end.

Definition page_request (endpoint : string) (per_page page : Z) : Request :=
  {| endpoint := endpoint; params := page_params page per_page |}.

(** The requests for [n] pages from [page] on. *)
Fixpoint page_requests (endpoint : string) (per_page page : Z) (n : nat)
  : list Request :=
  match n with
  | O => []
  | S n' =>
      page_request endpoint per_page page
      :: page_requests endpoint per_page (page + 1) n'
  end.

(** The answer [x] holds at most [per_page] items. *)
Definition honours (endpoint : string) (per_page : Z) (x : Exchange) : Prop :=
  forall data items,
    delivered endpoint x = Ok data -> PyJson.iter data = Ok items ->
    (Z.of_nat (length items) <= per_page)%Z.

(** *** The fork walk *)

(** One turn of the [while True] loop of [get_forks]. *)
Definition forks_turn (endpoint : string) (per_page : Z)
  (max_pages : option Z)
  (continue : list UserInfo.t -> Z -> M (list UserInfo.t))
  (users : list UserInfo.t) (page : Z) : M (list UserInfo.t) :=
  fun w =>
    if page_limit_reached max_pages page then (Ok users, w)
    else
      match _make_request endpoint (page_params page per_page) w with
      | (Raise e, w') => (Raise e, w')
      | (Ok data, w') =>
          if PyJson.truthy data then
            match (let? forks := PyJson.iter data in
                   append_fork_owners users forks) with
            | Raise e => (Raise e, w')
            | Ok users' => continue users' (page + 1)%Z w'
            end
          else (Ok users, w')
      end.

Definition forks_from (endpoint : string) (per_page : Z)
  (max_pages : option Z) (users : list UserInfo.t) (page : Z)
  : M (list UserInfo.t) :=
  fun w =>
    get_forks_loop (S (length (pending w))) endpoint per_page max_pages
      users page w.

(** The nested owner object of a fork entry ([null] when there is none). *)
Definition owner_of (fork : json) : json :=
  match PyJson.getitem fork "owner" with
  | Ok o => o
  | Raise _ => JNull
  end.

(** A page of forks as the page of their owners. *)
Definition owners_page (data : json) : json :=
  match data with
  | JArr forks => JArr (map owner_of forks)
  | _ => data
  end.

Definition owners_exchange (x : Exchange) : Exchange :=
  {| reply := match reply x with
              | ConnectionFailed => ConnectionFailed
              | Answered r =>
                  Answered {| status_code := status_code r;
                              headers := headers r;
                              body := option_map owners_page (body r) |}
              end;
     clock := clock x |}.

(** The same world with every page of forks replaced by the page of their
    owners. *)
Definition owners_world (w : World) : World :=
  {| pending := map owners_exchange (pending w);
     now := now w; trace := trace w; naps := naps w |}.

(** Every entry of the page is an object with an "owner". *)
Definition has_owners (data : json) : Prop :=
  match data with
  | JArr forks => Forall (fun f => exists o, PyJson.getitem f "owner" = Ok o)
                    forks
  | _ => True
  end.

Definition fork_pages (x : Exchange) : Prop :=
  match reply x with
  | Answered r => match body r with
                  | Some data => has_owners data
                  | None => True
                  end
  | ConnectionFailed => True
  end.

(** Both fail, or both return the same value. *)
Definition same_outcome {A} (r1 r2 : Result A) : Prop :=
  match r1, r2 with
  | Ok a, Ok b => a = b
  | Raise _, Raise _ => True
  | _, _ => False
  end.

(** The reset time [_make_request] reads off a 429 response: the header
    as an integer, 0 when it is absent; [None] when it is no integer. *)
Definition reset_time_of (r : Response) : option Z :=
  match headers_get "X-RateLimit-Reset" (headers r) with
  | None => Some 0%Z
  | Some v => PyStr.int v
  end.



(** The one request of the first two strategies. *)
Definition events_request (username : string) : Request :=
  {| endpoint := "/users/" +:+ username +:+ "/events";
     params := [("per_page", JInt 30)] |}.

Definition public_events_request (username : string) : Request :=
  {| endpoint := "/users/" +:+ username +:+ "/events/public";
     params := [("per_page", JInt 30)] |}.

(** The first request of the third strategy. *)
Definition repos_request (username : string) : Request :=
  {| endpoint := "/users/" +:+ username +:+ "/repos";
     params := [("per_page", JInt 10); ("sort", JStr "updated")] |}.

(** The record [u] is the projection of [item]: built from its "login",
    "avatar_url" and "html_url". *)
Definition projects (item : json) (u : UserInfo.t) : Prop :=
  exists login avatar_url html_url,
    PyJson.getitem item "login" = Ok login
    /\ PyJson.getitem item "avatar_url" = Ok avatar_url
    /\ PyJson.getitem item "html_url" = Ok html_url
    /\ UserInfo.minimal login avatar_url html_url = Ok u.

(** What [fetch_details] leaves in the place of the record [u]: the record
    itself, or the detailed record fetched for its login. *)
Definition kept_or_detailed (aggressive : bool)
  (u d : UserInfo.t) : Prop :=
  d = u
  \/ exists w w',
       get_user_info (UserInfo.login u) aggressive w = (Ok d, w').

(** The section a failed fetch leaves. *)
Definition or_empty {A} (r : Result (list A)) : list A :=
  match r with
  | Ok l => l
  | Raise _ => []
  end.

(** *** Answers and worlds for the worked examples *)

Definition page_of_users (logins : list string) : Exchange :=
  {| reply :=
       Answered
         {| status_code := 200; headers := [];
            body := Some (JArr (map (fun l =>
                                       JObj [("login", JStr l);
                                             ("avatar_url", JNull);
                                             ("html_url", JNull)])
                                    logins)) |};
     clock := 0 |}.

Definition world_of (answers : list Exchange) : World :=
  {| pending := answers; now := 0; trace := []; naps := 0 |}.

Definition repository_answer (stars forks : Z) : Exchange :=
  {| reply :=
       Answered
         {| status_code := 200; headers := [];
            body := Some (JObj [("name", JStr "r");
                                ("full_name", JStr "o/r");
                                ("owner", JObj [("login", JStr "o")]);
                                ("description", JNull);
                                ("html_url", JStr "https://github.com/o/r");
                                ("stargazers_count", JInt stars);
                                ("forks_count", JInt forks);
                                ("language", JNull);
                                ("created_at", JNull);
                                ("updated_at", JNull)]) |};
     clock := 0 |}.

Definition answer_with (status : Z) (hs : list (string * string))
  (data : option json) : Exchange :=
  {| reply := Answered {| status_code := status; headers := hs;
                          body := data |};
     clock := 0 |}.

Definition fork_of (login : string) : json :=
  JObj [("owner", JObj [("login", JStr login);
                        ("avatar_url", JStr "https://github.com/f.png");
                        ("html_url", JStr "https://github.com/f")])].

End ClientVocabulary.

(** * The rest of the package *)

(** ** stargazer/config.py

    [get_headers] and [has_token] are class methods: whatever object they
    are called on, they read the attributes of the class [Config], set when
    the module is loaded. *)

Module Config.

(** The class attribute the methods read: [os.getenv("GITHUB_TOKEN")],
    [None] when the variable is not set.  The other attributes of the
    class are constants. *)
Record cls : Type := { GITHUB_TOKEN : option string }.


(** The dict [get_headers] returns, in insertion order. *)
Definition get_headers (c : cls) : list (string * string) :=
  let headers := [("Accept", "application/vnd.github.v3+json");
                  ("User-Agent", "Stargazer/0.1.0")] in
  match GITHUB_TOKEN c with
  | Some token =>
      if negb (String.eqb token "")
      then headers ++ [("Authorization", "token " +:+ token)]
      else headers
  | None => headers
  end.

(** [cls.GITHUB_TOKEN is not None and cls.GITHUB_TOKEN.strip() != ""] *)
Definition has_token (c : cls) : bool :=
  match GITHUB_TOKEN c with
  | Some token => negb (String.eqb (PyStr.strip token) "")
  | None => false
  end.

(** An instance [Config()]: its class, and the value assigned to
    [GITHUB_TOKEN] on the instance itself, if any. *)
Record t : Type := {
  class_of : cls;
  own_GITHUB_TOKEN : option string
}.

(** [config.GITHUB_TOKEN] read on an instance: the instance's own attribute
    hides the one of the class. *)
Definition read_GITHUB_TOKEN (c : t) : option string :=
  match own_GITHUB_TOKEN c with
  | Some token => Some token
  | None => GITHUB_TOKEN (class_of c)
  end.

End Config.

(** ** stargazer/github_client.py: the constructor and the headers of a
       request *)

Module GitHubClient.

(** The client's state apart from its HTTP session. *)
Record t : Type := { config : Config.t }.

(** [GitHubClient(token)], [cls] being the class [Config] as loaded:
    [self.config = Config()], then [self.config.GITHUB_TOKEN = token] for a
    truthy token. *)
Definition __init__ (cls : Config.cls) (token : option string) : t :=
  let config := {| Config.class_of := cls;
                   Config.own_GITHUB_TOKEN := None |} in
  {| config :=
       match token with
       | Some tok =>
           if negb (String.eqb tok "")
           then {| Config.class_of := Config.class_of config;
                   Config.own_GITHUB_TOKEN := Some tok |}
           else config
       | None => config
       end |}.

(** Line 76 of [_make_request]: [headers = self.config.get_headers()], the
    class method called through the instance. *)
Definition request_headers (self : t) : list (string * string) :=
  Config.get_headers (Config.class_of (config self)).

End GitHubClient.

(** ** stargazer/github_client.py: the session

    [_create_session] hands the session a retry strategy.  What the adapter
    does with it happens inside [session.get], in requests and urllib3:
    here it is the data the session is built from. *)

Module Session.

(** [Retry(total=..., backoff_factor=..., status_forcelist=...)] *)
Record Retry : Type := {
  total : Z;
  backoff_factor : Z;
  status_forcelist : list Z
}.

(** [HTTPAdapter(max_retries=...)] *)
Record HTTPAdapter : Type := { max_retries : Retry }.

(** A session: the adapters mounted on it, by URL prefix. *)
Record t : Type := { adapters : list (string * HTTPAdapter) }.


End Session.


(** [get_rate_limit_status] of the client. *)
Definition get_rate_limit_status : M json := _make_request "/rate_limit" [].

(** ** stargazer/extractor.py: the constructor and [get_rate_limit_status] *)

Module GitHubExtractor.

Record t : Type := { client : GitHubClient.t }.

(** [GitHubExtractor(github_token)] *)
Definition __init__ (cls : Config.cls) (github_token : option string) : t :=
  {| client := GitHubClient.__init__ cls github_token |}.

(** [self.client.get_rate_limit_status()] *)
Definition get_rate_limit_status : M json := get_rate_limit_status.

End GitHubExtractor.

(** ** stargazer/models.py: the [parse_datetime] pre-validator *)

(** [s.replace(old, new)] for a one-character [old]. *)
Fixpoint replace (old : ascii) (new : string) (s : string) : string :=
  match s with
  | EmptyString => EmptyString
  | String c s' =>
      if Ascii.eqb c old then new +:+ replace old new s'
      else String c (replace old new s')
  end.

Section ParseDatetime.
Context {P : Platform}.

(** [datetime.fromisoformat]; [None] is its ValueError. *)
Variable fromisoformat : string -> option datetime.

(** The validator of [created_at] and [updated_at], the same in [UserInfo]
    and [RepoInfo]: a string is parsed, any other value is passed on as it
    is. *)
Definition parse_datetime (v : json) : option (datetime + json) :=
  match v with
  | JStr s => option_map inl (fromisoformat (replace "Z" "+00:00" s))
  | _ => Some (inr v)
  end.

End ParseDatetime.

(** ** Vocabulary for the properties of the rest of the package *)

Section MoreVocabulary.
Context {P : Platform}.

(** The keys [get_repository_info] indexes in the body, in the order it
    does. *)
Definition repository_keys : list string :=
  ["name"; "full_name"; "owner"; "html_url"; "stargazers_count";
   "forks_count"; "created_at"; "updated_at"].

(** The keys [get_user_info] indexes in the profile, in the order it
    does. *)
Definition profile_keys : list string :=
  ["login"; "public_repos"; "followers"; "following"; "created_at";
   "updated_at"; "avatar_url"; "html_url"].

(** The first of [keys] that [fields] does not hold. *)
Definition first_missing (keys : list string)
  (fields : list (string * json)) : option string :=
  find (fun k => match PyJson.lookup k fields with
                 | None => true
                 | Some _ => false
                 end) keys.

(** The request of [get_repository_info], and the first request of
    [get_user_info]. *)
Definition repository_request (owner repo : string) : Request :=
  {| endpoint := "/repos/" +:+ owner +:+ "/" +:+ repo; params := [] |}.

Definition profile_request (username : string) : Request :=
  {| endpoint := "/users/" +:+ username; params := [] |}.

(** The request of the third strategy for the commits of the repository
    named [name]. *)
Definition commits_request (username : string) (name : json) : Request :=
  {| endpoint := "/repos/" +:+ username +:+ "/" +:+ format name
                 +:+ "/commits";
     params := [("per_page", JInt 10); ("author", JStr username)] |}.

(** The entry [repo] of a repository listing names [username] as its owner
    (line 384). *)
Definition own_repo (username : string) (repo : json) : Prop :=
  exists owner login,
    PyJson.get repo "owner" (JObj []) = Ok owner
    /\ PyJson.get owner "login" JNull = Ok login
    /\ PyJson.eq_str login username = true.

(** The entries of the user's repository listing the third strategy looks
    at: the first three of the listing to come next (line 383). *)
Definition listed_repos (username : string) (w : World) : list json :=
  match fst (_make_request (endpoint (repos_request username))
               (params (repos_request username)) w) with
  | Ok repos =>
      match (let? first3 := PyJson.slice_to 3 repos in
             PyJson.iter first3) with
      | Ok items => items
      | Raise _ => []
      end
  | Raise _ => []
  end.

(** The requests email discovery may make for a user, in order: none, or
    the events, then the public events, then the repository listing and the
    commits of up to three repositories. *)
Definition discovery_log (username : string) (more : list Request) : Prop :=
  more = []
  \/ more = [events_request username]
  \/ more = [events_request username; public_events_request username]
  \/ exists names,
       length names <= 3
       /\ more = events_request username
                 :: public_events_request username
                 :: repos_request username
                 :: map (commits_request username) names.

(** *** Well-formed payloads of the email strategies *)

(** The commit [commit] of an event names the author email [e], a string or
    null. *)
Definition event_commit_with (commit : json) (e : option string) : Prop :=
  exists author,
    PyJson.getitem commit "author" = Ok author
    /\ PyJson.getitem author "email" = Ok (of_optional e).

(** The commit [commit] of a repository's commit listing names the author
    email [e]. *)
Definition repo_commit_with (commit : json) (e : option string) : Prop :=
  exists inner author,
    PyJson.getitem commit "commit" = Ok inner
    /\ PyJson.getitem inner "author" = Ok author
    /\ PyJson.getitem author "email" = Ok (of_optional e).

(** The event [event] has the type [fst shape] and a payload whose commits
    name the author emails [snd shape], in order; a payload without
    commits names none. *)
Definition event_with (event : json) (shape : string * list (option string))
  : Prop :=
  PyJson.getitem event "type" = Ok (JStr (fst shape))
  /\ ((exists payload commits,
         PyJson.getitem event "payload" = Ok payload
         /\ PyJson.getitem payload "commits" = Ok (JArr commits)
         /\ Forall2 event_commit_with commits (snd shape))
      \/ (exists fields,
            PyJson.get event "payload" (JObj []) = Ok (JObj fields)
            /\ PyJson.lookup "commits" fields = None
            /\ snd shape = [])).

(** The author emails of the events of type [kind], in order. *)
Definition emails_of (kind : string)
  (shapes : list (string * list (option string))) : list (option string) :=
  concat (map snd (filter (fun shape => String.eqb (fst shape) kind) shapes)).

(** The author email [e] is a string that passes the filter. *)
Definition acceptable (e : option string) : bool :=
  match e with
  | Some s => email_ok s
  | None => false
  end.

(** The first email of the list that passes the filter. *)
Definition first_acceptable (emails : list (option string))
  : option string :=
  match find acceptable emails with
  | Some e => e
  | None => None
  end.

(** The response to come next has a status that is neither 429 nor an
    error status. *)
Definition accepted_next (w : World) : bool :=
  match pending w with
  | x :: _ =>
      match reply x with
      | Answered r =>
          negb ((status_code r =? 429)%Z
                || (400 <=? status_code r)%Z && (status_code r <? 600)%Z)
      | ConnectionFailed => false
      end
  | [] => false
  end.

(** What [_make_request] may raise. *)
Definition request_failure (endpoint : string) (w : World) (e : exn)
  : Prop :=
  match e with
  | RateLimitError wait_time => (60 <= wait_time)%Z
  | GitHubAPIError (RepositoryNotFound ep) => ep = endpoint
  | GitHubAPIError (AccessForbidden ep) => ep = endpoint
  | GitHubAPIError (HTTPStatus status) =>
      (400 <= status < 600)%Z
      /\ status <> 404%Z /\ status <> 403%Z /\ status <> 429%Z
  | GitHubAPIError RequestFailed => True
  | ValueError v =>
      v = InvalidIntLiteral
      /\ exists x xs r,
           pending w = x :: xs /\ reply x = Answered r
           /\ status_code r = 429%Z /\ reset_time_of r = None
  | _ => False
  end.

(** A page a walk collects, [records_of] giving the records of a page: it
    is delivered, holds items, and every item gives a record. *)
Definition good_page (records_of : json -> Result (list UserInfo.t))
  (endpoint : string) (x : Exchange) : Prop :=
  exists data us,
    delivered endpoint x = Ok data
    /\ PyJson.truthy data = true
    /\ records_of data = Ok us.

(** A page on which a walk fails with [e]: the request fails, or an item
    of the page gives no record. *)
Definition bad_page (records_of : json -> Result (list UserInfo.t))
  (endpoint : string) (x : Exchange) (e : exn) : Prop :=
  delivered endpoint x = Raise e
  \/ exists data,
       delivered endpoint x = Ok data
       /\ PyJson.truthy data = true
       /\ records_of data = Raise e.

(** The records of one page of forks. *)
Definition fork_owners_of (data : json) : Result (list UserInfo.t) :=
  let? forks := PyJson.iter data in append_fork_owners [] forks.

(** The page cap leaves room for one page more than the [n] first. *)
Definition room_after (max_pages : option Z) (n : nat) : Prop :=
  forall m, max_pages = Some m -> m <> 0%Z -> (Z.of_nat n < m)%Z.

(** [data] is a JSON array, a Python list. *)
Definition is_array (data : json) : bool :=
  match data with
  | JArr _ => true
  | _ => false
  end.

(** All but the last [k] elements: [l[:-k]] for a positive [k]. *)
Definition drop_last {A} (k : nat) (l : list A) : list A :=
  firstn (length l - k) l.

(** The requests one user's details may cost. *)
Definition details_cost (aggressive : bool) : nat :=
  if aggressive then 7 else 1.

(** A record as a walk builds it: apart from the login, the avatar and
    the profile URL every field has its default. *)
Definition plain_record (u : UserInfo.t) : Prop :=
  UserInfo.name u = None /\ UserInfo.email u = None
  /\ UserInfo.location u = None /\ UserInfo.company u = None
  /\ UserInfo.bio u = None /\ UserInfo.blog u = None
  /\ UserInfo.twitter_username u = None
  /\ UserInfo.public_repos u = 0%Z /\ UserInfo.followers u = 0%Z
  /\ UserInfo.following u = 0%Z
  /\ UserInfo.created_at u = None /\ UserInfo.updated_at u = None.

(** The requests for the details of [users], [mores] being what email
    discovery asks for each of them beyond the profile. *)
Definition details_log (users : list UserInfo.t)
  (mores : list (list Request)) : list Request :=
  concat (map (fun um => profile_request (UserInfo.login (fst um)) :: snd um)
              (combine users mores)).

(** What an extraction may raise. *)
Definition extraction_failure (e : exn) : Prop :=
  match e with
  | ValueError _ => True
  | GitHubAPIError _ => True
  | RateLimitError wait_time => (60 <= wait_time)%Z
  | KeyError key => In key ("login" :: repository_keys)
  | TypeError => True
  | ValidationError => True
  | AttributeError => False
  | HTTPError _ => False
  | RequestException => False
  end.

(** Whitespace only. *)
Definition blank (s : string) : Prop := PyStr.forallb PyStr.is_space s = true.

(** *** Events for the worked instances *)

(** A commit of an event with the author email [email]. *)
Definition commit_by (email : json) : json :=
  JObj [("sha", JStr "0c1d"); ("author", JObj [("name", JStr "U");
                                              ("email", email)])].

(** A watch event, then a push event of four commits. *)
Definition recent_events : list json :=
  [JObj [("type", JStr "WatchEvent");
         ("payload", JObj [("action", JStr "started")])];
   JObj [("type", JStr "PushEvent");
         ("payload",
          JObj [("commits",
                 JArr [commit_by (JStr "u@users.noreply.github.com");
                       commit_by JNull;
                       commit_by (JStr "me@example.org");
                       commit_by (JStr "other@example.org")])])]].

End MoreVocabulary.

(** * Facts about the string operations *)

Section StringFacts.

Lemma clean_cons p c s :
  clean p (String c s) <-> p c = false /\ clean p s.
Proof.
  unfold clean; simpl. rewrite andb_true_iff, negb_true_iff. tauto.
Qed.

Lemma clean_app p a b : clean p a -> clean p b -> clean p (a +:+ b).
Proof.
  induction a as [|c a IH]; simpl; intros Ha Hb; [exact Hb|].
  apply clean_cons in Ha. apply clean_cons. split; [tauto|]. apply IH; tauto.
Qed.

Lemma rstrip_by_app p a b :
  PyStr.rstrip_by p (a +:+ b) =
  match PyStr.rstrip_by p b with
  | EmptyString => PyStr.rstrip_by p a
  | r => a +:+ r
  end.
Proof.
  induction a as [|c a IH]; simpl.
  - destruct (PyStr.rstrip_by p b); reflexivity.
  - rewrite IH. destruct (PyStr.rstrip_by p b) as [|x r]; [reflexivity|].
    destruct a; reflexivity.
Qed.

Lemma rstrip_by_clean p s : clean p s -> PyStr.rstrip_by p s = s.
Proof.
  induction s as [|c s IH]; simpl; intros H; [reflexivity|].
  apply clean_cons in H. destruct H as [Hc Hs]. rewrite (IH Hs).
  destruct s; [rewrite Hc|]; reflexivity.
Qed.

Lemma rstrip_by_cons_keep p c s :
  p c = false ->
  PyStr.rstrip_by p (String c s) = String c (PyStr.rstrip_by p s).
Proof.
  intros Hc. simpl. destruct (PyStr.rstrip_by p s); [rewrite Hc|]; reflexivity.
Qed.

Lemma before_app_clean p a b :
  clean p a -> PyStr.before p (a +:+ b) = a +:+ PyStr.before p b.
Proof.
  induction a as [|c a IH]; simpl; intros H; [reflexivity|].
  apply clean_cons in H. destruct H as [Hc Hs]. rewrite Hc, (IH Hs).
  reflexivity.
Qed.

Lemma remove_app_clean p a b :
  clean p a -> PyStr.remove p (a +:+ b) = a +:+ PyStr.remove p b.
Proof.
  induction a as [|c a IH]; simpl; intros H; [reflexivity|].
  apply clean_cons in H. destruct H as [Hc Hs]. rewrite Hc, (IH Hs).
  reflexivity.
Qed.

Lemma splitparams_app_clean a b :
  clean (Ascii.eqb ";") a ->
  Urllib.splitparams (a +:+ b) = a +:+ Urllib.splitparams b.
Proof.
  induction a as [|c a IH]; simpl; intros H; [reflexivity|].
  apply clean_cons in H. destruct H as [Hc Hs].
  rewrite Ascii.eqb_sym, Hc, (IH Hs). reflexivity.
Qed.

Lemma char_in_app c a b :
  PyStr.char_in c (a +:+ b) = PyStr.char_in c a || PyStr.char_in c b.
Proof.
  induction a as [|x a IH]; simpl; [reflexivity|].
  rewrite IH, orb_assoc. reflexivity.
Qed.

Lemma char_in_clean c s : clean (Ascii.eqb c) s -> PyStr.char_in c s = false.
Proof.
  induction s as [|x s IH]; simpl; intros H; [reflexivity|].
  apply clean_cons in H. destruct H as [Hc Hs].
  rewrite Ascii.eqb_sym, Hc, (IH Hs). reflexivity.
Qed.

Lemma char_in_clean_iff c s :
  PyStr.char_in c s = false <-> clean (Ascii.eqb c) s.
Proof.
  split; [|apply char_in_clean].
  induction s as [|x s IH]; simpl; intros H; [reflexivity|].
  apply orb_false_iff in H. destruct H as [Hx Hs].
  apply clean_cons. rewrite Ascii.eqb_sym. auto.
Qed.

Lemma split_clean c s : clean (Ascii.eqb c) s -> PyStr.split c s = [s].
Proof.
  induction s as [|x s IH]; simpl; intros H; [reflexivity|].
  apply clean_cons in H. destruct H as [Hc Hs].
  rewrite Ascii.eqb_sym, Hc, (IH Hs). reflexivity.
Qed.

Lemma split_app_clean c a b :
  clean (Ascii.eqb c) a ->
  PyStr.split c (a +:+ String c b) = a :: PyStr.split c b.
Proof.
  induction a as [|x a IH]; simpl; intros H.
  - rewrite Ascii.eqb_refl. reflexivity.
  - apply clean_cons in H. destruct H as [Hc Hs].
    rewrite Ascii.eqb_sym, Hc, (IH Hs). reflexivity.
Qed.

Lemma split_not_nil c s : PyStr.split c s <> [].
Proof.
  destruct s as [|x s]; simpl; [discriminate|].
  destruct (Ascii.eqb x c); [discriminate|].
  destruct (PyStr.split c s); discriminate.
Qed.

End StringFacts.

(** * Repository names and the two identifier forms *)

Section NameFacts.

Ltac by_cases_on_char :=
  let c := fresh "c" in
  intros c; destruct c as [[] [] [] [] [] [] [] []]; vm_compute;
  intros; congruence.

Lemma space_off_names : off_names PyStr.is_space.
Proof. by_cases_on_char. Qed.

Lemma slash_off_names : off_names (Ascii.eqb "/").
Proof. by_cases_on_char. Qed.

Lemma hash_off_names : off_names (Ascii.eqb "#").
Proof. by_cases_on_char. Qed.

Lemma question_off_names : off_names (Ascii.eqb "?").
Proof. by_cases_on_char. Qed.

Lemma semicolon_off_names : off_names (Ascii.eqb ";").
Proof. by_cases_on_char. Qed.

Lemma unsafe_off_names : off_names Urllib.unsafe_byte.
Proof. by_cases_on_char. Qed.

Lemma colon_off_names : off_names (Ascii.eqb ":").
Proof. by_cases_on_char. Qed.

Lemma names_clean p s :
  off_names p -> PyStr.forallb name_char s = true -> clean p s.
Proof.
  intros Hp. induction s as [|c s IH]; simpl; intros H; [reflexivity|].
  apply andb_true_iff in H. destruct H as [Hc Hs].
  apply clean_cons. auto.
Qed.

Lemma slash_not_space : PyStr.is_space "/" = false.
Proof. reflexivity. Qed.

End NameFacts.

Create HintDb names.

#[export] Hint Resolve space_off_names slash_off_names hash_off_names
  question_off_names semicolon_off_names unsafe_off_names colon_off_names
  names_clean
  : names.

Section IdentifierForms.
Context {P : Platform}.

Lemma startswith_char_in c p s :
  PyStr.startswith s p = true -> PyStr.char_in c p = true ->
  PyStr.char_in c s = true.
Proof.
  revert s. induction p as [|x p IH]; simpl; intros s Hp Hc;
    [discriminate Hc|].
  destruct s as [|y s]; [discriminate Hp|].
  apply andb_true_iff in Hp. destruct Hp as [Hxy Hp].
  apply Ascii.eqb_eq in Hxy. subst y.
  simpl. destruct (Ascii.eqb x c); [reflexivity|]. simpl in *. eauto.
Qed.

Lemma not_url_without_colon s :
  clean (Ascii.eqb ":") s ->
  PyStr.startswith s "http://" || PyStr.startswith s "https://" = false.
Proof.
  intros Hs. apply char_in_clean in Hs.
  apply orb_false_iff. split.
  - destruct (PyStr.startswith s "http://") eqn:E; [|reflexivity].
    rewrite (startswith_char_in ":" _ _ E eq_refl) in Hs. discriminate.
  - destruct (PyStr.startswith s "https://") eqn:E; [|reflexivity].
    rewrite (startswith_char_in ":" _ _ E eq_refl) in Hs. discriminate.
Qed.

Lemma strip_keeps a b :
  a <> EmptyString -> b <> EmptyString ->
  PyStr.forallb name_char a = true -> PyStr.forallb name_char b = true ->
  forall m, PyStr.strip (a +:+ m +:+ b) = a +:+ m +:+ b.
Proof.
  intros Ha Hb Hac Hbc m. unfold PyStr.strip, PyStr.strip_by.
  destruct a as [|c a]; [congruence|]. simpl in Hac.
  apply andb_true_iff in Hac. destruct Hac as [Hc Hac].
  simpl. rewrite (space_off_names c Hc).
  change (String c (a +:+ m +:+ b)) with (String c a +:+ m +:+ b).
  rewrite !rstrip_by_app.
  rewrite (rstrip_by_clean PyStr.is_space b) by eauto with names.
  destruct b; [congruence|]. destruct m; reflexivity.
Qed.

(** The bare form of a valid pair resolves to the pair. *)
Lemma parse_bare owner repo :
  valid_name owner -> valid_name repo ->
  _parse_repo_identifier (owner +:+ "/" +:+ repo) = Ok (owner, repo).
Proof.
  intros [Ho Hoc] [Hr Hrc].
  unfold _parse_repo_identifier.
  rewrite strip_keeps by assumption.
  rewrite not_url_without_colon.
  2:{ apply clean_app; [eauto with names|].
      apply clean_cons; split; [reflexivity|eauto with names]. }
  rewrite char_in_app. simpl. rewrite orb_true_r.
  rewrite split_app_clean by eauto with names.
  rewrite split_clean by eauto with names. reflexivity.
Qed.

Lemma rstrip_by_app_clean p a b :
  clean p a -> PyStr.rstrip_by p (a +:+ b) = a +:+ PyStr.rstrip_by p b.
Proof.
  intros Ha. rewrite rstrip_by_app.
  destruct (PyStr.rstrip_by p b).
  - rewrite rstrip_by_clean by assumption.
    clear. induction a; simpl; congruence.
  - reflexivity.
Qed.

Lemma urlparse_github (secure : bool) owner repo rest :
  valid_name owner -> valid_name repo -> trailing rest ->
  exists tail,
    more_segments tail /\
    Urllib.urlparse ((if secure then "https://" else "http://")
                     +:+ "github.com/" +:+ owner +:+ "/" +:+ repo +:+ rest)
    = Ok {| Urllib.netloc := "github.com";
            Urllib.path := "/" +:+ owner +:+ "/" +:+ repo +:+ tail |}.
Proof.
  intros [Ho Hoc] [Hr Hrc] Hrest.
  set (cut := fun s => PyStr.before (Ascii.eqb "?")
                (PyStr.before (Ascii.eqb "#")
                   (PyStr.remove Urllib.unsafe_byte s))).
  assert (Hcut : PyStr.before (Ascii.eqb "?")
                   (PyStr.before (Ascii.eqb "#")
                      (PyStr.remove Urllib.unsafe_byte
                         (owner +:+ String "/" (repo +:+ rest))))
                 = owner +:+ String "/" (repo +:+ cut rest)).
  { rewrite remove_app_clean by eauto with names. simpl.
    rewrite remove_app_clean by eauto with names.
    rewrite before_app_clean by eauto with names. simpl.
    rewrite before_app_clean by eauto with names.
    rewrite before_app_clean by eauto with names. simpl.
    rewrite before_app_clean by eauto with names. reflexivity. }
  assert (Htail : more_segments (cut rest)).
  { destruct Hrest as [->|(c & r & -> & [->|[->| ->]])];
      [left; reflexivity| |left; reflexivity|left; reflexivity].
    right. unfold cut. simpl. eauto. }
  exists (if PyStr.char_in ";" (owner +:+ String "/" (repo +:+ cut rest))
          then Urllib.splitparams (cut rest) else cut rest).
  split.
  - destruct (PyStr.char_in ";" _); [|exact Htail].
    destruct Htail as [->|[r ->]]; [left; reflexivity|].
    right. simpl. eauto.
  - unfold Urllib.urlparse. destruct secure; simpl; rewrite Hcut;
      destruct (PyStr.char_in ";" _); try reflexivity;
      rewrite splitparams_app_clean by eauto with names; simpl;
      rewrite splitparams_app_clean by eauto with names; reflexivity.
Qed.

Lemma append_empty_r a : a +:+ EmptyString = a.
Proof. induction a; simpl; congruence. Qed.

Lemma rstrip_by_more_segments tail :
  more_segments tail ->
  more_segments (PyStr.rstrip_by (Ascii.eqb "/") tail).
Proof.
  intros [->|[r ->]]; [left; reflexivity|].
  simpl. destruct (PyStr.rstrip_by _ r); [left|right]; eauto.
Qed.

Lemma strip_char_segments owner repo tail :
  valid_name owner -> valid_name repo -> more_segments tail ->
  exists more,
    PyStr.split "/" (PyStr.strip_char "/"
                       ("/" +:+ owner +:+ "/" +:+ repo +:+ tail))
    = owner :: repo :: more.
Proof.
  intros [Ho Hoc] [Hr Hrc] Htail.
  unfold PyStr.strip_char, PyStr.strip_by.
  assert (Hl : PyStr.lstrip_by (Ascii.eqb "/")
                 ("/" +:+ owner +:+ "/" +:+ repo +:+ tail)
               = owner +:+ "/" +:+ repo +:+ tail).
  { destruct owner as [|c owner]; [congruence|].
    simpl in Hoc. apply andb_true_iff in Hoc. destruct Hoc as [Hc Hoc].
    change (PyStr.lstrip_by (Ascii.eqb "/")
              ("/" +:+ String c owner +:+ "/" +:+ repo +:+ tail))
      with (if Ascii.eqb "/" c
            then PyStr.lstrip_by (Ascii.eqb "/")
                   (owner +:+ "/" +:+ repo +:+ tail)
            else String c owner +:+ "/" +:+ repo +:+ tail).
    rewrite (slash_off_names c Hc). reflexivity. }
  rewrite Hl. clear Hl.
  rewrite rstrip_by_app_clean by eauto with names.
  change ("/" +:+ repo +:+ tail) with (String "/" (repo +:+ tail)).
  assert (Hrepo : PyStr.rstrip_by (Ascii.eqb "/") (String "/" (repo +:+ tail))
                  = String "/" (repo +:+ PyStr.rstrip_by (Ascii.eqb "/") tail)).
  { change (PyStr.rstrip_by (Ascii.eqb "/") (String "/" (repo +:+ tail)))
      with (match PyStr.rstrip_by (Ascii.eqb "/") (repo +:+ tail) with
            | EmptyString => EmptyString
            | r => String "/" r
            end).
    rewrite rstrip_by_app_clean by eauto with names.
    destruct repo; [congruence|reflexivity]. }
  rewrite Hrepo, split_app_clean by eauto with names.
  destruct (rstrip_by_more_segments tail Htail) as [->|[r ->]].
  - rewrite append_empty_r, split_clean by eauto with names. eauto.
  - rewrite split_app_clean by eauto with names. eauto.
Qed.

(** A GitHub URL of a valid pair resolves to the pair, whatever follows
    the repository. *)
Lemma parse_url (secure : bool) owner repo rest :
  valid_name owner -> valid_name repo -> trailing rest ->
  _parse_repo_identifier
    ((if secure then "https://" else "http://")
     +:+ "github.com/" +:+ owner +:+ "/" +:+ repo +:+ rest)
  = Ok (owner, repo).
Proof.
  intros Ho Hr Hrest.
  unfold _parse_repo_identifier.
  assert (Hstrip : exists rest', trailing rest' /\
            PyStr.strip ((if secure then "https://" else "http://")
                         +:+ "github.com/" +:+ owner +:+ "/" +:+ repo +:+ rest)
            = (if secure then "https://" else "http://")
              +:+ "github.com/" +:+ owner +:+ "/" +:+ repo +:+ rest').
  { exists (PyStr.rstrip_by PyStr.is_space rest). split.
    - destruct Hrest as [->|(c & r & -> & Hc)]; [left; reflexivity|].
      right. exists c, (PyStr.rstrip_by PyStr.is_space r).
      split; [|exact Hc]. apply rstrip_by_cons_keep.
      destruct Hc as [->|[->| ->]]; reflexivity.
    - unfold PyStr.strip, PyStr.strip_by.
      destruct Ho as [_ Hoc], Hr as [_ Hrc].
      assert (Hl : forall s, PyStr.lstrip_by PyStr.is_space
                     ((if secure then "https://" else "http://") +:+ s)
                   = (if secure then "https://" else "http://") +:+ s)
        by (intros s; destruct secure; reflexivity).
      rewrite Hl.
      rewrite (rstrip_by_app_clean _ (if secure then _ else _))
        by (destruct secure; reflexivity).
      rewrite (rstrip_by_app_clean _ "github.com/") by reflexivity.
      rewrite rstrip_by_app_clean by eauto with names.
      rewrite (rstrip_by_app_clean _ "/") by reflexivity.
      rewrite rstrip_by_app_clean by eauto with names.
      reflexivity. }
  destruct Hstrip as (rest' & Hrest' & ->).
  assert (Hpre : forall s,
            PyStr.startswith ((if secure then "https://" else "http://") +:+ s)
              "http://"
            || PyStr.startswith
                 ((if secure then "https://" else "http://") +:+ s)
                 "https://" = true)
    by (intros s; destruct secure; vm_compute; reflexivity).
  rewrite Hpre.
  destruct (urlparse_github secure owner repo rest' Ho Hr Hrest')
    as (tail & Htail & ->).
  cbn [Urllib.netloc Urllib.path].
  change (negb (String.eqb "github.com" "github.com")) with false.
  cbv iota.
  destruct (strip_char_segments owner repo tail Ho Hr Htail) as (more & ->).
  reflexivity.
Qed.


(** *** Segments of a path *)

Lemma split_length c s : length (PyStr.split c s) = S (count_char c s).
Proof.
  induction s as [|x s IH]; simpl; [reflexivity|].
  destruct (Ascii.eqb x c); simpl; [congruence|].
  destruct (PyStr.split c s); simpl in *; congruence.
Qed.

Lemma count_char_in c s :
  PyStr.char_in c s = negb (count_char c s =? 0)%nat.
Proof.
  induction s as [|x s IH]; simpl; [reflexivity|].
  destruct (Ascii.eqb x c); simpl; [reflexivity|exact IH].
Qed.

Lemma split_one c s : count_char c s = 0 -> PyStr.split c s = [s].
Proof.
  induction s as [|x s IH]; simpl; [reflexivity|].
  destruct (Ascii.eqb x c); simpl; [discriminate|].
  intros H. rewrite (IH H). reflexivity.
Qed.

Lemma split_two c s :
  count_char c s = 1 ->
  exists a b, s = a +:+ String c b /\ PyStr.split c s = [a; b].
Proof.
  induction s as [|x s IH]; simpl; [discriminate|].
  destruct (Ascii.eqb x c) eqn:E; simpl; intros H.
  - apply Ascii.eqb_eq in E. subst x. injection H as H.
    exists EmptyString, s. rewrite (split_one c s H). auto.
  - destruct (IH H) as (a & b & -> & ->).
    exists (String x a), b. auto.
Qed.

Lemma nonempty_segments_lstrip p :
  nonempty_segments (PyStr.lstrip_by (Ascii.eqb "/") p) = nonempty_segments p.
Proof.
  unfold nonempty_segments.
  induction p as [|x p IH]; [reflexivity|].
  cbn [PyStr.lstrip_by].
  destruct (Ascii.eqb "/" x) eqn:E; [|reflexivity].
  cbn [PyStr.split]. rewrite (Ascii.eqb_sym x), E. exact IH.
Qed.

Lemma split_cons c x s :
  PyStr.split c (String x s)
  = if Ascii.eqb x c then EmptyString :: PyStr.split c s
    else match PyStr.split c s with
         | h :: t => String x h :: t
         | [] => [String x EmptyString]
         end.
Proof. reflexivity. Qed.

Lemma split_rstrip s :
  exists k,
    PyStr.split "/" s
    = PyStr.split "/" (PyStr.rstrip_by (Ascii.eqb "/") s)
      ++ repeat EmptyString k.
Proof.
  induction s as [|x s [k IH]]; [exists 0; reflexivity|].
  cbn [PyStr.rstrip_by]. rewrite (split_cons _ x s), (Ascii.eqb_sym x).
  destruct (PyStr.rstrip_by (Ascii.eqb "/") s) as [|y r] eqn:Er.
  - destruct (Ascii.eqb "/" x) eqn:E.
    + exists (S k). rewrite IH. reflexivity.
    + exists k. rewrite IH, (split_cons _ x EmptyString).
      rewrite (Ascii.eqb_sym x), E. reflexivity.
  - exists k. rewrite IH, (split_cons _ x (String y r)), (Ascii.eqb_sym x).
    destruct (Ascii.eqb "/" x) eqn:E; [reflexivity|].
    destruct (PyStr.split "/" (String y r)) as [|h t] eqn:Es;
      [exfalso; exact (split_not_nil _ _ Es)|reflexivity].
Qed.

Lemma nonempty_segments_rstrip p :
  nonempty_segments (PyStr.rstrip_by (Ascii.eqb "/") p) = nonempty_segments p.
Proof.
  unfold nonempty_segments. destruct (split_rstrip p) as [k ->].
  rewrite filter_app.
  assert (H : filter nonempty (repeat EmptyString k) = [])
    by (induction k; simpl; auto).
  rewrite H, app_nil_r. reflexivity.
Qed.

Lemma nonempty_segments_strip p :
  nonempty_segments (PyStr.strip_char "/" p) = nonempty_segments p.
Proof.
  unfold PyStr.strip_char, PyStr.strip_by.
  rewrite nonempty_segments_rstrip. apply nonempty_segments_lstrip.
Qed.

(** The last part of a right-stripped string is not empty. *)
Lemma split_rstrip_last s :
  PyStr.rstrip_by (Ascii.eqb "/") s = EmptyString
  \/ nonempty (last (PyStr.split "/" (PyStr.rstrip_by (Ascii.eqb "/") s))
                 EmptyString) = true.
Proof.
  induction s as [|x s IH]; [left; reflexivity|].
  cbn [PyStr.rstrip_by].
  destruct (PyStr.rstrip_by (Ascii.eqb "/") s) as [|y r] eqn:Er.
  - destruct (Ascii.eqb "/" x) eqn:E; [left; reflexivity|].
    right. rewrite split_cons, (Ascii.eqb_sym x), E. reflexivity.
  - right. destruct IH as [IH|IH]; [discriminate|].
    rewrite (split_cons _ x (String y r)), (Ascii.eqb_sym x).
    destruct (PyStr.split "/" (String y r)) as [|h t] eqn:Es;
      [exfalso; exact (split_not_nil _ _ Es)|].
    destruct (Ascii.eqb "/" x).
    + exact IH.
    + destruct t; [reflexivity|exact IH].
Qed.

(** The first part of a left-stripped string is not empty, unless the
    string is. *)
Lemma split_stripped_first p :
  PyStr.strip_char "/" p = EmptyString
  \/ exists h t, PyStr.split "/" (PyStr.strip_char "/" p) = h :: t
                 /\ nonempty h = true.
Proof.
  unfold PyStr.strip_char, PyStr.strip_by.
  assert (H : PyStr.lstrip_by (Ascii.eqb "/") p = EmptyString
              \/ exists c s, PyStr.lstrip_by (Ascii.eqb "/") p = String c s
                             /\ Ascii.eqb "/" c = false).
  { induction p as [|x p IH]; [left; reflexivity|].
    cbn [PyStr.lstrip_by].
    destruct (Ascii.eqb "/" x) eqn:E; [exact IH|right; eauto]. }
  destruct H as [->|(c & s & -> & Hc)]; [left; reflexivity|].
  right. rewrite rstrip_by_cons_keep by assumption.
  rewrite split_cons, (Ascii.eqb_sym c), Hc.
  destruct (PyStr.split "/" _) as [|h t]; eauto.
Qed.

Lemma stripped_segments p :
  (length (PyStr.split "/" (PyStr.strip_char "/" p)) <? 2)%nat
  = (length (nonempty_segments p) <? 2)%nat.
Proof.
  rewrite <- (nonempty_segments_strip p).
  unfold nonempty_segments.
  destruct (split_stripped_first p) as [E|(h & t & E & Hh)].
  - rewrite E. reflexivity.
  - assert (Hl := split_rstrip_last (PyStr.lstrip_by (Ascii.eqb "/") p)).
    fold (PyStr.strip_by (Ascii.eqb "/") p) in Hl.
    fold (PyStr.strip_char "/" p) in Hl.
    rewrite E in *. destruct Hl as [Hl|Hl].
    + rewrite Hl in E. injection E as <- <-. discriminate Hh.
    + cbn [filter]. rewrite Hh.
      destruct t as [|y t]; [reflexivity|].
      assert (Hin : In (last (h :: y :: t) EmptyString) (y :: t)).
      { change (last (h :: y :: t) EmptyString)
          with (last (y :: t) EmptyString).
        clear. revert y. induction t as [|z t IH]; intros y.
        - left; reflexivity.
        - right. apply (IH z). }
      assert (Hf : In (last (h :: y :: t) EmptyString)
                     (filter nonempty (y :: t)))
        by (apply filter_In; auto).
      destruct (filter nonempty (y :: t)); [destruct Hf|reflexivity].
Qed.


(** C3, amended.  With [t] the identifier without its surrounding
    whitespace.  When [t] starts with http:// or https://: a ValueError of
    the URL parser propagates; a netloc other than github.com fails with
    UnsupportedHost; with netloc github.com the identifier fails with
    InvalidIdentifier when the path has fewer than two non-empty segments
    and resolves, to the first two parts of the path stripped of its outer
    slashes, when it has at least two.  Any other [t] fails with
    InvalidIdentifier unless it holds exactly one '/', and then resolves to
    the two sides of the slash, empty or not. *)
Theorem resolve_rejections (identifier : string) :
  let t := PyStr.strip identifier in
  (is_url t = true ->
     (forall e, Urllib.urlparse t = Raise e ->
                _parse_repo_identifier identifier = Raise e)
     /\ (forall u, Urllib.urlparse t = Ok u ->
           (Urllib.netloc u <> "github.com" ->
            _parse_repo_identifier identifier = Raise UnsupportedHost)
           /\ (Urllib.netloc u = "github.com" ->
               length (nonempty_segments (Urllib.path u)) < 2 ->
               exists e, InvalidIdentifier e
                         /\ _parse_repo_identifier identifier = Raise e)
           /\ (Urllib.netloc u = "github.com" ->
               2 <= length (nonempty_segments (Urllib.path u)) ->
               exists owner repo more,
                 PyStr.split "/" (PyStr.strip_char "/" (Urllib.path u))
                 = owner :: repo :: more
                 /\ _parse_repo_identifier identifier = Ok (owner, repo))))
  /\ (is_url t = false ->
        (count_char "/" t <> 1 ->
         exists e, InvalidIdentifier e
                   /\ _parse_repo_identifier identifier = Raise e)
        /\ (count_char "/" t = 1 ->
            exists owner repo,
              t = owner +:+ "/" +:+ repo
              /\ _parse_repo_identifier identifier = Ok (owner, repo))).
Proof.
  intros t. unfold _parse_repo_identifier. fold t. fold (is_url t).
  split; intros Hurl; rewrite Hurl.
  - split; [intros e ->; reflexivity|].
    intros u ->. split; [|split].
    + intros Hn. apply String.eqb_neq in Hn. rewrite Hn. reflexivity.
    + intros Hn Hlen. apply String.eqb_eq in Hn. rewrite Hn.
      cbn [negb]. rewrite stripped_segments.
      apply Nat.ltb_lt in Hlen. rewrite Hlen.
      exists (ValueError InvalidRepositoryURL). split; [left|]; reflexivity.
    + intros Hn Hlen. apply String.eqb_eq in Hn. rewrite Hn.
      cbn [negb]. rewrite stripped_segments.
      assert (Hge : (length (nonempty_segments (Urllib.path u)) <? 2)%nat
                    = false) by (apply Nat.ltb_ge; exact Hlen).
      rewrite Hge. rewrite <- stripped_segments in Hge.
      apply Nat.ltb_ge in Hge.
      destruct (PyStr.split "/" _) as [|owner [|repo more]];
        simpl in Hge; try lia.
      exists owner, repo, more. split; reflexivity.
  - rewrite count_char_in. split.
    + intros Hc. destruct (count_char "/" t =? 0)%nat eqn:E0; cbn [negb].
      * exists (ValueError InvalidRepositoryIdentifier).
        split; [right; right|]; reflexivity.
      * rewrite split_length.
        assert (E2 : (S (count_char "/" t) =? 2)%nat = false)
          by (apply Nat.eqb_neq; lia).
        rewrite E2. cbn [negb].
        exists (ValueError InvalidRepositoryFormat).
        split; [right; left|]; reflexivity.
    + intros Hc. rewrite Hc. cbn [Nat.eqb negb].
      destruct (split_two "/" t Hc) as (owner & repo & Ht & ->).
      exists owner, repo. split; [exact Ht|reflexivity].
Qed.

(** C8.  For valid owner and repository names, the URL
    http(s)://github.com/owner/repo, alone or followed by further path
    segments, a query or a fragment, resolves to the same pair as the bare
    owner/repo, and that pair is (owner, repo). *)
Theorem resolve_url_like_bare (secure : bool) (owner repo rest : string) :
  valid_name owner -> valid_name repo -> trailing rest ->
  _parse_repo_identifier
    ((if secure then "https://" else "http://")
     +:+ "github.com/" +:+ owner +:+ "/" +:+ repo +:+ rest)
  = _parse_repo_identifier (owner +:+ "/" +:+ repo)
  /\ _parse_repo_identifier (owner +:+ "/" +:+ repo) = Ok (owner, repo).
Proof.
  intros Ho Hr Hrest.
  rewrite parse_url, parse_bare by assumption. split; reflexivity.
Qed.

(** *** The filter on candidate emails *)

Lemma startswith_iff s p :
  PyStr.startswith s p = true <-> exists r, s = p +:+ r.
Proof.
  revert s. induction p as [|a p IH]; simpl; intros s.
  - split; eauto.
  - destruct s as [|b s].
    + split; [discriminate|]. intros [r H]. discriminate.
    + rewrite andb_true_iff, Ascii.eqb_eq, IH. split.
      * intros [-> [r ->]]. eauto.
      * intros [r H]. injection H as -> ->. eauto.
Qed.

Lemma endswith_iff s suf :
  PyStr.endswith s suf = true <-> exists p, s = p +:+ suf.
Proof.
  induction s as [|c s IH].
  - cbn [PyStr.endswith]. rewrite orb_false_r, String.eqb_eq. split.
    + intros <-. exists EmptyString. reflexivity.
    + intros [p H]. destruct p; [exact H|discriminate].
  - cbn [PyStr.endswith]. rewrite orb_true_iff, String.eqb_eq, IH. split.
    + intros [<-|[p ->]]; [exists EmptyString|exists (String c p)];
        reflexivity.
    + intros [p H]. destruct p as [|x p]; [left; exact H|].
      right. injection H as -> ->. eauto.
Qed.

Lemma char_in_iff c s :
  PyStr.char_in c s = true <-> In c (list_ascii_of_string s).
Proof.
  induction s as [|x s IH]; simpl; [split; [discriminate|tauto]|].
  rewrite orb_true_iff, Ascii.eqb_eq, IH. tauto.
Qed.

End IdentifierForms.

(** * The transport and the two walks *)

Section Transport.
Context {P : Platform}.

Lemma make_request_effects endpoint params w r w' :
  _make_request endpoint params w = (r, w') ->
  pending w' = tl (pending w)
  /\ trace w' = trace w ++ [{| endpoint := endpoint; params := params |}]
  /\ now w' = match pending w with [] => now w | x :: _ => clock x end.
Proof.
  unfold _make_request, try_except, bind, session_get.
  destruct (pending w) as [|x rest] eqn:Ep.
  - intros H. injection H as <- <-. auto.
  - destruct (reply x) as [|resp].
    + intros H. injection H as <- <-. auto.
    + destruct (status_code resp =? 429)%Z.
      * unfold lift, time_time, raise.
        destruct (headers_get _ _) as [v|]; [destruct (PyStr.int v)|];
          intros H; injection H as <- <-; auto.
      * unfold raise_for_status, time_sleep, response_json, raise, ret.
        destruct ((400 <=? status_code resp)%Z && (status_code resp <? 600)%Z).
        -- destruct (status_code resp =? 404)%Z;
             [|destruct (status_code resp =? 403)%Z];
             intros H; injection H as <- <-; auto.
        -- destruct (body resp); intros H; injection H as <- <-; auto.
Qed.

Lemma make_request_ok_pending endpoint params w data w' :
  _make_request endpoint params w = (Ok data, w') ->
  exists x, pending w = x :: pending w'.
Proof.
  intros H. destruct (make_request_effects _ _ _ _ _ H) as (Hp & _).
  revert H. unfold _make_request, try_except, bind, session_get.
  destruct (pending w) as [|x rest] eqn:Ep.
  - discriminate.
  - intros _. exists x. rewrite Hp. reflexivity.
Qed.

Lemma make_request_delivered endpoint params w :
  fst (_make_request endpoint params w)
  = match pending w with
    | [] => Raise (GitHubAPIError RequestFailed)
    | x :: _ => delivered endpoint x
    end.
Proof.
  unfold delivered, _make_request, try_except, bind, session_get.
  destruct (pending w) as [|x rest] eqn:Ep; [reflexivity|].
  cbn [pending].
  destruct (reply x) as [|resp]; [reflexivity|].
  destruct (status_code resp =? 429)%Z.
  - unfold lift, time_time, raise. cbn [now].
    destruct (headers_get _ _) as [v|]; [destruct (PyStr.int v)|];
      reflexivity.
  - unfold raise_for_status, time_sleep, response_json, raise, ret.
    destruct ((400 <=? status_code resp)%Z && (status_code resp <? 600)%Z).
    + destruct (status_code resp =? 404)%Z;
        [|destruct (status_code resp =? 403)%Z]; reflexivity.
    + destruct (body resp); reflexivity.
Qed.

Lemma append_users_acc users items :
  append_users users items
  = let? us := append_users [] items in Ok (users ++ us).
Proof.
  revert users. induction items as [|item rest IH]; intros users.
  - simpl. rewrite app_nil_r. reflexivity.
  - cbn [append_users].
    destruct (PyJson.getitem item "login") as [l|e]; [|reflexivity].
    destruct (PyJson.getitem item "avatar_url") as [a|e]; [|reflexivity].
    destruct (PyJson.getitem item "html_url") as [h|e]; [|reflexivity].
    cbn [Result_bind].
    destruct (UserInfo.minimal l a h) as [u|e]; [|reflexivity].
    cbn [Result_bind]. rewrite (IH (users ++ [u])), (IH ([] ++ [u])).
    destruct (append_users [] rest) as [us|e]; [|reflexivity].
    cbn [Result_bind]. rewrite <- app_assoc. reflexivity.
Qed.

Lemma paginate_loop_turn fuel endpoint per_page max_pages users page w :
  _paginate_users_loop (S fuel) endpoint per_page max_pages users page w
  = paginate_turn endpoint per_page max_pages
      (_paginate_users_loop fuel endpoint per_page max_pages) users page w.
Proof.
  cbn [_paginate_users_loop]. unfold paginate_turn, bind, ret, lift.
  destruct (page_limit_reached max_pages page); [reflexivity|].
  destruct (_make_request _ _ w) as [[data|e] w']; [|reflexivity].
  destruct (PyJson.truthy data); cbn [negb]; [|reflexivity].
  unfold users_of.
  destruct (PyJson.iter data) as [items|e]; [|reflexivity].
  cbn [Result_bind]. rewrite append_users_acc.
  destruct (append_users [] items); reflexivity.
Qed.

Lemma paginate_fuel fuel1 : forall fuel2 endpoint per_page max_pages users page w,
  length (pending w) < fuel1 -> length (pending w) < fuel2 ->
  _paginate_users_loop fuel1 endpoint per_page max_pages users page w
  = _paginate_users_loop fuel2 endpoint per_page max_pages users page w.
Proof.
  induction fuel1 as [|fuel1 IH]; intros fuel2 endpoint per_page max_pages
    users page w H1 H2; [lia|].
  destruct fuel2 as [|fuel2]; [lia|].
  rewrite !paginate_loop_turn. unfold paginate_turn.
  destruct (page_limit_reached max_pages page); [reflexivity|].
  destruct (_make_request _ _ w) as [[data|e] w'] eqn:E; [|reflexivity].
  destruct (PyJson.truthy data); [|reflexivity].
  destruct (users_of data); [|reflexivity].
  destruct (make_request_ok_pending _ _ _ _ _ E) as [x Hx].
  rewrite Hx in H1, H2. simpl in H1, H2.
  apply IH; lia.
Qed.

Lemma paginate_from_turn endpoint per_page max_pages users page w :
  paginate_from endpoint per_page max_pages users page w
  = paginate_turn endpoint per_page max_pages
      (paginate_from endpoint per_page max_pages) users page w.
Proof.
  unfold paginate_from. rewrite paginate_loop_turn. unfold paginate_turn.
  destruct (page_limit_reached max_pages page); [reflexivity|].
  destruct (_make_request _ _ w) as [[data|e] w'] eqn:E; [|reflexivity].
  destruct (PyJson.truthy data); [|reflexivity].
  destruct (users_of data); [|reflexivity].
  destruct (make_request_ok_pending _ _ _ _ _ E) as [x Hx].
  apply paginate_fuel; [rewrite Hx; simpl; lia|lia].
Qed.

Lemma page_limit_beyond max_pages page :
  page_limit_reached max_pages page = true <-> beyond max_pages page.
Proof.
  unfold page_limit_reached, beyond. destruct max_pages as [m|].
  - rewrite andb_true_iff, negb_true_iff, Z.eqb_neq, Z.gtb_gt. split.
    + intros [H1 H2]. eauto.
    + intros (m' & E & H1 & H2). injection E as <-. auto.
  - split; [discriminate|]. intros (m & E & _). discriminate.
Qed.

Lemma after_pages_trace endpoint per_page n : forall page w,
  trace (after_pages endpoint per_page page n w)
  = trace w ++ page_requests endpoint per_page page n.
Proof.
  induction n as [|n IH]; intros page w; simpl.
  - rewrite app_nil_r. reflexivity.
  - rewrite IH.
    destruct (_make_request endpoint (page_params page per_page) w)
      as [r w'] eqn:E.
    destruct (make_request_effects _ _ _ _ _ E) as (_ & Ht & _).
    cbn [snd]. rewrite Ht, <- app_assoc. reflexivity.
Qed.

Lemma after_pages_pending endpoint per_page n : forall page w,
  pending (after_pages endpoint per_page page n w) = skipn n (pending w).
Proof.
  induction n as [|n IH]; intros page w; simpl; [reflexivity|].
  rewrite IH.
  destruct (_make_request endpoint (page_params page per_page) w)
    as [r w'] eqn:E.
  destruct (make_request_effects _ _ _ _ _ E) as (Hp & _).
  cbn [snd]. rewrite Hp. destruct (pending w); [|reflexivity].
  rewrite skipn_nil. reflexivity.
Qed.

Lemma paginate_from_walk endpoint per_page max_pages xs :
  forall w users page result w',
  pending w = xs ->
  paginate_from endpoint per_page max_pages users page w = (Ok result, w')
  <-> exists uss n,
        Walk endpoint max_pages page xs uss n
        /\ result = users ++ concat uss
        /\ w' = after_pages endpoint per_page page n w.
Proof.
  induction xs as [|x xs IH]; intros w users page result w' Hxs;
    rewrite paginate_from_turn; unfold paginate_turn;
    destruct (page_limit_reached max_pages page) eqn:El.
  - apply page_limit_beyond in El. split.
    + intros H. injection H as <- <-. exists [], 0.
      split; [constructor; exact El|]. rewrite app_nil_r. auto.
    + intros (uss & n & Hw & -> & ->). inversion Hw; subst.
      rewrite app_nil_r. reflexivity.
  - assert (Hd := make_request_delivered endpoint
                    (page_params page per_page) w).
    rewrite Hxs in Hd.
    destruct (_make_request _ _ w) as [[data|e] w1]; [discriminate Hd|].
    split; [discriminate|].
    intros (uss & n & Hw & _). inversion Hw; subst.
    apply page_limit_beyond in H. congruence.
  - apply page_limit_beyond in El. split.
    + intros H. injection H as <- <-. exists [], 0.
      split; [constructor; exact El|]. rewrite app_nil_r. auto.
    + intros (uss & n & Hw & -> & ->).
      inversion Hw; subst; try contradiction.
      rewrite app_nil_r. reflexivity.
  - assert (Hnb : ~ beyond max_pages page).
    { intros Hb. apply page_limit_beyond in Hb. congruence. }
    assert (Hd := make_request_delivered endpoint
                    (page_params page per_page) w).
    rewrite Hxs in Hd.
    destruct (_make_request _ _ w) as [[data|e] w1] eqn:E; cbn [fst] in Hd.
    + destruct (make_request_effects _ _ _ _ _ E) as (Hp & _).
      rewrite Hxs in Hp. cbn [tl] in Hp.
      destruct (PyJson.truthy data) eqn:Et.
      * destruct (users_of data) as [us|e] eqn:Eu.
        -- rewrite (IH w1 (users ++ us) (page + 1)%Z result w' Hp). split.
           ++ intros (uss & n & Hw & -> & ->).
              exists (us :: uss), (S n). split; [|split].
              ** econstructor; eauto.
              ** simpl. rewrite app_assoc. reflexivity.
              ** simpl. rewrite E. reflexivity.
           ++ intros (uss & n & Hw & -> & ->).
              inversion Hw; subst; try contradiction; try congruence.
              assert (data0 = data) by congruence. subst data0.
              assert (us0 = us) by congruence. subst us0.
              exists uss0, n0. split; [assumption|]. split.
              ** simpl. rewrite app_assoc. reflexivity.
              ** simpl. rewrite E. reflexivity.
        -- split; [discriminate|].
           intros (uss & n & Hw & _).
           inversion Hw; subst; try contradiction; congruence.
      * split.
        -- intros H. injection H as <- <-. exists [], 1.
           split; [econstructor; eauto|]. rewrite app_nil_r.
           simpl. rewrite E. auto.
        -- intros (uss & n & Hw & -> & ->).
           inversion Hw; subst; try contradiction; try congruence.
           rewrite app_nil_r. simpl. rewrite E. reflexivity.
    + split; [discriminate|].
      intros (uss & n & Hw & _).
      inversion Hw; subst; try contradiction; congruence.
Qed.

Lemma paginate_from_requests endpoint per_page max_pages xs :
  forall w users page,
  pending w = xs ->
  exists n,
    trace (snd (paginate_from endpoint per_page max_pages users page w))
    = trace w ++ page_requests endpoint per_page page n
    /\ (forall m, max_pages = Some m -> m <> 0%Z ->
                  (Z.of_nat n <= Z.max 0 (m - page + 1))%Z).
Proof.
  induction xs as [|x xs IH]; intros w users page Hxs;
    rewrite paginate_from_turn; unfold paginate_turn;
    destruct (page_limit_reached max_pages page) eqn:El.
  1,3: exists 0; cbn [snd page_requests]; rewrite app_nil_r;
       split; [reflexivity|]; intros; lia.
  - assert (Hd := make_request_delivered endpoint
                    (page_params page per_page) w).
    rewrite Hxs in Hd.
    destruct (_make_request _ _ w) as [[data|e] w1] eqn:E;
      [discriminate Hd|].
    destruct (make_request_effects _ _ _ _ _ E) as (_ & Ht & _).
    exists 1. cbn [snd page_requests]. split; [exact Ht|].
    intros m Hm Hm0. subst max_pages. unfold page_limit_reached in El.
    apply andb_false_iff in El. rewrite negb_false_iff, Z.eqb_eq in El.
    destruct El as [El|El]; [contradiction|].
    rewrite Z.gtb_ltb, Z.ltb_ge in El. lia.
  - assert (Hone : forall m, max_pages = Some m -> m <> 0%Z ->
                             (page <= m)%Z).
    { intros m Hm Hm0. subst max_pages. unfold page_limit_reached in El.
      apply andb_false_iff in El. rewrite negb_false_iff, Z.eqb_eq in El.
      destruct El as [El|El]; [contradiction|].
      rewrite Z.gtb_ltb, Z.ltb_ge in El. exact El. }
    destruct (_make_request _ _ w) as [[data|e] w1] eqn:E.
    + destruct (make_request_effects _ _ _ _ _ E) as (Hp & Ht & _).
      rewrite Hxs in Hp. cbn [tl] in Hp.
      destruct (PyJson.truthy data).
      * destruct (users_of data) as [us|e].
        -- destruct (IH w1 (users ++ us) (page + 1)%Z Hp) as (n & Hn & Hb).
           exists (S n). rewrite Hn, Ht, <- app_assoc. split; [reflexivity|].
           intros m Hm Hm0. specialize (Hb m Hm Hm0).
           specialize (Hone m Hm Hm0). lia.
        -- exists 1. cbn [snd page_requests]. split; [exact Ht|].
           intros m Hm Hm0. specialize (Hone m Hm Hm0). lia.
      * exists 1. cbn [snd page_requests]. split; [exact Ht|].
        intros m Hm Hm0. specialize (Hone m Hm Hm0). lia.
    + destruct (make_request_effects _ _ _ _ _ E) as (_ & Ht & _).
      exists 1. cbn [snd page_requests]. split; [exact Ht|].
      intros m Hm Hm0. specialize (Hone m Hm Hm0). lia.
Qed.

Lemma Walk_bound endpoint max_pages page xs uss n :
  Walk endpoint max_pages page xs uss n ->
  length uss <= n
  /\ (forall m, max_pages = Some m -> m <> 0%Z ->
                (Z.of_nat n <= Z.max 0 (m - page + 1))%Z).
Proof.
  induction 1 as [page xs Hb|page x xs data Hb Hd Ht
                  |page x xs data us uss n Hb Hd Ht Hu Hw [IHl IHb]].
  - split; [simpl; lia|]. intros; lia.
  - split; [simpl; lia|]. intros m Hm Hm0.
    assert (page <= m)%Z.
    { destruct (Z_le_gt_dec page m); [assumption|].
      exfalso. apply Hb. exists m. auto. }
    lia.
  - split; [simpl; lia|]. intros m Hm Hm0.
    assert (page <= m)%Z.
    { destruct (Z_le_gt_dec page m); [assumption|].
      exfalso. apply Hb. exists m. auto. }
    specialize (IHb m Hm Hm0). lia.
Qed.

Lemma append_users_length items : forall users us,
  append_users users items = Ok us -> length us = length users + length items.
Proof.
  induction items as [|item rest IH]; intros users us; cbn [append_users].
  - intros H. injection H as <-. simpl. lia.
  - destruct (PyJson.getitem item "login") as [l|e]; [|discriminate].
    destruct (PyJson.getitem item "avatar_url") as [a|e]; [|discriminate].
    destruct (PyJson.getitem item "html_url") as [h|e]; [|discriminate].
    cbn [Result_bind].
    destruct (UserInfo.minimal l a h) as [u|e]; [|discriminate].
    cbn [Result_bind]. intros H. apply IH in H.
    rewrite length_app in H. simpl in *. lia.
Qed.

Lemma Walk_size endpoint per_page max_pages page xs uss n :
  Walk endpoint max_pages page xs uss n ->
  Forall (honours endpoint per_page) xs ->
  (0 <= per_page)%Z ->
  (Z.of_nat (length (concat uss)) <= Z.of_nat n * per_page)%Z.
Proof.
  intros Hw Hh Hpp.
  induction Hw as [page xs Hb|page x xs data Hb Hd Ht
                   |page x xs data us uss n Hb Hd Ht Hu Hw IH].
  - cbn [concat length]. lia.
  - cbn [concat length]. lia.
  - inversion Hh as [|? ? Hx Hxs]; subst. specialize (IH Hxs).
    unfold users_of in Hu.
    destruct (PyJson.iter data) as [items|e] eqn:Ei; [|discriminate].
    cbn [Result_bind] in Hu. apply append_users_length in Hu.
    specialize (Hx data items Hd Ei).
    cbn [concat]. rewrite length_app. simpl in Hu. lia.
Qed.

Lemma forks_loop_turn fuel endpoint per_page max_pages users page w :
  get_forks_loop (S fuel) endpoint per_page max_pages users page w
  = forks_turn endpoint per_page max_pages
      (get_forks_loop fuel endpoint per_page max_pages) users page w.
Proof.
  cbn [get_forks_loop]. unfold forks_turn, bind, ret, lift.
  destruct (page_limit_reached max_pages page); [reflexivity|].
  destruct (_make_request _ _ w) as [[data|e] w']; [|reflexivity].
  destruct (PyJson.truthy data); cbn [negb]; [|reflexivity].
  destruct (PyJson.iter data) as [items|e]; [|reflexivity].
  cbn [Result_bind].
  destruct (append_fork_owners users items); reflexivity.
Qed.

Lemma forks_fuel fuel1 : forall fuel2 endpoint per_page max_pages users page w,
  length (pending w) < fuel1 -> length (pending w) < fuel2 ->
  get_forks_loop fuel1 endpoint per_page max_pages users page w
  = get_forks_loop fuel2 endpoint per_page max_pages users page w.
Proof.
  induction fuel1 as [|fuel1 IH]; intros fuel2 endpoint per_page max_pages
    users page w H1 H2; [lia|].
  destruct fuel2 as [|fuel2]; [lia|].
  rewrite !forks_loop_turn. unfold forks_turn.
  destruct (page_limit_reached max_pages page); [reflexivity|].
  destruct (_make_request _ _ w) as [[data|e] w'] eqn:E; [|reflexivity].
  destruct (PyJson.truthy data); [|reflexivity].
  destruct (let? forks := PyJson.iter data in _); [|reflexivity].
  destruct (make_request_ok_pending _ _ _ _ _ E) as [x Hx].
  rewrite Hx in H1, H2. simpl in H1, H2.
  apply IH; lia.
Qed.

Lemma forks_from_turn endpoint per_page max_pages users page w :
  forks_from endpoint per_page max_pages users page w
  = forks_turn endpoint per_page max_pages
      (forks_from endpoint per_page max_pages) users page w.
Proof.
  unfold forks_from. rewrite forks_loop_turn. unfold forks_turn.
  destruct (page_limit_reached max_pages page); [reflexivity|].
  destruct (_make_request _ _ w) as [[data|e] w'] eqn:E; [|reflexivity].
  destruct (PyJson.truthy data); [|reflexivity].
  destruct (let? forks := PyJson.iter data in _); [|reflexivity].
  destruct (make_request_ok_pending _ _ _ _ _ E) as [x Hx].
  apply forks_fuel; [rewrite Hx; simpl; lia|lia].
Qed.

Lemma make_request_owners endpoint params w :
  _make_request endpoint params (owners_world w)
  = (match fst (_make_request endpoint params w) with
     | Ok data => Ok (owners_page data)
     | Raise e => Raise e
     end,
     owners_world (snd (_make_request endpoint params w))).
Proof.
  unfold _make_request, try_except, bind, session_get, owners_world.
  cbn [pending trace now naps].
  destruct (pending w) as [|x rest]; [reflexivity|].
  cbn [map]. unfold owners_exchange at 1 2. cbn [reply clock].
  destruct (reply x) as [|resp]; [reflexivity|].
  cbn [status_code headers body].
  destruct (status_code resp =? 429)%Z.
  - unfold lift, time_time, raise. cbn [now].
    destruct (headers_get _ _) as [v|]; [destruct (PyStr.int v)|];
      reflexivity.
  - unfold raise_for_status, time_sleep, response_json, raise, ret.
    cbn [status_code body].
    destruct ((400 <=? status_code resp)%Z && (status_code resp <? 600)%Z).
    + destruct (status_code resp =? 404)%Z;
        [|destruct (status_code resp =? 403)%Z]; reflexivity.
    + destruct (body resp); reflexivity.
Qed.

Lemma owners_page_truthy data :
  PyJson.truthy (owners_page data) = PyJson.truthy data.
Proof. destruct data as [| | | | |[|]|]; reflexivity. Qed.

Lemma owners_page_iter data :
  PyJson.iter (owners_page data)
  = match data with
    | JArr forks => Ok (map owner_of forks)
    | _ => PyJson.iter data
    end.
Proof. destruct data; reflexivity. Qed.

Lemma fork_owners_as_users forks : forall users,
  same_outcome (append_fork_owners users forks)
               (append_users users (map owner_of forks))
  /\ (Forall (fun f => exists o, PyJson.getitem f "owner" = Ok o) forks ->
      append_fork_owners users forks
      = append_users users (map owner_of forks)).
Proof.
  induction forks as [|fork rest IH]; intros users.
  - split; reflexivity.
  - cbn [append_fork_owners append_users map]. unfold owner_of at 1 2 3 5 6 7.
    destruct (PyJson.getitem fork "owner") as [o|e] eqn:Eo.
    + cbn [Result_bind].
      destruct (PyJson.getitem o "login") as [l|e];
        [|split; reflexivity].
      destruct (PyJson.getitem o "avatar_url") as [a|e];
        [|split; reflexivity].
      destruct (PyJson.getitem o "html_url") as [h|e];
        [|split; reflexivity].
      cbn [Result_bind].
      destruct (UserInfo.minimal l a h) as [u|e]; [|split; reflexivity].
      cbn [Result_bind]. destruct (IH (users ++ [u])) as [IH1 IH2].
      split; [exact IH1|]. intros Hf. inversion Hf; subst. auto.
    + split; [reflexivity|]. intros Hf. inversion Hf as [|? ? [o Ho] ?]; subst.
      congruence.
Qed.

Lemma strings_as_forks keys : forall users,
  append_fork_owners users (map JStr keys)
  = append_users users (map JStr keys).
Proof. destruct keys; reflexivity. Qed.

Lemma chars_as_forks s : forall users,
  append_fork_owners users (PyJson.chars s)
  = append_users users (PyJson.chars s).
Proof. destruct s; reflexivity. Qed.

Lemma page_of_forks data users :
  same_outcome
    (let? forks := PyJson.iter data in append_fork_owners users forks)
    (let? items := PyJson.iter (owners_page data) in append_users users items)
  /\ (has_owners data ->
      (let? forks := PyJson.iter data in append_fork_owners users forks)
      = (let? items := PyJson.iter (owners_page data) in
         append_users users items)).
Proof.
  assert (Hrefl : forall r : Result (list UserInfo.t), same_outcome r r)
    by (intros [?|?]; reflexivity).
  destruct data as [| | | |s|forks|fields]; cbn [owners_page PyJson.iter
    Result_bind has_owners]; try (split; [apply Hrefl|reflexivity]).
  - rewrite chars_as_forks. split; [apply Hrefl|reflexivity].
  - apply fork_owners_as_users.
  - rewrite <- (map_map fst JStr), strings_as_forks.
    split; [apply Hrefl|reflexivity].
Qed.

Lemma paginate_turn_acc endpoint per_page max_pages continue users page w :
  paginate_turn endpoint per_page max_pages continue users page w
  = if page_limit_reached max_pages page then (Ok users, w)
    else
      match _make_request endpoint (page_params page per_page) w with
      | (Raise e, w') => (Raise e, w')
      | (Ok data, w') =>
          if PyJson.truthy data then
            match (let? items := PyJson.iter data in
                   append_users users items) with
            | Raise e => (Raise e, w')
            | Ok users' => continue users' (page + 1)%Z w'
            end
          else (Ok users, w')
      end.
Proof.
  unfold paginate_turn, users_of.
  destruct (page_limit_reached max_pages page); [reflexivity|].
  destruct (_make_request _ _ w) as [[data|e] w']; [|reflexivity].
  destruct (PyJson.truthy data); [|reflexivity].
  destruct (PyJson.iter data) as [items|e]; [|reflexivity].
  cbn [Result_bind]. rewrite (append_users_acc users items).
  destruct (append_users [] items); reflexivity.
Qed.

Lemma forks_as_owner_walk endpoint per_page max_pages xs :
  forall w users page,
  pending w = xs ->
  snd (paginate_from endpoint per_page max_pages users page (owners_world w))
  = owners_world (snd (forks_from endpoint per_page max_pages users page w))
  /\ same_outcome
       (fst (forks_from endpoint per_page max_pages users page w))
       (fst (paginate_from endpoint per_page max_pages users page
               (owners_world w)))
  /\ (Forall fork_pages xs ->
      fst (forks_from endpoint per_page max_pages users page w)
      = fst (paginate_from endpoint per_page max_pages users page
               (owners_world w))).
Proof.
  induction xs as [|x xs IH]; intros w users page Hxs;
    rewrite paginate_from_turn, forks_from_turn, paginate_turn_acc;
    unfold forks_turn; rewrite make_request_owners;
    destruct (page_limit_reached max_pages page);
    try (cbn [fst snd]; repeat split; reflexivity).
  - assert (Hd := make_request_delivered endpoint
                    (page_params page per_page) w).
    rewrite Hxs in Hd.
    destruct (_make_request _ _ w) as [[data|e] w1]; [discriminate Hd|].
    cbn [fst snd]. repeat split; reflexivity.
  - destruct (_make_request _ _ w) as [[data|e] w1] eqn:E; cbn [fst snd];
      [|repeat split; reflexivity].
    destruct (make_request_effects _ _ _ _ _ E) as (Hp & _).
    rewrite Hxs in Hp. cbn [tl] in Hp.
    rewrite owners_page_truthy.
    destruct (PyJson.truthy data); [|cbn [fst snd]; repeat split; reflexivity].
    destruct (page_of_forks data users) as [Hs He].
    assert (Hx : fork_pages x -> has_owners data).
    { assert (Hd := make_request_delivered endpoint
                      (page_params page per_page) w).
      rewrite Hxs, E in Hd. cbn [fst] in Hd.
      unfold fork_pages. clear -Hd.
      unfold delivered, _make_request, try_except, bind, session_get in Hd.
      cbn [pending] in Hd.
      destruct (reply x) as [|resp]; [discriminate Hd|].
      destruct (status_code resp =? 429)%Z.
      - unfold lift, time_time, raise in Hd. cbn [now] in Hd.
        destruct (headers_get _ _) as [v|]; [destruct (PyStr.int v)|];
          discriminate Hd.
      - unfold raise_for_status, time_sleep, response_json, raise, ret in Hd.
        destruct ((400 <=? status_code resp)%Z
                  && (status_code resp <? 600)%Z).
        + destruct (status_code resp =? 404)%Z;
            [|destruct (status_code resp =? 403)%Z]; discriminate Hd.
        + destruct (body resp); [|discriminate Hd].
          cbn [fst] in Hd. injection Hd as ->. auto. }
    destruct (let? forks := PyJson.iter data in _) as [uf|ef] eqn:Ef;
      destruct (let? items := PyJson.iter (owners_page data) in _)
        as [uu|eu] eqn:Eu; cbn [same_outcome] in Hs; try contradiction.
    + subst uu. destruct (IH w1 uf (page + 1)%Z Hp) as (I1 & I2 & I3).
      split; [exact I1|]. split; [exact I2|].
      intros Hf. inversion Hf; subst. auto.
    + cbn [fst snd]. split; [reflexivity|]. split; [exact I|].
      intros Hf. inversion Hf as [|? ? Hfx ?]; subst.
      specialize (He (Hx Hfx)). congruence.
Qed.

End Transport.

(** * Emails, the rate limit and the order of discovery *)

Section Discovery.
Context {P : Platform}.

Lemma accept_email_str s :
  accept_email (JStr s) = Ok (if email_ok s then Some s else None).
Proof.
  unfold accept_email, email_ok. cbn [PyJson.truthy].
  destruct (String.eqb s ""); reflexivity.
Qed.

Lemma scan_one_event_commit email :
  scan_event_commits [JObj [("author", JObj [("email", email)])]]
  = if PyJson.truthy email then
      let? accepted := accept_email email in
      match accepted with Some e => Ok (Some e) | None => Ok None end
    else Ok None.
Proof. reflexivity. Qed.

Lemma scan_one_repo_commit email :
  scan_repo_commits
    [JObj [("commit", JObj [("author", JObj [("email", email)])])]]
  = if PyJson.truthy email then
      let? accepted := accept_email email in
      match accepted with Some e => Ok (Some e) | None => Ok None end
    else Ok None.
Proof. reflexivity. Qed.

(** C5.  The filter of the three strategies accepts a candidate string
    exactly when it is not empty, contains '@', does not end with
    "@users.noreply.github.com" and does not start with "noreply"; the scan
    of an event's commits (strategies 1 and 2) and the scan of a
    repository's commits (strategy 3) return a lone candidate exactly when
    the filter accepts it; "foo@users.noreply.github.com" and
    "noreply@company.com" are rejected, "jane@example.com" is accepted. *)
Theorem email_filter (candidate : string) :
  (email_ok candidate = true <->
     candidate <> EmptyString
     /\ In "@"%char (list_ascii_of_string candidate)
     /\ ~ (exists p, candidate = p +:+ "@users.noreply.github.com")
     /\ ~ (exists r, candidate = "noreply" +:+ r))
  /\ accept_email (JStr candidate)
     = Ok (if email_ok candidate then Some candidate else None)
  /\ scan_event_commits
       [JObj [("author", JObj [("email", JStr candidate)])]]
     = Ok (if email_ok candidate then Some candidate else None)
  /\ scan_repo_commits
       [JObj [("commit",
               JObj [("author", JObj [("email", JStr candidate)])])]]
     = Ok (if email_ok candidate then Some candidate else None)
  /\ email_ok "foo@users.noreply.github.com" = false
  /\ email_ok "noreply@company.com" = false
  /\ email_ok "jane@example.com" = true.
Proof.
  split; [|split; [apply accept_email_str|split; [|split; [|repeat split]]]].
  - unfold email_ok.
    rewrite !andb_true_iff, !negb_true_iff, String.eqb_neq.
    rewrite char_in_iff.
    rewrite <- !not_true_iff_false, endswith_iff, startswith_iff. tauto.
  - rewrite scan_one_event_commit, accept_email_str.
    unfold email_ok. cbn [PyJson.truthy].
    destruct (String.eqb candidate ""); cbn [negb andb Result_bind];
      [reflexivity|].
    destruct (negb _ && _ && _); reflexivity.
  - rewrite scan_one_repo_commit, accept_email_str.
    unfold email_ok. cbn [PyJson.truthy].
    destruct (String.eqb candidate ""); cbn [negb andb Result_bind];
      [reflexivity|].
    destruct (negb _ && _ && _); reflexivity.
Qed.






(** [int] at its edges: blanks and a sign, the separators that
    [str.strip()] would remove, underscores, and the limit on the digits. *)
Example int_cases :
  PyStr.int "1030" = Some 1030%Z
  /\ PyStr.int (String (ascii_of_nat 11) " -12 "
                 +:+ String (ascii_of_nat 160) "")
     = Some (-12)%Z
  /\ PyStr.int "+1_000" = Some 1000%Z
  /\ PyStr.int ("1030" +:+ String (ascii_of_nat 31) "") = None
  /\ PyStr.int (String (ascii_of_nat 28) "12") = None
  /\ PyStr.int "" = None
  /\ PyStr.int "+ 1" = None
  /\ PyStr.int "1__0" = None
  /\ PyStr.int "1030.5" = None
  /\ PyStr.int (String.concat "" (repeat "0" 4300)) = Some 0%Z
  /\ PyStr.int (String.concat "" (repeat "0" 4301)) = None.
Proof. repeat split; vm_compute; reflexivity. Qed.

Lemma accept_email_ok email e :
  accept_email email = Ok (Some e) -> email_ok e = true.
Proof.
  unfold accept_email. destruct (PyJson.truthy email); [|discriminate].
  destruct email; try discriminate.
  destruct (email_ok s) eqn:E; [|discriminate].
  intros H. injection H as <-. exact E.
Qed.

Lemma scan_event_commits_ok commits e :
  scan_event_commits commits = Ok (Some e) -> email_ok e = true.
Proof.
  induction commits as [|commit rest IH]; cbn [scan_event_commits];
    [discriminate|].
  destruct (PyJson.get commit "author" (JObj [])) as [a|]; [|discriminate].
  cbn [Result_bind].
  destruct (PyJson.get a "email" JNull) as [probe|]; [|discriminate].
  cbn [Result_bind]. destruct (PyJson.truthy probe); [|exact IH].
  destruct (PyJson.getitem commit "author") as [a'|]; [|discriminate].
  cbn [Result_bind].
  destruct (PyJson.getitem a' "email") as [email|]; [|discriminate].
  cbn [Result_bind].
  destruct (accept_email email) as [[e'|]|] eqn:Ea; cbn [Result_bind];
    [|exact IH|discriminate].
  intros H. injection H as <-. exact (accept_email_ok _ _ Ea).
Qed.

Lemma scan_repo_commits_ok commits e :
  scan_repo_commits commits = Ok (Some e) -> email_ok e = true.
Proof.
  induction commits as [|commit rest IH]; cbn [scan_repo_commits];
    [discriminate|].
  destruct (PyJson.get commit "commit" (JObj [])) as [c|]; [|discriminate].
  cbn [Result_bind].
  destruct (PyJson.get c "author" (JObj [])) as [a|]; [|discriminate].
  cbn [Result_bind].
  destruct (PyJson.get a "email" JNull) as [probe|]; [|discriminate].
  cbn [Result_bind]. destruct (PyJson.truthy probe); [|exact IH].
  destruct (PyJson.getitem commit "commit") as [c'|]; [|discriminate].
  cbn [Result_bind].
  destruct (PyJson.getitem c' "author") as [a'|]; [|discriminate].
  cbn [Result_bind].
  destruct (PyJson.getitem a' "email") as [email|]; [|discriminate].
  cbn [Result_bind].
  destruct (accept_email email) as [[e'|]|] eqn:Ea; cbn [Result_bind];
    [|exact IH|discriminate].
  intros H. injection H as <-. exact (accept_email_ok _ _ Ea).
Qed.

Lemma scan_push_events_ok events e :
  scan_push_events events = Ok (Some e) -> email_ok e = true.
Proof.
  induction events as [|event rest IH]; cbn [scan_push_events];
    [discriminate|].
  destruct (PyJson.get event "type" JNull) as [ty|]; [|discriminate].
  cbn [Result_bind]. destruct (PyJson.eq_str ty "PushEvent"); [|exact IH].
  destruct (PyJson.get event "payload" (JObj [])) as [pl|]; [|discriminate].
  cbn [Result_bind].
  destruct (PyJson.get pl "commits" (JArr [])) as [cs|]; [|discriminate].
  cbn [Result_bind].
  destruct (PyJson.iter cs) as [commits|]; [|discriminate].
  cbn [Result_bind].
  destruct (scan_event_commits commits) as [[e'|]|] eqn:Es;
    cbn [Result_bind]; [|exact IH|discriminate].
  intros H. injection H as <-. exact (scan_event_commits_ok _ _ Es).
Qed.

Lemma scan_create_events_ok events e :
  scan_create_events events = Ok (Some e) -> email_ok e = true.
Proof.
  induction events as [|event rest IH]; cbn [scan_create_events];
    [discriminate|].
  destruct (PyJson.get event "type" JNull) as [ty|]; [|discriminate].
  cbn [Result_bind]. destruct (PyJson.eq_str ty "CreateEvent"); [|exact IH].
  destruct (PyJson.get event "payload" (JObj [])) as [pl|]; [|discriminate].
  cbn [Result_bind].
  destruct (PyJson.get pl "commits" JNull) as [probe|]; [|discriminate].
  cbn [Result_bind]. destruct (PyJson.truthy probe); [|exact IH].
  destruct (PyJson.getitem event "payload") as [pl'|]; [|discriminate].
  cbn [Result_bind].
  destruct (PyJson.getitem pl' "commits") as [cs|]; [|discriminate].
  cbn [Result_bind].
  destruct (PyJson.iter cs) as [commits|]; [|discriminate].
  cbn [Result_bind].
  destruct (scan_event_commits commits) as [[e'|]|] eqn:Es;
    cbn [Result_bind]; [|exact IH|discriminate].
  intros H. injection H as <-. exact (scan_event_commits_ok _ _ Es).
Qed.

Lemma from_commits_spec username w :
  exists found w',
    _extract_email_from_commits username w = (Ok found, w')
    /\ trace w' = trace w ++ [events_request username]
    /\ (forall e, found = Some e -> email_ok e = true).
Proof.
  unfold _extract_email_from_commits, try_except, bind, lift, ret.
  destruct (_make_request _ _ w) as [[events|e] w'] eqn:E;
    destruct (make_request_effects _ _ _ _ _ E) as (_ & Ht & _).
  - destruct (PyJson.iter events) as [evs|]; cbn [Result_bind].
    + destruct (scan_push_events evs) as [found|] eqn:Es.
      * exists found, w'. repeat split; [exact Ht|].
        intros e' ->. exact (scan_push_events_ok _ _ Es).
      * exists None, w'. repeat split; [exact Ht|discriminate].
    + exists None, w'. repeat split; [exact Ht|discriminate].
  - exists None, w'. repeat split; [exact Ht|discriminate].
Qed.

Lemma from_events_spec username w :
  exists found w',
    _extract_email_from_events username w = (Ok found, w')
    /\ trace w' = trace w ++ [public_events_request username]
    /\ (forall e, found = Some e -> email_ok e = true).
Proof.
  unfold _extract_email_from_events, try_except, bind, lift, ret.
  destruct (_make_request _ _ w) as [[events|e] w'] eqn:E;
    destruct (make_request_effects _ _ _ _ _ E) as (_ & Ht & _).
  - destruct (PyJson.iter events) as [evs|]; cbn [Result_bind].
    + destruct (scan_create_events evs) as [found|] eqn:Es.
      * exists found, w'. repeat split; [exact Ht|].
        intros e' ->. exact (scan_create_events_ok _ _ Es).
      * exists None, w'. repeat split; [exact Ht|discriminate].
    + exists None, w'. repeat split; [exact Ht|discriminate].
  - exists None, w'. repeat split; [exact Ht|discriminate].
Qed.

Lemma scan_repos_spec username repos : forall w r w',
  scan_repos username repos w = (r, w') ->
  (exists more, trace w' = trace w ++ more)
  /\ (forall e, r = Ok (Some e) -> email_ok e = true).
Proof.
  induction repos as [|repo rest IH]; intros w r w'; cbn [scan_repos].
  - unfold ret. intros H. injection H as <- <-.
    split; [exists []; rewrite app_nil_r; reflexivity|discriminate].
  - unfold bind at 1, lift at 1.
    destruct (PyJson.get repo "owner" (JObj [])) as [o|e].
    2:{ intros H. injection H as <- <-.
        split; [exists []; rewrite app_nil_r; reflexivity|discriminate]. }
    unfold bind at 1, lift at 1.
    destruct (PyJson.get o "login" JNull) as [l|e].
    2:{ intros H. injection H as <- <-.
        split; [exists []; rewrite app_nil_r; reflexivity|discriminate]. }
    destruct (PyJson.eq_str l username); [|apply IH].
    unfold bind at 1, try_except, bind at 1, lift at 1.
    destruct (PyJson.getitem repo "name") as [nm|e] eqn:En.
    + unfold bind at 1.
      destruct (_make_request _ _ w) as [[commits|e] w1] eqn:E;
        destruct (make_request_effects _ _ _ _ _ E) as (_ & Ht & _).
      * unfold lift at 1.
        destruct (let? cs := PyJson.iter commits in scan_repo_commits cs)
          as [[e'|]|e'] eqn:Es.
        -- unfold ret. intros H. injection H as <- <-.
           split; [eauto|]. intros e'' H. injection H as <-.
           destruct (PyJson.iter commits); [|discriminate].
           exact (scan_repo_commits_ok _ _ Es).
        -- intros H. destruct (IH _ _ _ H) as [[more Hm] Hok].
           split; [|exact Hok].
           rewrite Hm, Ht, <- app_assoc. eauto.
        -- unfold bind at 1, lift at 1, ret.
           intros H. destruct (IH _ _ _ H) as [[more Hm] Hok].
           split; [|exact Hok].
           rewrite Hm, Ht, <- app_assoc. eauto.
      * unfold bind at 1, lift at 1, ret.
        intros H. destruct (IH _ _ _ H) as [[more Hm] Hok].
        split; [|exact Hok].
        rewrite Hm, Ht, <- app_assoc. eauto.
    + unfold bind at 1, lift at 1.
      intros H. injection H as <- <-.
      split; [exists []; rewrite app_nil_r; reflexivity|discriminate].
Qed.

Lemma from_user_repos_spec username w :
  exists found w' more,
    _extract_email_from_user_repos username w = (Ok found, w')
    /\ trace w' = trace w ++ repos_request username :: more
    /\ (forall e, found = Some e -> email_ok e = true).
Proof.
  unfold _extract_email_from_user_repos, try_except, bind at 1.
  destruct (_make_request _ _ w) as [[repos|e] w1] eqn:E;
    destruct (make_request_effects _ _ _ _ _ E) as (_ & Ht & _).
  - unfold bind at 1, lift at 1.
    destruct (PyJson.slice_to 3 repos) as [first3|e].
    2:{ exists None, w1, []. repeat split; [exact Ht|discriminate]. }
    unfold bind at 1, lift at 1.
    destruct (PyJson.iter first3) as [items|e].
    2:{ exists None, w1, []. repeat split; [exact Ht|discriminate]. }
    destruct (scan_repos username items w1) as [r w2] eqn:Es.
    destruct (scan_repos_spec _ _ _ _ _ Es) as [[more Hm] Hok].
    destruct r as [found|e].
    + exists found, w2, more. split; [reflexivity|]. split.
      * rewrite Hm, Ht, <- app_assoc. reflexivity.
      * intros e ->. apply Hok. reflexivity.
    + exists None, w2, more. split; [reflexivity|]. split.
      * rewrite Hm, Ht, <- app_assoc. reflexivity.
      * discriminate.
  - exists None, w1, []. repeat split; [exact Ht|discriminate].
Qed.

Lemma email_ok_truthy e : email_ok e = true -> PyJson.truthy (JStr e) = true.
Proof.
  unfold email_ok. cbn [PyJson.truthy].
  destruct (negb (String.eqb e "")); [reflexivity|discriminate].
Qed.

Lemma detailed_email v1 v2 email v4 v5 v6 v7 v8 v9 v10 v11 v12 v13 v14 v15 u :
  UserInfo.detailed v1 v2 email v4 v5 v6 v7 v8 v9 v10 v11 v12 v13 v14 v15
  = Ok u ->
  validate_opt_str email = Some (UserInfo.email u).
Proof.
  unfold UserInfo.detailed, validated.
  repeat match goal with
         | |- context [match ?v with Some _ => _ | None => _ end] =>
             destruct v; cbn [Result_bind]; [|discriminate]
         end.
  intros H. injection H as <-. reflexivity.
Qed.

Lemma bind_run {A B} (m : M A) (k : A -> M B) w :
  bind m k w
  = match m w with
    | (Ok a, w') => k a w'
    | (Raise e, w') => (Raise e, w')
    end.
Proof. reflexivity. Qed.

Lemma ret_run {A} (a : A) w : ret a w = (Ok a, w).
Proof. reflexivity. Qed.

Lemma try_strategy (strategy : M (option string)) (h : exn -> M json)
  w found w1 :
  strategy w = (Ok found, w1) ->
  try_except (found <- strategy ;; ret (of_optional found)) h w
  = (Ok (of_optional found), w1).
Proof. intros H. unfold try_except, bind, ret. rewrite H. reflexivity. Qed.

(** C4.  The email of the record [get_user_info] returns is the value
    [discover_email] leaves.  That is the profile's own value, with no
    request made, when the value is truthy or aggressive extraction is off.
    Otherwise the strategies run in the order push events, public events,
    owned repositories: each makes its requests, never raises, and finds
    accepted emails only; the first email found is the result and the world
    is the one that strategy left, so no later strategy has run; when none
    finds an email the result is None. *)
Theorem discovery_order (username : string) (aggressive : bool)
  (profile_email : json) (w : World) :
  (PyJson.truthy profile_email = true \/ aggressive = false ->
   discover_email username aggressive profile_email w = (Ok profile_email, w))
  /\ (PyJson.truthy profile_email = false -> aggressive = true ->
      exists found1 w1,
        _extract_email_from_commits username w = (Ok found1, w1)
        /\ trace w1 = trace w ++ [events_request username]
        /\ match found1 with
           | Some e =>
               email_ok e = true
               /\ discover_email username aggressive profile_email w
                  = (Ok (JStr e), w1)
           | None =>
               exists found2 w2,
                 _extract_email_from_events username w1 = (Ok found2, w2)
                 /\ trace w2 = trace w1 ++ [public_events_request username]
                 /\ match found2 with
                    | Some e =>
                        email_ok e = true
                        /\ discover_email username aggressive profile_email w
                           = (Ok (JStr e), w2)
                    | None =>
                        exists found3 w3 more,
                          _extract_email_from_user_repos username w2
                          = (Ok found3, w3)
                          /\ trace w3
                             = trace w2 ++ repos_request username :: more
                          /\ (forall e, found3 = Some e -> email_ok e = true)
                          /\ discover_email username aggressive
                               profile_email w
                             = (Ok (of_optional found3), w3)
                    end
           end)
  /\ (forall user w',
        get_user_info username aggressive w = (Ok user, w') ->
        exists data w1 profile email,
          _make_request ("/users/" +:+ username) [] w = (Ok data, w1)
          /\ PyJson.get data "email" JNull = Ok profile
          /\ discover_email username aggressive profile w1 = (Ok email, w')
          /\ validate_opt_str email = Some (UserInfo.email user)).
Proof.
  split; [|split].
  - unfold discover_email. intros [->| ->]; [reflexivity|].
    rewrite andb_false_r. reflexivity.
  - intros Hf ->.
    destruct (from_commits_spec username w) as (f1 & w1 & E1 & T1 & A1).
    exists f1, w1. split; [exact E1|]. split; [exact T1|].
    assert (Hrun : discover_email username true profile_email w
                   = (email <-
                        (if negb (PyJson.truthy (of_optional f1)) then
                           try_except
                             (found <- _extract_email_from_events username ;;
                              ret (of_optional found))
                             (fun _ => ret (of_optional f1))
                         else ret (of_optional f1)) ;;
                      email <-
                        (if negb (PyJson.truthy email) then
                           try_except
                             (found <- _extract_email_from_user_repos
                                         username ;;
                              ret (of_optional found))
                             (fun _ => ret email)
                         else ret email) ;;
                      ret email) w1).
    { unfold discover_email. rewrite Hf. cbn [negb andb].
      rewrite bind_run, (try_strategy _ _ _ _ _ E1). reflexivity. }
    rewrite Hrun. clear Hrun.
    destruct f1 as [e|]; cbn [of_optional].
    + assert (He := A1 e eq_refl). split; [exact He|].
      rewrite (email_ok_truthy e He). cbn [negb].
      rewrite bind_run, ret_run, bind_run, (email_ok_truthy e He).
      reflexivity.
    + destruct (from_events_spec username w1) as (f2 & w2 & E2 & T2 & A2).
      exists f2, w2. split; [exact E2|]. split; [exact T2|].
      cbn [PyJson.truthy negb].
      rewrite bind_run, (try_strategy _ _ _ _ _ E2).
      destruct f2 as [e|]; cbn [of_optional].
      * assert (He := A2 e eq_refl). split; [exact He|].
        rewrite (email_ok_truthy e He). reflexivity.
      * destruct (from_user_repos_spec username w2)
          as (f3 & w3 & more & E3 & T3 & A3).
        exists f3, w3, more. split; [exact E3|]. split; [exact T3|].
        split; [exact A3|].
        cbn [PyJson.truthy negb].
        rewrite bind_run, (try_strategy _ _ _ _ _ E3). reflexivity.
  - intros user w'. unfold get_user_info. rewrite bind_run.
    destruct (_make_request _ _ w) as [[data|e] w1] eqn:Er; [|discriminate].
    rewrite bind_run. unfold lift at 1.
    destruct (PyJson.get data "email" JNull) as [profile|e] eqn:Ep;
      [|discriminate].
    rewrite bind_run.
    destruct (discover_email username aggressive profile w1)
      as [[email|e] w2] eqn:Ed; [|discriminate].
    unfold lift. intros H. injection H as H <-.
    exists data, w1, profile, email.
    split; [reflexivity|]. split; [exact Ep|]. split; [exact Ed|].
    repeat match type of H with
           | (let? _ := ?r in _) = Ok _ =>
               destruct r; cbn [Result_bind] in H; [|discriminate H]
           end.
    exact (detailed_email _ _ _ _ _ _ _ _ _ _ _ _ _ _ _ _ H).
Qed.

End Discovery.

(** * The walks, the sections and the report *)

Section Extraction.
Context {P : Platform}.

Lemma append_users_projects items : forall users us,
  append_users users items = Ok us ->
  exists new, us = users ++ new /\ Forall2 projects items new.
Proof.
  induction items as [|item rest IH]; intros users us; cbn [append_users].
  - intros H. injection H as <-. exists []. rewrite app_nil_r. auto.
  - destruct (PyJson.getitem item "login") as [l|e] eqn:El; [|discriminate].
    destruct (PyJson.getitem item "avatar_url") as [a|e] eqn:Ea;
      [|discriminate].
    destruct (PyJson.getitem item "html_url") as [h|e] eqn:Eh;
      [|discriminate].
    cbn [Result_bind].
    destruct (UserInfo.minimal l a h) as [u|e] eqn:Eu; [|discriminate].
    cbn [Result_bind]. intros H.
    destruct (IH _ _ H) as (new & -> & Hnew).
    exists (u :: new). rewrite <- app_assoc. split; [reflexivity|].
    constructor; [|exact Hnew]. exists l, a, h. auto.
Qed.

Lemma users_of_projects data us :
  users_of data = Ok us ->
  exists items, PyJson.iter data = Ok items /\ Forall2 projects items us.
Proof.
  unfold users_of. destruct (PyJson.iter data) as [items|e]; [|discriminate].
  cbn [Result_bind]. intros H.
  destruct (append_users_projects _ _ _ H) as (new & -> & Hnew).
  exists items. auto.
Qed.

Lemma Walk_projects endpoint max_pages page xs uss n :
  Walk endpoint max_pages page xs uss n ->
  Forall (fun u => exists item, projects item u) (concat uss).
Proof.
  induction 1 as [| |page x xs data us uss n Hb Hd Ht Hu Hw IH];
    cbn [concat]; [constructor|constructor|].
  apply Forall_app. split; [|exact IH].
  destruct (users_of_projects _ _ Hu) as (items & _ & H2).
  clear -H2. induction H2; constructor; eauto.
Qed.


Lemma paginate_is_from endpoint per_page max_pages w :
  _paginate_users endpoint per_page max_pages w
  = paginate_from endpoint per_page max_pages [] 1 w.
Proof. reflexivity. Qed.

Lemma get_forks_is_from owner repo per_page max_pages w :
  get_forks owner repo per_page max_pages w
  = forks_from ("/repos/" +:+ owner +:+ "/" +:+ repo +:+ "/forks")
      per_page max_pages [] 1 w.
Proof. reflexivity. Qed.

(** C7, amended.  A run of [_paginate_users] requests pages 1, 2, ..., each
    with the parameters {page, per_page}, and nothing else; with a page cap
    other than 0 it makes at most that many requests.  It returns records
    exactly when the answers form a walk of the specification: pages with
    items are collected in order until the first page without items, or
    until the next page number is beyond a cap other than 0 (a cap of 0
    does not stop the walk).  With a cap of 1 exactly page 1 is requested,
    and with a page size of 1 besides, answers of at most one item give at
    most one record. *)
Theorem pagination_walk (endpoint : string) (per_page : Z)
  (max_pages : option Z) (w : World) :
  (exists n,
     trace (snd (_paginate_users endpoint per_page max_pages w))
     = trace w ++ page_requests endpoint per_page 1 n
     /\ (forall m, max_pages = Some m -> m <> 0%Z ->
                   (Z.of_nat n <= Z.max 0 m)%Z))
  /\ (forall users w',
        _paginate_users endpoint per_page max_pages w = (Ok users, w')
        <-> exists uss n,
              Walk endpoint max_pages 1 (pending w) uss n
              /\ users = concat uss
              /\ w' = after_pages endpoint per_page 1 n w)
  /\ (max_pages = Some 1%Z ->
      trace (snd (_paginate_users endpoint per_page max_pages w))
      = trace w ++ [page_request endpoint per_page 1])
  /\ (max_pages = Some 1%Z -> per_page = 1%Z ->
      Forall (honours endpoint 1) (pending w) ->
      forall users w',
        _paginate_users endpoint per_page max_pages w = (Ok users, w') ->
        length users <= 1).
Proof.
  rewrite paginate_is_from.
  assert (Hwalk : forall users w',
            paginate_from endpoint per_page max_pages [] 1 w = (Ok users, w')
            <-> exists uss n,
                  Walk endpoint max_pages 1 (pending w) uss n
                  /\ users = concat uss
                  /\ w' = after_pages endpoint per_page 1 n w).
  { intros users w'.
    exact (paginate_from_walk endpoint per_page max_pages (pending w) w []
             1%Z users w' eq_refl). }
  split; [|split; [exact Hwalk|split]].
  - destruct (paginate_from_requests endpoint per_page max_pages (pending w)
                w [] 1%Z eq_refl) as (n & Hn & Hb).
    exists n. split; [exact Hn|].
    intros m Hm Hm0. specialize (Hb m Hm Hm0). lia.
  - intros ->. rewrite paginate_from_turn. unfold paginate_turn.
    change (page_limit_reached (Some 1%Z) 1) with false. cbv iota.
    destruct (_make_request _ _ w) as [[data|e] w1] eqn:E;
      destruct (make_request_effects _ _ _ _ _ E) as (_ & Ht & _);
      [|exact Ht].
    destruct (PyJson.truthy data); [|exact Ht].
    destruct (users_of data) as [us|e]; [|exact Ht].
    match goal with
    | |- context [paginate_from ?e ?pp ?m ?u ?p ?w0] =>
        destruct (paginate_from_requests e pp m (pending w0) w0 u p eq_refl)
          as (n & Hn & Hb)
    end.
    specialize (Hb 1%Z eq_refl ltac:(lia)).
    assert (n = 0) by lia. subst n.
    rewrite Hn. cbn [page_requests]. rewrite app_nil_r. exact Ht.
  - intros -> -> Hh users w' Hrun.
    apply Hwalk in Hrun. destruct Hrun as (uss & n & Hw & -> & _).
    destruct (Walk_bound _ _ _ _ _ _ Hw) as [_ Hb].
    specialize (Hb 1%Z eq_refl ltac:(lia)).
    assert (Hs := Walk_size endpoint 1 _ _ _ _ _ Hw Hh ltac:(lia)).
    lia.
Qed.

Lemma delivered_owners endpoint x :
  delivered endpoint (owners_exchange x)
  = match delivered endpoint x with
    | Ok data => Ok (owners_page data)
    | Raise e => Raise e
    end.
Proof.
  unfold delivered.
  change {| pending := [owners_exchange x]; now := 0; trace := []; naps := 0 |}
    with (owners_world {| pending := [x]; now := 0; trace := [];
                          naps := 0 |}).
  rewrite make_request_owners. reflexivity.
Qed.

Lemma users_of_owners data us :
  PyJson.truthy data = true ->
  users_of (owners_page data) = Ok us ->
  exists forks, data = JArr forks /\ Forall2 projects (map owner_of forks) us.
Proof.
  intros Ht Hu. destruct data as [| | | |s|forks|fields];
    try discriminate Hu.
  - destruct s; discriminate.
  - destruct (users_of_projects _ _ Hu) as (items & Hi & H2).
    cbn [owners_page PyJson.iter] in Hi. injection Hi as <-. eauto.
  - destruct fields as [|[k v] fields]; discriminate.
Qed.

Lemma owner_walk_projects endpoint max_pages xs : forall page uss n,
  Walk endpoint max_pages page (map owners_exchange xs) uss n ->
  Forall (fun u => exists fork, projects (owner_of fork) u) (concat uss).
Proof.
  induction xs as [|x xs IH]; intros page uss n Hw; inversion Hw; subst;
    cbn [concat]; try constructor.
  apply Forall_app. split; [|eapply IH; eassumption].
  match goal with
  | Hd : delivered _ (owners_exchange _) = Ok ?d,
    Ht : PyJson.truthy ?d = true, Hu : users_of ?d = Ok _ |- _ =>
      rewrite delivered_owners in Hd;
      destruct (delivered endpoint x) as [data0|e]; [|discriminate Hd];
      injection Hd as <-; rewrite owners_page_truthy in Ht;
      destruct (users_of_owners _ _ Ht Hu) as (forks & _ & H2)
  end.
  clear -H2. remember (map owner_of forks) as items eqn:Ei.
  revert forks Ei. induction H2 as [|item u items us Hp H2 IH];
    intros forks Ei; [constructor|].
  destruct forks as [|fork forks]; [discriminate|].
  injection Ei as -> ->. constructor; eauto.
Qed.

(** C9.  [get_forks] and the generic paginator run on the same answers with
    every page of forks replaced by the page of their nested "owner"
    objects, at the same endpoint with the same page size and cap: both
    fail or both return the same records, they make the same requests and
    leave the same answers pending, they raise the same exception too when
    every fork entry has an owner, and each record returned is built from
    the "login", "avatar_url" and "html_url" of the owner of a fork. *)
Theorem forks_walk_is_owner_walk (owner repo : string) (per_page : Z)
  (max_pages : option Z) (w : World) :
  let endpoint := "/repos/" +:+ owner +:+ "/" +:+ repo +:+ "/forks" in
  let forks := get_forks owner repo per_page max_pages w in
  let owners :=
    _paginate_users endpoint per_page max_pages (owners_world w) in
  same_outcome (fst forks) (fst owners)
  /\ snd owners = owners_world (snd forks)
  /\ (Forall fork_pages (pending w) -> fst forks = fst owners)
  /\ (forall users,
        fst forks = Ok users ->
        Forall (fun u => exists fork, projects (owner_of fork) u) users).
Proof.
  intros endpoint forks owners. subst forks owners.
  rewrite get_forks_is_from, paginate_is_from. fold endpoint.
  destruct (forks_as_owner_walk endpoint per_page max_pages (pending w) w []
              1%Z eq_refl) as (Hw & Hs & He).
  split; [exact Hs|]. split; [exact Hw|]. split; [exact He|].
  intros users Hu. rewrite Hu in Hs.
  destruct (paginate_from endpoint per_page max_pages [] 1 (owners_world w))
    as [[users'|e] w'] eqn:Er; cbn [fst same_outcome] in Hs;
    [|contradiction].
  subst users'.
  apply (paginate_from_walk endpoint per_page max_pages
           (pending (owners_world w)) (owners_world w) [] 1%Z users w' eq_refl)
    in Er.
  destruct Er as (uss & n & Hwalk & -> & _). cbn [app].
  exact (owner_walk_projects _ _ _ _ _ _ Hwalk).
Qed.

Lemma paginate_loop_zero_cap fuel endpoint per_page :
  forall users page w,
  _paginate_users_loop fuel endpoint per_page (Some 0%Z) users page w
  = _paginate_users_loop fuel endpoint per_page None users page w.
Proof.
  induction fuel as [|fuel IH]; intros users page w; [reflexivity|].
  rewrite !paginate_loop_turn. unfold paginate_turn.
  change (page_limit_reached (Some 0%Z) page) with false.
  change (page_limit_reached None page) with false. cbv iota.
  destruct (_make_request _ _ w) as [[data|e] w']; [|reflexivity].
  destruct (PyJson.truthy data); [|reflexivity].
  destruct (users_of data); [|reflexivity].
  apply IH.
Qed.

Lemma forks_loop_zero_cap fuel endpoint per_page :
  forall users page w,
  get_forks_loop fuel endpoint per_page (Some 0%Z) users page w
  = get_forks_loop fuel endpoint per_page None users page w.
Proof.
  induction fuel as [|fuel IH]; intros users page w; [reflexivity|].
  rewrite !forks_loop_turn. unfold forks_turn.
  change (page_limit_reached (Some 0%Z) page) with false.
  change (page_limit_reached None page) with false. cbv iota.
  destruct (_make_request _ _ w) as [[data|e] w']; [|reflexivity].
  destruct (PyJson.truthy data); [|reflexivity].
  destruct (let? forks := PyJson.iter data in _); [|reflexivity].
  apply IH.
Qed.



Lemma fetch_details_step aggressive detailed user rest w :
  fetch_details aggressive detailed (user :: rest) w
  = let '(r, w1) := get_user_info (UserInfo.login user) aggressive w in
    fetch_details aggressive
      (detailed ++ [match r with Ok d => d | Raise _ => user end]) rest w1.
Proof.
  cbn [fetch_details]. rewrite bind_run. unfold try_except.
  destruct (get_user_info _ _ w) as [[d|e] w1]; reflexivity.
Qed.

Lemma fetch_details_total aggressive users : forall detailed w,
  exists ds w',
    fetch_details aggressive detailed users w = (Ok (detailed ++ ds), w')
    /\ Forall2 (kept_or_detailed aggressive) users ds.
Proof.
  induction users as [|user rest IH]; intros detailed w.
  - exists [], w. rewrite app_nil_r. split; [reflexivity|constructor].
  - rewrite fetch_details_step.
    destruct (get_user_info _ _ w) as [r w1] eqn:E.
    destruct (IH (detailed ++ [match r with Ok d => d | Raise _ => user end])
                w1) as (ds & w' & Hrun & Hds).
    exists (match r with Ok d => d | Raise _ => user end :: ds), w'.
    rewrite Hrun, <- app_assoc. split; [reflexivity|].
    constructor; [|exact Hds].
    destruct r as [d|e]; [right; eauto|left; reflexivity].
Qed.

Lemma extract_parse_failure url stargazers forkers max_stargazers max_forkers
  detailed aggressive w e :
  _parse_repo_identifier url = Raise e ->
  extract_repository_info url stargazers forkers max_stargazers max_forkers
    detailed aggressive w = (Raise e, w).
Proof.
  intros Hp. unfold extract_repository_info. rewrite bind_run.
  unfold lift. rewrite Hp. reflexivity.
Qed.

Lemma extract_repository_failure url stargazers forkers max_stargazers
  max_forkers detailed aggressive w owner repo e w1 :
  _parse_repo_identifier url = Ok (owner, repo) ->
  get_repository_info owner repo w = (Raise e, w1) ->
  extract_repository_info url stargazers forkers max_stargazers max_forkers
    detailed aggressive w = (Raise e, w1).
Proof.
  intros Hp Hr. unfold extract_repository_info. rewrite bind_run.
  unfold lift at 1. rewrite Hp. cbv iota beta. rewrite bind_run.
  unfold try_except at 1. rewrite Hr.
  destruct (is_GitHubAPIError e); reflexivity.
Qed.

Lemma extract_sections url (stargazers forkers : bool) max_stargazers
  max_forkers detailed aggressive w owner repo info w1 :
  _parse_repo_identifier url = Ok (owner, repo) ->
  get_repository_info owner repo w = (Ok info, w1) ->
  let s : Result (list UserInfo.t) * World :=
        if stargazers
        then _extract_stargazers owner repo max_stargazers detailed
               aggressive w1
        else (Ok [], w1) in
  let f : Result (list UserInfo.t) * World :=
        if forkers
        then _extract_forkers owner repo max_forkers detailed
               aggressive (snd s)
        else (Ok [], snd s) in
  extract_repository_info url stargazers forkers max_stargazers
    max_forkers detailed aggressive w
  = (Ok {| ExtractionResult.repository := info;
           ExtractionResult.stargazers := or_empty (fst s);
           ExtractionResult.forkers := or_empty (fst f);
           ExtractionResult.total_stargazers :=
             RepoInfo.stargazers_count info;
           ExtractionResult.total_forkers :=
             RepoInfo.forks_count info |},
     snd f).
Proof.
  intros Hp Hr s f. subst s f.
  unfold extract_repository_info. rewrite bind_run.
  unfold lift at 1. rewrite Hp. cbv iota beta. rewrite bind_run.
  unfold try_except at 1. rewrite Hr. rewrite bind_run.
  destruct stargazers.
  + unfold try_except at 1. rewrite bind_run.
    destruct (_extract_stargazers owner repo max_stargazers detailed
                aggressive w1) as [[l|e] w2]; cbn [fst snd or_empty];
      rewrite ?ret_run, bind_run.
    * destruct forkers.
      -- unfold try_except at 1. rewrite bind_run.
         destruct (_extract_forkers owner repo max_forkers detailed
                     aggressive w2) as [[l'|e'] w3];
           reflexivity.
      -- reflexivity.
    * destruct forkers.
      -- unfold try_except at 1. rewrite bind_run.
         destruct (_extract_forkers owner repo max_forkers detailed
                     aggressive w2) as [[l'|e'] w3];
           reflexivity.
      -- reflexivity.
  + rewrite ret_run, bind_run. cbn [fst snd or_empty].
    destruct forkers.
    * unfold try_except at 1. rewrite bind_run.
      destruct (_extract_forkers owner repo max_forkers detailed
                  aggressive w1) as [[l'|e'] w3];
        reflexivity.
    * reflexivity.
Qed.

(** C1.  An identifier that does not resolve and a failed repository fetch
    end the extraction with that very error and no report.  Once the
    repository is fetched the extraction returns a report holding it: each
    requested section is the list its extractor returned, or empty when the
    extractor failed, and the forker section runs from the world the
    stargazer section left, whether that one failed or not.
    [fetch_details] never fails: it returns one record per user, the user's
    own record wherever the fetch of the details failed. *)
Theorem extraction_failures :
  (forall url stargazers forkers max_stargazers max_forkers detailed
          aggressive w e,
     _parse_repo_identifier url = Raise e ->
     extract_repository_info url stargazers forkers max_stargazers max_forkers
       detailed aggressive w = (Raise e, w))
  /\ (forall url stargazers forkers max_stargazers max_forkers detailed
             aggressive w owner repo e w1,
        _parse_repo_identifier url = Ok (owner, repo) ->
        get_repository_info owner repo w = (Raise e, w1) ->
        extract_repository_info url stargazers forkers max_stargazers
          max_forkers detailed aggressive w = (Raise e, w1))
  /\ (forall url (stargazers forkers : bool) max_stargazers max_forkers
             detailed aggressive w owner repo info w1,
        _parse_repo_identifier url = Ok (owner, repo) ->
        get_repository_info owner repo w = (Ok info, w1) ->
        let s : Result (list UserInfo.t) * World :=
              if stargazers
              then _extract_stargazers owner repo max_stargazers detailed
                     aggressive w1
              else (Ok [], w1) in
        let f : Result (list UserInfo.t) * World :=
              if forkers
              then _extract_forkers owner repo max_forkers detailed
                     aggressive (snd s)
              else (Ok [], snd s) in
        extract_repository_info url stargazers forkers max_stargazers
          max_forkers detailed aggressive w
        = (Ok {| ExtractionResult.repository := info;
                 ExtractionResult.stargazers := or_empty (fst s);
                 ExtractionResult.forkers := or_empty (fst f);
                 ExtractionResult.total_stargazers :=
                   RepoInfo.stargazers_count info;
                 ExtractionResult.total_forkers :=
                   RepoInfo.forks_count info |},
           snd f))
  /\ (forall aggressive users w,
        exists details w',
          fetch_details aggressive [] users w = (Ok details, w')
          /\ Forall2 (kept_or_detailed aggressive) users details)
  /\ (forall aggressive detailed user rest w e w1,
        get_user_info (UserInfo.login user) aggressive w = (Raise e, w1) ->
        fetch_details aggressive detailed (user :: rest) w
        = fetch_details aggressive (detailed ++ [user]) rest w1).
Proof.
  split; [|split; [|split; [|split]]].
  - intros. apply extract_parse_failure. assumption.
  - intros. eapply extract_repository_failure; eassumption.
  - intros. apply extract_sections; assumption.
  - intros aggressive users w.
    destruct (fetch_details_total aggressive users [] w)
      as (ds & w' & Hrun & Hds).
    exists ds, w'. split; assumption.
  - intros * Hr. rewrite fetch_details_step, Hr. reflexivity.
Qed.

Lemma slice_to_cap {A} n (l : list A) :
  (1 <= n)%Z ->
  slice_to n l = firstn (Z.to_nat n) l
  /\ (Z.of_nat (length (slice_to n l)) <= n)%Z.
Proof.
  intros Hn. unfold slice_to.
  destruct (0 <=? n)%Z eqn:E; [|apply Z.leb_gt in E; lia].
  split; [reflexivity|]. rewrite length_firstn. lia.
Qed.








End Extraction.

Lemma zero_page_cap_walks_on :
  exists users w',
    @_paginate_users strict_platform "/repos/o/r/stargazers" 1 (Some 0%Z)
      (world_of [page_of_users ["a"]; page_of_users ["b"]; page_of_users []])
    = (Ok users, w')
    /\ length users = 2
    /\ length (trace w') = 3.
Proof.
  eexists. eexists. split; [vm_compute; reflexivity|].
  split; reflexivity.
Qed.



Lemma empty_sides_resolve :
  @_parse_repo_identifier strict_platform "/repo" = Ok ("", "repo")
  /\ @_parse_repo_identifier strict_platform "owner/" = Ok ("owner", "")
  /\ @_parse_repo_identifier strict_platform "/" = Ok ("", "").
Proof. repeat split; reflexivity. Qed.

Lemma resolve_url_like_bare_example :
  valid_name "octocat" /\ valid_name "Hello-World"
  /\ trailing "/tree/master"
  /\ @_parse_repo_identifier strict_platform
       "https://github.com/octocat/Hello-World/tree/master"
     = @_parse_repo_identifier strict_platform "octocat/Hello-World"
  /\ @_parse_repo_identifier strict_platform "octocat/Hello-World"
     = Ok ("octocat", "Hello-World").
Proof.
  assert (Ho : valid_name "octocat") by (split; [discriminate|reflexivity]).
  assert (Hr : valid_name "Hello-World")
    by (split; [discriminate|reflexivity]).
  assert (Ht : trailing "/tree/master")
    by (right; exists "/"%char, "tree/master"; auto).
  split; [exact Ho|]. split; [exact Hr|]. split; [exact Ht|].
  exact (@resolve_url_like_bare strict_platform true "octocat" "Hello-World"
           "/tree/master" Ho Hr Ht).
Defined.

(** * More properties of the code *)

(** ** The transport: what a request may raise, and when it pauses *)

Section Requests.
Context {P : Platform}.

Lemma make_request_raises endpoint params w :
  match fst (_make_request endpoint params w) with
  | Ok _ => True
  | Raise e => request_failure endpoint w e
  end.
Proof.
  unfold _make_request, try_except, bind, session_get.
  destruct (pending w) as [|x rest] eqn:Ep; [exact I|].
  destruct (reply x) as [|resp] eqn:Er; [exact I|].
  destruct (status_code resp =? 429)%Z eqn:E429.
  - unfold lift, time_time, raise. cbn [now fst].
    destruct (headers_get _ _) as [v|] eqn:Eh.
    + destruct (PyStr.int v) as [z|] eqn:Ez; cbn [fst request_failure].
      * lia.
      * split; [reflexivity|]. exists x, rest, resp.
        repeat split; [exact Ep|exact Er|lia|].
        unfold reset_time_of. rewrite Eh. exact Ez.
    + cbn [fst request_failure]. lia.
  - unfold raise_for_status, time_sleep, response_json, raise, ret.
    destruct ((400 <=? status_code resp)%Z && (status_code resp <? 600)%Z)
      eqn:Es.
    + destruct (status_code resp =? 404)%Z eqn:E404;
        [|destruct (status_code resp =? 403)%Z eqn:E403];
        cbn [fst request_failure]; try reflexivity.
      lia.
    + destruct (body resp); exact I.
Qed.



(** X2.  [_make_request] pauses once exactly when a response came back
    whose status is neither 429 nor an error status, also when the body of
    that response then fails to decode; a request that returns data has
    paused, and nothing else in a request pauses. *)
Theorem make_request_delay (endpoint : string)
  (params : list (string * json)) (w : World) :
  naps (snd (_make_request endpoint params w))
  = naps w + (if accepted_next w then 1 else 0)
  /\ (forall data,
        fst (_make_request endpoint params w) = Ok data ->
        accepted_next w = true).
Proof.
  unfold _make_request, try_except, bind, session_get, accepted_next,
    raise_for_status, time_sleep, response_json, lift, time_time, raise, ret.
  destruct (pending w) as [|x rest] eqn:Ep;
    [cbn [snd fst naps]; split; [lia|discriminate]|].
  destruct (reply x) as [|resp] eqn:Er;
    [cbn [snd fst naps]; split; [lia|discriminate]|].
  destruct (status_code resp =? 429)%Z eqn:E429; cbn [orb negb].
  - destruct (headers_get _ _) as [v|]; [destruct (PyStr.int v)|];
      cbn [snd fst naps]; (split; [lia|discriminate]).
  - destruct ((400 <=? status_code resp)%Z && (status_code resp <? 600)%Z)
      eqn:Es; cbn [negb].
    + destruct (status_code resp =? 404)%Z;
        [|destruct (status_code resp =? 403)%Z];
        cbn [snd fst naps]; (split; [lia|discriminate]).
    + destruct (body resp); cbn [snd fst naps]; (split; [lia|reflexivity]).
Qed.

End Requests.

(** ** The repository record *)

Section Repository.
Context {P : Platform}.

Lemma repository_info_run owner repo w :
  get_repository_info owner repo w
  = match _make_request ("/repos/" +:+ owner +:+ "/" +:+ repo) [] w with
    | (Ok data, w') =>
        (let? name := PyJson.getitem data "name" in
         let? full_name := PyJson.getitem data "full_name" in
         let? o := PyJson.getitem data "owner" in
         let? owner_login := PyJson.getitem o "login" in
         let? description := PyJson.get data "description" JNull in
         let? html_url := PyJson.getitem data "html_url" in
         let? stargazers_count := PyJson.getitem data "stargazers_count" in
         let? forks_count := PyJson.getitem data "forks_count" in
         let? language := PyJson.get data "language" JNull in
         let? created_at := PyJson.getitem data "created_at" in
         let? updated_at := PyJson.getitem data "updated_at" in
         RepoInfo.make name full_name owner_login description html_url
           stargazers_count forks_count language created_at updated_at, w')
    | (Raise e, w') => (Raise e, w')
    end.
Proof. reflexivity. Qed.

Lemma repository_info_trace owner repo w :
  trace (snd (get_repository_info owner repo w))
  = trace w ++ [repository_request owner repo].
Proof.
  rewrite repository_info_run.
  destruct (_make_request _ _ w) as [[data|e] w'] eqn:E;
    destruct (make_request_effects _ _ _ _ _ E) as (_ & Ht & _);
    exact Ht.
Qed.

Ltac lookup_key k :=
  destruct (PyJson.lookup k _) eqn:?; cbn [Result_bind find];
  try discriminate; try congruence.

(** X3.  [get_repository_info] indexes eight keys of the body, "owner"
    for its "login".  A body that is no object fails with TypeError.  An
    object that lacks "name", "full_name" or "owner" fails with KeyError
    for the first of the three missing.  An object whose "owner" holds a
    "login" and that lacks one of the eight fails with KeyError for the
    first one missing, in the order name, full_name, owner, html_url,
    stargazers_count, forks_count, created_at, updated_at (the timestamps
    too, which the record declares optional).  A record is returned only
    for a body holding all eight.  "description" and "language" may be
    missing. *)
Theorem repository_requires_keys (owner repo : string) (w : World)
  (x : Exchange) (xs : list Exchange) (data : json) :
  pending w = x :: xs ->
  delivered ("/repos/" +:+ owner +:+ "/" +:+ repo) x = Ok data ->
  ((forall fields, data <> JObj fields) ->
   fst (get_repository_info owner repo w) = Raise TypeError)
  /\ (forall fields k,
        data = JObj fields ->
        first_missing ["name"; "full_name"; "owner"] fields = Some k ->
        fst (get_repository_info owner repo w) = Raise (KeyError k))
  /\ (forall fields o login k,
        data = JObj fields ->
        PyJson.lookup "owner" fields = Some o ->
        PyJson.getitem o "login" = Ok login ->
        first_missing repository_keys fields = Some k ->
        fst (get_repository_info owner repo w) = Raise (KeyError k))
  /\ (forall info,
        fst (get_repository_info owner repo w) = Ok info ->
        exists fields,
          data = JObj fields /\ first_missing repository_keys fields = None).
Proof.
  intros Hp Hd.
  assert (Hr : fst (_make_request ("/repos/" +:+ owner +:+ "/" +:+ repo) []
                      w) = Ok data).
  { rewrite make_request_delivered, Hp. exact Hd. }
  rewrite repository_info_run.
  destruct (_make_request _ _ w) as [r w']. cbn [fst] in Hr. subst r.
  cbn [fst].
  split; [|split; [|split]].
  - intros Hn. destruct data; try reflexivity.
    exfalso. exact (Hn _ eq_refl).
  - intros fields k ->. unfold first_missing, PyJson.getitem. cbn [find].
    lookup_key "name". lookup_key "full_name". lookup_key "owner".
  - intros fields o login k -> Ho Hl.
    unfold first_missing, repository_keys. cbn [find].
    unfold PyJson.getitem at 1 2 3. rewrite Ho.
    lookup_key "name". lookup_key "full_name". rewrite Hl.
    cbn [Result_bind].
    unfold PyJson.get, PyJson.getitem.
    destruct (PyJson.lookup "description" fields); cbn [Result_bind];
      (lookup_key "html_url"; lookup_key "stargazers_count";
       lookup_key "forks_count";
       destruct (PyJson.lookup "language" fields); cbn [Result_bind];
       lookup_key "created_at"; lookup_key "updated_at").
  - intros info. destruct data; try discriminate.
    intros H. exists fields. split; [reflexivity|]. revert H.
    unfold first_missing, repository_keys. cbn [find].
    unfold PyJson.getitem at 1 2 3.
    lookup_key "name". lookup_key "full_name". lookup_key "owner".
    destruct (PyJson.getitem _ "login"); cbn [Result_bind];
      [|discriminate].
    unfold PyJson.get, PyJson.getitem.
    destruct (PyJson.lookup "description" fields); cbn [Result_bind];
      (lookup_key "html_url"; lookup_key "stargazers_count";
       lookup_key "forks_count";
       destruct (PyJson.lookup "language" fields); cbn [Result_bind];
       lookup_key "created_at"; lookup_key "updated_at").
Qed.

End Repository.

(** ** What the details of one user cost *)

Section UserRequests.
Context {P : Platform}.

Lemma scan_repos_step username repo rest w :
  scan_repos username (repo :: rest) w
  = match PyJson.get repo "owner" (JObj []) with
    | Raise e => (Raise e, w)
    | Ok owner =>
        match PyJson.get owner "login" JNull with
        | Raise e => (Raise e, w)
        | Ok login =>
            if PyJson.eq_str login username then
              match PyJson.getitem repo "name" with
              | Raise e => (Raise e, w)
              | Ok name =>
                  let '(r, w1) :=
                    _make_request (endpoint (commits_request username name))
                      (params (commits_request username name)) w in
                  match (let? commits := r in
                         let? commits := PyJson.iter commits in
                         scan_repo_commits commits) with
                  | Ok (Some e) => (Ok (Some e), w1)
                  | _ => scan_repos username rest w1
                  end
              end
            else scan_repos username rest w
        end
    end.
Proof.
  cbn [scan_repos]. rewrite bind_run. unfold lift at 1.
  destruct (PyJson.get repo "owner" (JObj [])) as [owner|e]; [|reflexivity].
  rewrite bind_run. unfold lift at 1.
  destruct (PyJson.get owner "login" JNull) as [login|e]; [|reflexivity].
  destruct (PyJson.eq_str login username); [|reflexivity].
  rewrite bind_run. unfold try_except. rewrite bind_run. unfold lift at 1.
  destruct (PyJson.getitem repo "name") as [name|e] eqn:En.
  - cbn [commits_request endpoint params]. rewrite bind_run.
    destruct (_make_request _ _ w) as [[commits|e] w1].
    + unfold lift at 1. cbn [Result_bind].
      destruct (PyJson.iter commits) as [items|e]; cbn [Result_bind].
      * destruct (scan_repo_commits items) as [[e|]|e]; reflexivity.
      * reflexivity.
    + reflexivity.
  - reflexivity.
Qed.

Lemma scan_repos_requests username repos : forall w,
  exists names,
    trace (snd (scan_repos username repos w))
    = trace w ++ map (commits_request username) names
    /\ length names <= length repos
    /\ Forall (fun name =>
                 exists repo,
                   In repo repos /\ own_repo username repo
                   /\ PyJson.getitem repo "name" = Ok name) names.
Proof.
  induction repos as [|repo rest IH]; intros w.
  - exists []. cbn. rewrite app_nil_r. auto.
  - assert (Hnone : trace w = trace w ++ map (commits_request username) []
                    /\ length (@nil json) <= length (repo :: rest)
                    /\ Forall (fun name =>
                                 exists repo0,
                                   In repo0 (repo :: rest)
                                   /\ own_repo username repo0
                                   /\ PyJson.getitem repo0 "name" = Ok name)
                         []).
    { cbn. rewrite app_nil_r. repeat split; [lia|constructor]. }
    assert (Hrest : forall w0, trace w0 = trace w ->
              exists names,
                trace (snd (scan_repos username rest w0))
                = trace w ++ map (commits_request username) names
                /\ length names <= length (repo :: rest)
                /\ Forall (fun name =>
                             exists repo0,
                               In repo0 (repo :: rest)
                               /\ own_repo username repo0
                               /\ PyJson.getitem repo0 "name" = Ok name)
                     names).
    { intros w0 Hw0. destruct (IH w0) as (names & Ht & Hl & Hf).
      exists names. rewrite Ht, Hw0. split; [reflexivity|].
      split; [cbn [length]; lia|].
      eapply Forall_impl; [|exact Hf]. cbv beta.
      intros name (repo0 & Hin & Ho). exists repo0.
      split; [right; exact Hin|exact Ho]. }
    rewrite scan_repos_step.
    destruct (PyJson.get repo "owner" (JObj [])) as [owner|e] eqn:Eo;
      [|exists []; exact Hnone].
    destruct (PyJson.get owner "login" JNull) as [login|e] eqn:El;
      [|exists []; exact Hnone].
    destruct (PyJson.eq_str login username) eqn:Eq;
      [|exact (Hrest w eq_refl)].
    destruct (PyJson.getitem repo "name") as [name|e] eqn:En;
      [|exists []; exact Hnone].
    assert (Hown : exists repo0,
               In repo0 (repo :: rest) /\ own_repo username repo0
               /\ PyJson.getitem repo0 "name" = Ok name).
    { exists repo. split; [left; reflexivity|]. split; [|exact En].
      exists owner, login. auto. }
    destruct (_make_request _ _ w) as [r w1] eqn:E.
    destruct (make_request_effects _ _ _ _ _ E) as (_ & Ht & _).
    assert (Hone : exists names,
              trace w1 = trace w ++ map (commits_request username) names
              /\ length names <= length (repo :: rest)
              /\ Forall (fun name =>
                           exists repo0,
                             In repo0 (repo :: rest)
                             /\ own_repo username repo0
                             /\ PyJson.getitem repo0 "name" = Ok name)
                   names).
    { exists [name]. split; [exact Ht|].
      split; [cbn [length]; lia|]. constructor; [exact Hown|constructor]. }
    assert (Hmore : exists names,
              trace (snd (scan_repos username rest w1))
              = trace w ++ map (commits_request username) names
              /\ length names <= length (repo :: rest)
              /\ Forall (fun name =>
                           exists repo0,
                             In repo0 (repo :: rest)
                             /\ own_repo username repo0
                             /\ PyJson.getitem repo0 "name" = Ok name)
                   names).
    { destruct (IH w1) as (names & Ht' & Hl & Hf).
      exists (name :: names). rewrite Ht', Ht, <- app_assoc.
      split; [reflexivity|]. split; [cbn [length]; lia|].
      constructor; [exact Hown|].
      eapply Forall_impl; [|exact Hf]. cbv beta.
      intros name0 (repo0 & Hin & Ho). exists repo0.
      split; [right; exact Hin|exact Ho]. }
    destruct (let? commits := r in
              let? commits0 := PyJson.iter commits in
              scan_repo_commits commits0) as [[e|]|e];
      [exact Hone|exact Hmore|exact Hmore].
Qed.

Lemma substring_length n : forall s, String.length (substring 0 n s) <= n.
Proof.
  induction n as [|n IH]; intros [|c s]; cbn; try lia.
  specialize (IH s). lia.
Qed.

Lemma chars_length s : length (PyJson.chars s) = String.length s.
Proof. induction s as [|c s IH]; cbn; [reflexivity|now rewrite IH]. Qed.

Lemma slice_iter_length n data first items :
  PyJson.slice_to n data = Ok first ->
  PyJson.iter first = Ok items ->
  length items <= n.
Proof.
  destruct data; try discriminate; cbn [PyJson.slice_to];
    intros H; injection H as <-; cbn [PyJson.iter];
    intros H; injection H as <-.
  - rewrite chars_length. apply substring_length.
  - apply firstn_le_length.
Qed.

Lemma from_user_repos_run username w :
  _extract_email_from_user_repos username w
  = match _make_request (endpoint (repos_request username))
            (params (repos_request username)) w with
    | (Raise _, w1) => (Ok None, w1)
    | (Ok repos, w1) =>
        match (let? first3 := PyJson.slice_to 3 repos in
               PyJson.iter first3) with
        | Raise _ => (Ok None, w1)
        | Ok items =>
            match scan_repos username items w1 with
            | (Ok found, w2) => (Ok found, w2)
            | (Raise _, w2) => (Ok None, w2)
            end
        end
    end.
Proof.
  unfold _extract_email_from_user_repos, try_except, bind, lift, ret.
  cbn [repos_request endpoint params].
  destruct (_make_request _ _ w) as [[repos|e] w1]; [|reflexivity].
  destruct (PyJson.slice_to 3 repos) as [first3|e]; [|reflexivity].
  cbn [Result_bind].
  destruct (PyJson.iter first3) as [items|e]; [|reflexivity].
  destruct (scan_repos username items w1) as [[found|e] w2]; reflexivity.
Qed.

(** X4.  The third strategy asks for the user's repository listing and
    then for the commits of at most three repositories, each one among the
    first three entries of the listing and naming the user as its owner;
    it makes no other request and never raises. *)
Theorem own_repositories_only (username : string) (w : World) :
  exists found names,
    fst (_extract_email_from_user_repos username w) = Ok found
    /\ trace (snd (_extract_email_from_user_repos username w))
       = trace w ++ repos_request username
                    :: map (commits_request username) names
    /\ length names <= 3
    /\ Forall (fun name =>
                 exists repo,
                   In repo (listed_repos username w)
                   /\ own_repo username repo
                   /\ PyJson.getitem repo "name" = Ok name) names.
Proof.
  unfold listed_repos. rewrite from_user_repos_run.
  destruct (_make_request _ _ w) as [[repos|e] w1] eqn:E;
    destruct (make_request_effects _ _ _ _ _ E) as (_ & Ht & _);
    cbn [fst].
  2:{ exists None, []. cbn [fst snd map length].
      repeat split; [exact Ht|lia|constructor]. }
  destruct (PyJson.slice_to 3 repos) as [first3|e] eqn:Es;
    cbn [Result_bind].
  2:{ exists None, []. cbn [fst snd map length].
      repeat split; [exact Ht|lia|constructor]. }
  destruct (PyJson.iter first3) as [items|e] eqn:Ei.
  2:{ exists None, []. cbn [fst snd map length].
      repeat split; [exact Ht|lia|constructor]. }
  assert (Hlen := slice_iter_length _ _ _ _ Es Ei).
  destruct (scan_repos_requests username items w1) as (names & Hn & Hl & Hf).
  destruct (scan_repos username items w1) as [r w2]. cbn [snd] in Hn.
  exists (match r with Ok found => found | Raise _ => None end), names.
  split; [destruct r; reflexivity|]. split.
  - destruct r; cbn [snd]; rewrite Hn, Ht, <- app_assoc; reflexivity.
  - split; [lia|exact Hf].
Qed.



Lemma from_user_repos_log username w :
  exists found names,
    fst (_extract_email_from_user_repos username w) = Ok found
    /\ trace (snd (_extract_email_from_user_repos username w))
       = trace w ++ repos_request username
                    :: map (commits_request username) names
    /\ length names <= 3.
Proof.
  rewrite from_user_repos_run.
  destruct (_make_request _ _ w) as [[repos|e] w1] eqn:E;
    destruct (make_request_effects _ _ _ _ _ E) as (_ & Ht & _).
  2:{ exists None, []. cbn [fst snd map length].
      repeat split; [exact Ht|lia]. }
  destruct (let? first3 := PyJson.slice_to 3 repos in PyJson.iter first3)
    as [items|e] eqn:Ei.
  2:{ exists None, []. cbn [fst snd map length].
      repeat split; [exact Ht|lia]. }
  assert (Hlen : length items <= 3).
  { destruct (PyJson.slice_to 3 repos) as [first3|e] eqn:Es;
      [|discriminate]. exact (slice_iter_length _ _ _ _ Es Ei). }
  destruct (scan_repos_requests username items w1) as (names & Hn & Hl & _).
  destruct (scan_repos username items w1) as [r w2]. cbn [snd] in Hn.
  exists (match r with Ok found => found | Raise _ => None end), names.
  split; [destruct r; reflexivity|]. split; [|lia].
  destruct r; cbn [snd]; rewrite Hn, Ht, <- app_assoc; reflexivity.
Qed.

Lemma discover_email_requests username aggressive email w :
  exists more,
    trace (snd (discover_email username aggressive email w))
    = trace w ++ more
    /\ discovery_log username more
    /\ (PyJson.truthy email = true \/ aggressive = false -> more = []).
Proof.
  destruct (negb (PyJson.truthy email) && aggressive) eqn:Ec.
  2:{ exists []. unfold discover_email. rewrite Ec, app_nil_r.
      split; [reflexivity|]. split; [left; reflexivity|reflexivity]. }
  apply andb_prop in Ec. destruct Ec as [Hf ->].
  apply negb_true_iff in Hf.
  destruct (from_commits_spec username w) as (f1 & w1 & E1 & T1 & A1).
  assert (Hrun : discover_email username true email w
                 = (email <-
                      (if negb (PyJson.truthy (of_optional f1)) then
                         try_except
                           (found <- _extract_email_from_events username ;;
                            ret (of_optional found))
                           (fun _ => ret (of_optional f1))
                       else ret (of_optional f1)) ;;
                    email <-
                      (if negb (PyJson.truthy email) then
                         try_except
                           (found <- _extract_email_from_user_repos
                                       username ;;
                            ret (of_optional found))
                           (fun _ => ret email)
                       else ret email) ;;
                    ret email) w1).
  { unfold discover_email. rewrite Hf. cbn [negb andb].
    rewrite bind_run, (try_strategy _ _ _ _ _ E1). reflexivity. }
  rewrite Hrun. clear Hrun.
  assert (Hno : PyJson.truthy email = true \/ true = false ->
                forall l : list Request, l = []).
  { intros [H|H]; [rewrite H in Hf|]; discriminate. }
  destruct f1 as [e|]; cbn [of_optional].
  - assert (He := A1 e eq_refl).
    rewrite (email_ok_truthy e He). cbn [negb].
    rewrite bind_run, ret_run, bind_run, (email_ok_truthy e He).
    cbn [negb]. rewrite ret_run, ret_run. cbn [snd].
    exists [events_request username]. split; [exact T1|].
    split; [right; left; reflexivity|]. intros H. exact (Hno H _).
  - destruct (from_events_spec username w1) as (f2 & w2 & E2 & T2 & A2).
    cbn [PyJson.truthy negb].
    rewrite bind_run, (try_strategy _ _ _ _ _ E2).
    destruct f2 as [e|]; cbn [of_optional].
    + assert (He := A2 e eq_refl).
      rewrite bind_run, (email_ok_truthy e He). cbn [negb].
      rewrite ret_run, ret_run. cbn [snd].
      exists [events_request username; public_events_request username].
      split; [rewrite T2, T1, <- app_assoc; reflexivity|].
      split; [right; right; left; reflexivity|].
      intros H. exact (Hno H _).
    + destruct (from_user_repos_log username w2)
        as (f3 & names & E3 & T3 & L3).
      cbn [PyJson.truthy negb].
      rewrite bind_run. unfold try_except. rewrite bind_run.
      destruct (_extract_email_from_user_repos username w2) as [r3 w3].
      cbn [fst] in E3. subst r3. cbn [snd] in T3.
      rewrite ret_run, ret_run. cbn [snd].
      exists (events_request username :: public_events_request username
              :: repos_request username
              :: map (commits_request username) names).
      split; [rewrite T3, T2, T1, <- !app_assoc; reflexivity|].
      split; [right; right; right; exists names; auto|].
      intros H. exact (Hno H _).
Qed.

Lemma discovery_log_length username more :
  discovery_log username more -> length more <= 6.
Proof.
  intros [->|[->|[->|(names & Hl & ->)]]]; cbn [length]; try lia.
  rewrite length_map. lia.
Qed.

Lemma discover_email_returns username aggressive email w :
  exists found, fst (discover_email username aggressive email w) = Ok found.
Proof.
  unfold discover_email.
  destruct (negb (PyJson.truthy email) && aggressive);
    [|eexists; reflexivity].
  unfold bind, try_except, ret.
  destruct (_extract_email_from_commits username w) as [[f1|e1] w1].
  - destruct (negb (PyJson.truthy (of_optional f1))).
    + destruct (_extract_email_from_events username w1) as [[f2|e2] w2].
      * destruct (negb (PyJson.truthy (of_optional f2))).
        -- destruct (_extract_email_from_user_repos username w2)
             as [[f3|e3] w3]; eexists; reflexivity.
        -- eexists; reflexivity.
      * destruct (negb (PyJson.truthy (of_optional f1))).
        -- destruct (_extract_email_from_user_repos username w2)
             as [[f3|e3] w3]; eexists; reflexivity.
        -- eexists; reflexivity.
    + destruct (negb (PyJson.truthy (of_optional f1))).
      * destruct (_extract_email_from_user_repos username w1)
          as [[f3|e3] w3]; eexists; reflexivity.
      * eexists; reflexivity.
  - destruct (negb (PyJson.truthy email)).
    + destruct (_extract_email_from_events username w1) as [[f2|e2] w2].
      * destruct (negb (PyJson.truthy (of_optional f2))).
        -- destruct (_extract_email_from_user_repos username w2)
             as [[f3|e3] w3]; eexists; reflexivity.
        -- eexists; reflexivity.
      * destruct (negb (PyJson.truthy email)).
        -- destruct (_extract_email_from_user_repos username w2)
             as [[f3|e3] w3]; eexists; reflexivity.
        -- eexists; reflexivity.
    + destruct (negb (PyJson.truthy email)).
      * destruct (_extract_email_from_user_repos username w1)
          as [[f3|e3] w3]; eexists; reflexivity.
      * eexists; reflexivity.
Qed.

Lemma get_user_info_run username aggressive w :
  get_user_info username aggressive w
  = match _make_request ("/users/" +:+ username) [] w with
    | (Raise e, w1) => (Raise e, w1)
    | (Ok data, w1) =>
        match PyJson.get data "email" JNull with
        | Raise e => (Raise e, w1)
        | Ok email =>
            match discover_email username aggressive email w1 with
            | (Raise e, w2) => (Raise e, w2)
            | (Ok email, w2) =>
                (let? login := PyJson.getitem data "login" in
                 let? name := PyJson.get data "name" JNull in
                 let? location := PyJson.get data "location" JNull in
                 let? company := PyJson.get data "company" JNull in
                 let? bio := PyJson.get data "bio" JNull in
                 let? blog := PyJson.get data "blog" JNull in
                 let? twitter_username :=
                   PyJson.get data "twitter_username" JNull in
                 let? public_repos := PyJson.getitem data "public_repos" in
                 let? followers := PyJson.getitem data "followers" in
                 let? following := PyJson.getitem data "following" in
                 let? created_at := PyJson.getitem data "created_at" in
                 let? updated_at := PyJson.getitem data "updated_at" in
                 let? avatar_url := PyJson.getitem data "avatar_url" in
                 let? html_url := PyJson.getitem data "html_url" in
                 UserInfo.detailed login name email location company bio blog
                   twitter_username public_repos followers following
                   created_at updated_at avatar_url html_url, w2)
            end
        end
    end.
Proof.
  unfold get_user_info. rewrite bind_run.
  destruct (_make_request _ _ w) as [[data|e] w1]; [|reflexivity].
  rewrite bind_run. unfold lift at 1.
  destruct (PyJson.get data "email" JNull) as [email|e]; [|reflexivity].
  rewrite bind_run.
  destruct (discover_email username aggressive email w1) as [[found|e] w2];
    reflexivity.
Qed.

(** X5.  [get_user_info] asks for the profile first.  Without aggressive
    extraction, and whenever the profile request fails, that is its only
    request.  Otherwise the requests that follow are those of email
    discovery, in this order: the events, the public events, the
    repository listing and the commits of up to three repositories, the
    later ones present only with the earlier ones.  It makes at most seven
    requests in all. *)
Theorem user_details_requests (username : string) (aggressive : bool)
  (w : World) :
  exists more,
    trace (snd (get_user_info username aggressive w))
    = trace w ++ profile_request username :: more
    /\ discovery_log username more
    /\ length more <= 6
    /\ (aggressive = false -> more = [])
    /\ (forall e, fst (_make_request ("/users/" +:+ username) [] w) = Raise e ->
        more = []).
Proof.
  rewrite get_user_info_run.
  destruct (_make_request _ _ w) as [[data|e] w1] eqn:E;
    destruct (make_request_effects _ _ _ _ _ E) as (_ & Ht & _).
  2:{ exists []. cbn [snd length].
      split; [exact Ht|]. split; [left; reflexivity|].
      split; [lia|]. split; intros; reflexivity. }
  destruct (PyJson.get data "email" JNull) as [email|e].
  2:{ exists []. cbn [snd length].
      split; [exact Ht|]. split; [left; reflexivity|].
      split; [lia|]. split; intros; reflexivity. }
  destruct (discover_email_requests username aggressive email w1)
    as (more & Hm & Hlog & Hoff).
  destruct (discover_email username aggressive email w1) as [[found|e] w2];
    cbn [snd] in Hm |- *;
    (exists more; split; [rewrite Hm, Ht, <- app_assoc; reflexivity|];
     split; [exact Hlog|];
     split; [exact (discovery_log_length _ _ Hlog)|];
     split; [intros Ha; apply Hoff; right; exact Ha|discriminate]).
Qed.

Lemma get_user_info_log username aggressive w :
  exists more,
    trace (snd (get_user_info username aggressive w))
    = trace w ++ profile_request username :: more
    /\ discovery_log username more
    /\ (aggressive = false -> more = []).
Proof.
  rewrite get_user_info_run.
  destruct (_make_request _ _ w) as [[data|e] w1] eqn:E;
    destruct (make_request_effects _ _ _ _ _ E) as (_ & Ht & _).
  2:{ exists []. cbn [snd]. split; [exact Ht|].
      split; [left; reflexivity|reflexivity]. }
  destruct (PyJson.get data "email" JNull) as [email|e].
  2:{ exists []. cbn [snd]. split; [exact Ht|].
      split; [left; reflexivity|reflexivity]. }
  destruct (discover_email_requests username aggressive email w1)
    as (more & Hm & Hlog & Hoff).
  exists more. split; [|split; [exact Hlog|]].
  - destruct (discover_email username aggressive email w1)
      as [[found|e] w2]; cbn [snd] in Hm |- *;
      rewrite Hm, Ht, <- app_assoc; reflexivity.
  - intros Ha. apply Hoff. right. exact Ha.
Qed.

Lemma get_user_info_cost username aggressive w :
  length (trace (snd (get_user_info username aggressive w)))
  <= length (trace w) + details_cost aggressive.
Proof.
  destruct (get_user_info_log username aggressive w)
    as (more & Ht & Hlog & Hoff).
  assert (Hl := discovery_log_length _ _ Hlog).
  rewrite Ht, length_app. cbn [length]. unfold details_cost.
  destruct aggressive; [lia|].
  rewrite (Hoff eq_refl). cbn [length]. lia.
Qed.

Ltac profile_key k :=
  destruct (PyJson.lookup k _) eqn:?; cbn [Result_bind find];
  try discriminate; try congruence.

Ltac optional_key k :=
  destruct (PyJson.lookup k _); cbn [Result_bind].

(** X6.  [get_user_info] reads "email" and six more keys of the profile
    with a default and indexes eight.  A body that is no object fails with
    AttributeError at once; an object that lacks one of the eight fails
    with KeyError for the first one missing, in the order login,
    public_repos, followers, following, created_at, updated_at,
    avatar_url, html_url, though the record declares all but the login
    optional; a record is returned only for a profile holding all eight. *)
Theorem profile_requires_keys (username : string) (aggressive : bool)
  (w : World) (x : Exchange) (xs : list Exchange) (data : json) :
  pending w = x :: xs ->
  delivered ("/users/" +:+ username) x = Ok data ->
  ((forall fields, data <> JObj fields) ->
   fst (get_user_info username aggressive w) = Raise AttributeError)
  /\ (forall fields k,
        data = JObj fields ->
        first_missing profile_keys fields = Some k ->
        fst (get_user_info username aggressive w) = Raise (KeyError k))
  /\ (forall user,
        fst (get_user_info username aggressive w) = Ok user ->
        exists fields,
          data = JObj fields /\ first_missing profile_keys fields = None).
Proof.
  intros Hp Hd.
  assert (Hr : fst (_make_request ("/users/" +:+ username) [] w) = Ok data).
  { rewrite make_request_delivered, Hp. exact Hd. }
  rewrite get_user_info_run.
  destruct (_make_request _ _ w) as [r w1]. cbn [fst] in Hr. subst r.
  split; [|split].
  - intros Hn. destruct data; try reflexivity.
    exfalso. exact (Hn _ eq_refl).
  - intros fields k ->. cbn [PyJson.get].
    assert (He : exists email,
              match PyJson.lookup "email" fields with
              | Some v => Ok v
              | None => Ok JNull
              end = Ok email)
      by (destruct (PyJson.lookup "email" fields); eauto).
    destruct He as [email ->].
    destruct (discover_email_returns username aggressive email w1)
      as [found Hf].
    destruct (discover_email username aggressive email w1) as [r w2].
    cbn [fst] in Hf. subst r. cbn [fst].
    unfold first_missing, profile_keys. cbn [find].
    unfold PyJson.getitem.
    profile_key "login".
    optional_key "name"; optional_key "location"; optional_key "company";
      optional_key "bio"; optional_key "blog";
      optional_key "twitter_username";
      (profile_key "public_repos"; profile_key "followers";
       profile_key "following"; profile_key "created_at";
       profile_key "updated_at"; profile_key "avatar_url";
       profile_key "html_url").
  - intros user. destruct data; try discriminate.
    intros H. exists fields. split; [reflexivity|]. revert H.
    cbn [PyJson.get].
    assert (He : exists email,
              match PyJson.lookup "email" fields with
              | Some v => Ok v
              | None => Ok JNull
              end = Ok email)
      by (destruct (PyJson.lookup "email" fields); eauto).
    destruct He as [email ->].
    destruct (discover_email username aggressive email w1) as [[found|e] w2];
      [|discriminate].
    cbn [fst].
    unfold first_missing, profile_keys. cbn [find].
    unfold PyJson.getitem.
    profile_key "login".
    optional_key "name"; optional_key "location"; optional_key "company";
      optional_key "bio"; optional_key "blog";
      optional_key "twitter_username";
      (profile_key "public_repos"; profile_key "followers";
       profile_key "following"; profile_key "created_at";
       profile_key "updated_at"; profile_key "avatar_url";
       profile_key "html_url").
Qed.

End UserRequests.

(** ** The email the strategies find *)

Section FirstEmail.
Context {P : Platform}.

Lemma getitem_get d k v default :
  PyJson.getitem d k = Ok v -> PyJson.get d k default = Ok v.
Proof.
  destruct d; try discriminate. cbn.
  destruct (PyJson.lookup k fields); [auto|discriminate].
Qed.

Lemma first_acceptable_cons e rest :
  first_acceptable (e :: rest)
  = if acceptable e then e else first_acceptable rest.
Proof. unfold first_acceptable. cbn [find]. destruct (acceptable e); auto. Qed.

Lemma first_acceptable_some emails e :
  first_acceptable emails = Some e -> email_ok e = true.
Proof.
  unfold first_acceptable.
  destruct (find acceptable emails) as [c|] eqn:E; [|discriminate].
  intros ->. apply find_some in E. exact (proj2 E).
Qed.

Lemma first_acceptable_app a b :
  first_acceptable (a ++ b)
  = match first_acceptable a with
    | Some e => Some e
    | None => first_acceptable b
    end.
Proof.
  induction a as [|e a IH]; [reflexivity|].
  cbn [app]. rewrite !first_acceptable_cons.
  destruct (acceptable e) eqn:E; [|exact IH].
  destruct e as [s|]; [reflexivity|discriminate].
Qed.

Lemma accept_candidate e :
  (if PyJson.truthy (of_optional e)
   then accept_email (of_optional e) else Ok None)
  = Ok (if acceptable e then e else None).
Proof.
  destruct e as [s|]; [|reflexivity].
  cbn [of_optional acceptable]. unfold accept_email.
  destruct (PyJson.truthy (JStr s)) eqn:Et.
  - destruct (email_ok s); reflexivity.
  - cbn in Et. apply negb_false_iff in Et.
    unfold email_ok. rewrite Et. reflexivity.
Qed.

Lemma scan_event_commits_first commits emails :
  Forall2 event_commit_with commits emails ->
  scan_event_commits commits = Ok (first_acceptable emails).
Proof.
  induction 1 as [|c e commits emails (author & Ha & He) _ IH];
    [reflexivity|].
  cbn [scan_event_commits].
  rewrite (getitem_get _ _ _ _ Ha), Ha. cbn [Result_bind].
  rewrite (getitem_get _ _ _ _ He), He. cbn [Result_bind].
  rewrite first_acceptable_cons.
  assert (Hc := accept_candidate e).
  destruct (PyJson.truthy (of_optional e)).
  - rewrite Hc. cbn [Result_bind].
    destruct (acceptable e) eqn:E; [|exact IH].
    destruct e as [s|]; [reflexivity|discriminate].
  - injection Hc as Hc. destruct (acceptable e) eqn:E; [|exact IH].
    destruct e as [s|]; discriminate.
Qed.

Lemma scan_repo_commits_first commits emails :
  Forall2 repo_commit_with commits emails ->
  scan_repo_commits commits = Ok (first_acceptable emails).
Proof.
  induction 1 as [|c e commits emails (inner & author & Hi & Ha & He) _ IH];
    [reflexivity|].
  cbn [scan_repo_commits].
  rewrite (getitem_get _ _ _ _ Hi), Hi. cbn [Result_bind].
  rewrite (getitem_get _ _ _ _ Ha), Ha. cbn [Result_bind].
  rewrite (getitem_get _ _ _ _ He), He. cbn [Result_bind].
  rewrite first_acceptable_cons.
  assert (Hc := accept_candidate e).
  destruct (PyJson.truthy (of_optional e)).
  - rewrite Hc. cbn [Result_bind].
    destruct (acceptable e) eqn:E; [|exact IH].
    destruct e as [s|]; [reflexivity|discriminate].
  - injection Hc as Hc. destruct (acceptable e) eqn:E; [|exact IH].
    destruct e as [s|]; discriminate.
Qed.

Lemma emails_of_cons kind shape shapes :
  emails_of kind (shape :: shapes)
  = if String.eqb (fst shape) kind
    then snd shape ++ emails_of kind shapes
    else emails_of kind shapes.
Proof.
  unfold emails_of. cbn [filter].
  destruct (String.eqb (fst shape) kind); reflexivity.
Qed.

Lemma scan_push_events_first events shapes :
  Forall2 event_with events shapes ->
  scan_push_events events = Ok (first_acceptable (emails_of "PushEvent" shapes)).
Proof.
  induction 1 as [|ev shape events shapes (Ht & Hpayload) _ IH];
    [reflexivity|].
  cbn [scan_push_events].
  rewrite (getitem_get _ _ _ _ Ht). cbn [Result_bind PyJson.eq_str].
  rewrite emails_of_cons.
  destruct (String.eqb (fst shape) "PushEvent"); [|exact IH].
  destruct Hpayload as [(payload & commits & Hp & Hc & Hf)
                       |(fields & Hp & Hc & He)].
  - rewrite (getitem_get _ _ _ _ Hp). cbn [Result_bind].
    rewrite (getitem_get _ _ _ _ Hc). cbn [Result_bind PyJson.iter].
    rewrite (scan_event_commits_first _ _ Hf). cbn [Result_bind].
    rewrite first_acceptable_app.
    destruct (first_acceptable (snd shape)); [reflexivity|exact IH].
  - rewrite Hp, He. cbn [Result_bind PyJson.get]. rewrite Hc.
    cbn [Result_bind PyJson.iter scan_event_commits app]. exact IH.
Qed.

Lemma scan_create_events_first events shapes :
  Forall2 event_with events shapes ->
  scan_create_events events
  = Ok (first_acceptable (emails_of "CreateEvent" shapes)).
Proof.
  induction 1 as [|ev shape events shapes (Ht & Hpayload) _ IH];
    [reflexivity|].
  cbn [scan_create_events].
  rewrite (getitem_get _ _ _ _ Ht). cbn [Result_bind PyJson.eq_str].
  rewrite emails_of_cons.
  destruct (String.eqb (fst shape) "CreateEvent"); [|exact IH].
  destruct Hpayload as [(payload & commits & Hp & Hc & Hf)
                       |(fields & Hp & Hc & He)].
  - rewrite (getitem_get _ _ _ _ Hp). cbn [Result_bind].
    rewrite (getitem_get _ _ _ _ Hc). cbn [Result_bind].
    destruct commits as [|c commits].
    + assert (E : snd shape = []) by (inversion Hf; congruence).
      rewrite E. cbn [PyJson.truthy app]. exact IH.
    + cbn [PyJson.truthy]. rewrite Hp. cbn [Result_bind].
      rewrite Hc. cbn [Result_bind PyJson.iter].
      rewrite (scan_event_commits_first _ _ Hf). cbn [Result_bind].
      rewrite first_acceptable_app.
      destruct (first_acceptable (snd shape)); [reflexivity|exact IH].
  - rewrite Hp, He. cbn [Result_bind PyJson.get]. rewrite Hc.
    cbn [Result_bind PyJson.truthy app]. exact IH.
Qed.

(** X7.  On well-formed payloads each strategy finds the first email that
    passes the filter.  When the events delivered are objects with a type
    and a payload, and every commit of a payload names an author email (a
    string or null), [_extract_email_from_commits] returns the first
    acceptable email among the commits of the push events, in the order
    delivered, and [_extract_email_from_events] the first among those of
    the create events; events of other types are passed over.  The scan of
    a repository's commits returns the first acceptable email of the
    listing.  Each returns None when no email is acceptable. *)
Theorem first_acceptable_email (username : string) (w : World)
  (x : Exchange) (xs : list Exchange) (events : list json)
  (shapes : list (string * list (option string))) :
  pending w = x :: xs ->
  Forall2 event_with events shapes ->
  (delivered ("/users/" +:+ username +:+ "/events") x = Ok (JArr events) ->
   fst (_extract_email_from_commits username w)
   = Ok (first_acceptable (emails_of "PushEvent" shapes)))
  /\ (delivered ("/users/" +:+ username +:+ "/events/public") x
      = Ok (JArr events) ->
      fst (_extract_email_from_events username w)
      = Ok (first_acceptable (emails_of "CreateEvent" shapes)))
  /\ (forall commits emails,
        Forall2 repo_commit_with commits emails ->
        scan_repo_commits commits = Ok (first_acceptable emails))
  /\ (forall e,
        first_acceptable (emails_of "PushEvent" shapes) = Some e
        \/ first_acceptable (emails_of "CreateEvent" shapes) = Some e ->
        email_ok e = true).
Proof.
  intros Hp Hs.
  split; [|split; [|split]].
  - intros Hd.
    assert (Hr := make_request_delivered
                    ("/users/" +:+ username +:+ "/events")
                    [("per_page", JInt 30)] w).
    rewrite Hp, Hd in Hr.
    unfold _extract_email_from_commits, try_except. rewrite bind_run.
    destruct (_make_request _ _ w) as [r w1]. cbn [fst] in Hr. subst r.
    unfold lift. cbn [PyJson.iter Result_bind].
    rewrite (scan_push_events_first _ _ Hs). reflexivity.
  - intros Hd.
    assert (Hr := make_request_delivered
                    ("/users/" +:+ username +:+ "/events/public")
                    [("per_page", JInt 30)] w).
    rewrite Hp, Hd in Hr.
    unfold _extract_email_from_events, try_except. rewrite bind_run.
    destruct (_make_request _ _ w) as [r w1]. cbn [fst] in Hr. subst r.
    unfold lift. cbn [PyJson.iter Result_bind].
    rewrite (scan_create_events_first _ _ Hs). reflexivity.
  - exact scan_repo_commits_first.
  - intros e [H|H]; exact (first_acceptable_some _ _ H).
Qed.

End FirstEmail.

(** ** A walk that fails *)

Section FailingWalks.
Context {P : Platform}.

Lemma append_fork_owners_acc users forks :
  append_fork_owners users forks
  = let? us := append_fork_owners [] forks in Ok (users ++ us).
Proof.
  revert users. induction forks as [|fork rest IH]; intros users.
  - simpl. rewrite app_nil_r. reflexivity.
  - cbn [append_fork_owners].
    destruct (PyJson.getitem fork "owner") as [o|e]; [|reflexivity].
    cbn [Result_bind].
    destruct (PyJson.getitem o "login") as [l|e]; [|reflexivity].
    destruct (PyJson.getitem o "avatar_url") as [a|e]; [|reflexivity].
    destruct (PyJson.getitem o "html_url") as [h|e]; [|reflexivity].
    cbn [Result_bind].
    destruct (UserInfo.minimal l a h) as [u|e]; [|reflexivity].
    cbn [Result_bind]. rewrite (IH (users ++ [u])), (IH ([] ++ [u])).
    destruct (append_fork_owners [] rest) as [us|e]; [|reflexivity].
    cbn [Result_bind]. rewrite <- app_assoc. reflexivity.
Qed.

Lemma forks_turn_records endpoint per_page max_pages continue users page w :
  forks_turn endpoint per_page max_pages continue users page w
  = if page_limit_reached max_pages page then (Ok users, w)
    else
      match _make_request endpoint (page_params page per_page) w with
      | (Raise e, w') => (Raise e, w')
      | (Ok data, w') =>
          if PyJson.truthy data then
            match fork_owners_of data with
            | Raise e => (Raise e, w')
            | Ok us => continue (users ++ us) (page + 1)%Z w'
            end
          else (Ok users, w')
      end.
Proof.
  unfold forks_turn, fork_owners_of.
  destruct (page_limit_reached max_pages page); [reflexivity|].
  destruct (_make_request _ _ w) as [[data|e] w']; [|reflexivity].
  destruct (PyJson.truthy data); [|reflexivity].
  destruct (PyJson.iter data) as [forks|e]; [|reflexivity].
  cbn [Result_bind]. rewrite append_fork_owners_acc.
  destruct (append_fork_owners [] forks); reflexivity.
Qed.

Lemma room_for_page max_pages page n :
  (forall m, max_pages = Some m -> m <> 0%Z -> (page + Z.of_nat n <= m)%Z) ->
  page_limit_reached max_pages page = false.
Proof.
  intros H. unfold page_limit_reached. destruct max_pages as [m|];
    [|reflexivity].
  destruct (m =? 0)%Z eqn:E; [reflexivity|]. cbn [negb andb].
  apply Z.eqb_neq in E. specialize (H m eq_refl E).
  rewrite Z.gtb_ltb. apply Z.ltb_ge. lia.
Qed.

Lemma paginate_from_fails endpoint per_page max_pages e bad rest good :
  forall w users page,
  pending w = good ++ bad :: rest ->
  Forall (good_page users_of endpoint) good ->
  bad_page users_of endpoint bad e ->
  (forall m, max_pages = Some m -> m <> 0%Z ->
             (page + Z.of_nat (length good) <= m)%Z) ->
  paginate_from endpoint per_page max_pages users page w
  = (Raise e, after_pages endpoint per_page page (S (length good)) w).
Proof.
  induction good as [|g good IH]; intros w users page Hp Hg Hb Hm.
  - rewrite paginate_from_turn. unfold paginate_turn.
    rewrite (room_for_page _ _ _ Hm).
    assert (Hd := make_request_delivered endpoint (page_params page per_page)
                    w).
    rewrite Hp in Hd. cbn [app] in Hd.
    cbn [after_pages length].
    destruct (_make_request _ _ w) as [r w1]. cbn [fst snd] in Hd |- *.
    subst r. destruct Hb as [->|(data & -> & -> & ->)]; reflexivity.
  - inversion Hg as [|? ? (data & us & Hd' & Ht & Hu) Hg']; subst.
    rewrite paginate_from_turn. unfold paginate_turn.
    rewrite (room_for_page _ _ _ Hm).
    assert (Hd := make_request_delivered endpoint (page_params page per_page)
                    w).
    rewrite Hp in Hd. cbn [app] in Hd.
    cbn [after_pages length].
    destruct (_make_request _ _ w) as [r w1] eqn:E. cbn [fst snd] in Hd |- *.
    subst r. rewrite Hd', Ht, Hu.
    destruct (make_request_effects _ _ _ _ _ E) as (Hp1 & _).
    rewrite Hp in Hp1. cbn [app tl] in Hp1.
    apply IH; [exact Hp1|exact Hg'|exact Hb|].
    intros m H1 H2. specialize (Hm m H1 H2). cbn [length] in Hm. lia.
Qed.

Lemma forks_from_fails endpoint per_page max_pages e bad rest good :
  forall w users page,
  pending w = good ++ bad :: rest ->
  Forall (good_page fork_owners_of endpoint) good ->
  bad_page fork_owners_of endpoint bad e ->
  (forall m, max_pages = Some m -> m <> 0%Z ->
             (page + Z.of_nat (length good) <= m)%Z) ->
  forks_from endpoint per_page max_pages users page w
  = (Raise e, after_pages endpoint per_page page (S (length good)) w).
Proof.
  induction good as [|g good IH]; intros w users page Hp Hg Hb Hm.
  - rewrite forks_from_turn, forks_turn_records.
    rewrite (room_for_page _ _ _ Hm).
    assert (Hd := make_request_delivered endpoint (page_params page per_page)
                    w).
    rewrite Hp in Hd. cbn [app] in Hd.
    cbn [after_pages length].
    destruct (_make_request _ _ w) as [r w1]. cbn [fst snd] in Hd |- *.
    subst r. destruct Hb as [->|(data & -> & -> & ->)]; reflexivity.
  - inversion Hg as [|? ? (data & us & Hd' & Ht & Hu) Hg']; subst.
    rewrite forks_from_turn, forks_turn_records.
    rewrite (room_for_page _ _ _ Hm).
    assert (Hd := make_request_delivered endpoint (page_params page per_page)
                    w).
    rewrite Hp in Hd. cbn [app] in Hd.
    cbn [after_pages length].
    destruct (_make_request _ _ w) as [r w1] eqn:E. cbn [fst snd] in Hd |- *.
    subst r. rewrite Hd', Ht, Hu.
    destruct (make_request_effects _ _ _ _ _ E) as (Hp1 & _).
    rewrite Hp in Hp1. cbn [app tl] in Hp1.
    apply IH; [exact Hp1|exact Hg'|exact Hb|].
    intros m H1 H2. specialize (Hm m H1 H2). cbn [length] in Hm. lia.
Qed.

Lemma room_from_one max_pages n :
  room_after max_pages n ->
  forall m, max_pages = Some m -> m <> 0%Z -> (1 + Z.of_nat n <= m)%Z.
Proof. intros H m H1 H2. specialize (H m H1 H2). lia. Qed.

(** X8.  A walk is all or nothing.  When the answers are pages of records
    followed by a page on which the walk fails, because the request fails
    or because an item gives no record, and the page cap leaves room for
    that page, [_paginate_users] and [get_forks] raise that page's error:
    the records of the pages before are not returned, the failing page is
    the last request made, and the answers after it stay unused. *)
Theorem walk_fails_as_a_whole (per_page : Z) (max_pages : option Z)
  (good : list Exchange) (bad : Exchange) (rest : list Exchange) (e : exn)
  (w : World) :
  pending w = good ++ bad :: rest ->
  room_after max_pages (length good) ->
  (forall endpoint,
     Forall (good_page users_of endpoint) good ->
     bad_page users_of endpoint bad e ->
     let run := _paginate_users endpoint per_page max_pages w in
     fst run = Raise e
     /\ trace (snd run)
        = trace w ++ page_requests endpoint per_page 1 (S (length good))
     /\ pending (snd run) = rest)
  /\ (forall owner repo,
        let endpoint := "/repos/" +:+ owner +:+ "/" +:+ repo +:+ "/forks" in
        Forall (good_page fork_owners_of endpoint) good ->
        bad_page fork_owners_of endpoint bad e ->
        let run := get_forks owner repo per_page max_pages w in
        fst run = Raise e
        /\ trace (snd run)
           = trace w ++ page_requests endpoint per_page 1 (S (length good))
        /\ pending (snd run) = rest).
Proof.
  intros Hp Hroom.
  assert (Hskip : skipn (S (length good)) (pending w) = rest).
  { rewrite Hp. clear. induction good; [reflexivity|exact IHgood]. }
  split.
  - intros endpoint Hg Hb run. subst run.
    rewrite paginate_is_from,
      (paginate_from_fails endpoint per_page max_pages e bad rest good w []
         1%Z Hp Hg Hb (room_from_one _ _ Hroom)).
    cbn [fst snd]. split; [reflexivity|].
    rewrite after_pages_trace, after_pages_pending. auto.
  - intros owner repo endpoint Hg Hb run. subst run.
    rewrite get_forks_is_from. fold endpoint.
    rewrite (forks_from_fails endpoint per_page max_pages e bad rest good w []
               1%Z Hp Hg Hb (room_from_one _ _ Hroom)).
    cbn [fst snd]. split; [reflexivity|].
    rewrite after_pages_trace, after_pages_pending. auto.
Qed.

Lemma no_list_no_users data :
  PyJson.truthy data = true -> is_array data = false ->
  users_of data = Raise TypeError /\ fork_owners_of data = Raise TypeError.
Proof.
  unfold users_of, fork_owners_of.
  destruct data as [|b|z|f|s|items|fields]; cbn [is_array PyJson.iter
    Result_bind]; try discriminate; try (intros; split; reflexivity).
  - destruct s as [|c s]; [discriminate|]. intros; split; reflexivity.
  - destruct fields as [|[k v] fields]; [discriminate|].
    intros; split; reflexivity.
Qed.

(** X9.  A page must be a list.  A body that is truthy without being a
    JSON array (an error document, a number, a string) where a page of
    stargazers or of forks is expected makes the walk fail with TypeError,
    after whatever pages came before.  (A body that is falsy, such as
    null, 0 or an empty object, ends the walk as an empty page does.) *)
Theorem page_must_be_a_list (per_page : Z) (max_pages : option Z)
  (good : list Exchange) (bad : Exchange) (rest : list Exchange)
  (data : json) (w : World) :
  pending w = good ++ bad :: rest ->
  room_after max_pages (length good) ->
  PyJson.truthy data = true -> is_array data = false ->
  (forall endpoint,
     Forall (good_page users_of endpoint) good ->
     delivered endpoint bad = Ok data ->
     fst (_paginate_users endpoint per_page max_pages w) = Raise TypeError)
  /\ (forall owner repo,
        let endpoint := "/repos/" +:+ owner +:+ "/" +:+ repo +:+ "/forks" in
        Forall (good_page fork_owners_of endpoint) good ->
        delivered endpoint bad = Ok data ->
        fst (get_forks owner repo per_page max_pages w) = Raise TypeError).
Proof.
  intros Hp Hroom Ht Ha.
  destruct (no_list_no_users data Ht Ha) as [Hu Hf].
  split.
  - intros endpoint Hg Hd.
    rewrite paginate_is_from,
      (paginate_from_fails endpoint per_page max_pages TypeError bad rest
         good w [] 1%Z Hp Hg
         (or_intror (ex_intro _ data (conj Hd (conj Ht Hu))))
         (room_from_one _ _ Hroom)).
    reflexivity.
  - intros owner repo endpoint Hg Hd.
    rewrite get_forks_is_from. fold endpoint.
    rewrite (forks_from_fails endpoint per_page max_pages TypeError bad rest
               good w [] 1%Z Hp Hg
               (or_intror (ex_intro _ data (conj Hd (conj Ht Hf))))
               (room_from_one _ _ Hroom)).
    reflexivity.
Qed.

End FailingWalks.

(** ** The requests of an extraction *)

Section ExtractionRequests.
Context {P : Platform}.

Lemma get_stargazers_requests owner repo per_page max_pages w :
  exists n,
    trace (snd (get_stargazers owner repo per_page max_pages w))
    = trace w
      ++ page_requests ("/repos/" +:+ owner +:+ "/" +:+ repo +:+ "/stargazers")
           per_page 1 n
    /\ (forall m, max_pages = Some m -> m <> 0%Z ->
                  (Z.of_nat n <= Z.max 0 m)%Z).
Proof.
  unfold get_stargazers. rewrite paginate_is_from.
  destruct (paginate_from_requests
              ("/repos/" +:+ owner +:+ "/" +:+ repo +:+ "/stargazers")
              per_page max_pages (pending w) w [] 1%Z eq_refl)
    as (n & Hn & Hb).
  exists n. split; [exact Hn|].
  intros m Hm Hm0. specialize (Hb m Hm Hm0). lia.
Qed.

Lemma get_forks_requests owner repo per_page max_pages w :
  exists n,
    trace (snd (get_forks owner repo per_page max_pages w))
    = trace w
      ++ page_requests ("/repos/" +:+ owner +:+ "/" +:+ repo +:+ "/forks")
           per_page 1 n
    /\ (forall m, max_pages = Some m -> m <> 0%Z ->
                  (Z.of_nat n <= Z.max 0 m)%Z).
Proof.
  rewrite get_forks_is_from.
  set (endpoint := "/repos/" +:+ owner +:+ "/" +:+ repo +:+ "/forks").
  destruct (forks_as_owner_walk endpoint per_page max_pages (pending w) w []
              1%Z eq_refl) as (Hw & _).
  destruct (paginate_from_requests endpoint per_page max_pages
              (pending (owners_world w)) (owners_world w) [] 1%Z eq_refl)
    as (n & Hn & Hb).
  exists n. split.
  - rewrite Hw in Hn. exact Hn.
  - intros m Hm Hm0. specialize (Hb m Hm Hm0). lia.
Qed.

Lemma fetch_details_requests aggressive users : forall detailed w,
  length (trace (snd (fetch_details aggressive detailed users w)))
  <= length (trace w) + details_cost aggressive * length users.
Proof.
  induction users as [|user rest IH]; intros detailed w.
  - cbn. lia.
  - rewrite fetch_details_step.
    assert (Hc := get_user_info_cost (UserInfo.login user) aggressive w).
    destruct (get_user_info _ _ w) as [r w1]. cbn [snd] in Hc.
    specialize (IH (detailed ++ [match r with Ok d => d | Raise _ => user end])
                  w1).
    cbn [length]. lia.
Qed.

(** The cap on pages that goes with a cap on records of at least 1. *)
Lemma pages_of_cap n :
  (1 <= n)%Z -> ((n + 30 - 1) / 30 = (n + 29) / 30 /\ 1 <= (n + 29) / 30)%Z.
Proof.
  intros Hn. replace (n + 30 - 1)%Z with (n + 29)%Z by lia.
  split; [reflexivity|].
  apply Z.div_le_lower_bound; lia.
Qed.

Lemma given_cap n : n <> 0%Z -> given (Some n) = true.
Proof. intros Hn. cbn. now apply negb_true_iff, Z.eqb_neq. Qed.

Lemma section_requests aggressive (detailed : bool) n
  (raw : list UserInfo.t) w :
  (1 <= n)%Z ->
  let run := (if detailed
              then fetch_details aggressive [] (slice_to n raw)
              else ret (slice_to n raw)) w in
  (detailed = false -> snd run = w)
  /\ (Z.of_nat (length (trace (snd run)))
      <= Z.of_nat (length (trace w))
         + (if detailed then Z.of_nat (details_cost aggressive) * n else 0))%Z.
Proof.
  intros Hn run. subst run. destruct detailed.
  - split; [discriminate|].
    assert (H := fetch_details_requests aggressive (slice_to n raw) [] w).
    destruct (slice_to_cap n raw Hn) as [_ Hl]. nia.
  - split; [reflexivity|]. cbn [ret snd]. lia.
Qed.

Lemma extract_stargazers_requests owner repo max_count detailed aggressive w :
  exists n,
    (detailed = false ->
     trace (snd (_extract_stargazers owner repo max_count detailed
                   aggressive w))
     = trace w
       ++ page_requests
            ("/repos/" +:+ owner +:+ "/" +:+ repo +:+ "/stargazers") 30 1 n)
    /\ (forall m, max_count = Some m -> (1 <= m)%Z ->
          (Z.of_nat n <= (m + 29) / 30)%Z
          /\ (Z.of_nat (length (trace (snd (_extract_stargazers owner repo
                                              max_count detailed aggressive
                                              w))))
              <= Z.of_nat (length (trace w)) + (m + 29) / 30
                 + (if detailed
                    then Z.of_nat (details_cost aggressive) * m else 0))%Z).
Proof.
  unfold _extract_stargazers.
  set (max_pages := match max_count with
                    | Some n => if given max_count
                                then Some ((n + 30 - 1) / 30)%Z else None
                    | None => None
                    end).
  destruct (get_stargazers_requests owner repo 30 max_pages w)
    as (n & Hn & Hb).
  exists n. rewrite bind_run.
  destruct (get_stargazers owner repo 30 max_pages w) as [[raw|e] w1];
    cbn [snd] in Hn.
  - split.
    + intros ->. rewrite ret_run. exact Hn.
    + intros m -> Hm. subst max_pages.
      rewrite (given_cap m) in * by lia.
      destruct (pages_of_cap m Hm) as [Hc Hc1].
      specialize (Hb _ eq_refl ltac:(lia)). rewrite Hc in Hb.
      split; [lia|].
      destruct (section_requests aggressive detailed m raw w1 Hm)
        as [_ Hs]. cbv zeta in Hs.
      rewrite Hn, length_app in Hs.
      assert (Hp : length (page_requests
                             ("/repos/" +:+ owner +:+ "/" +:+ repo
                              +:+ "/stargazers") 30 1 n) = n).
      { clear. generalize 1%Z. induction n; intros z; cbn;
          [reflexivity|now rewrite IHn]. }
      rewrite Hp in Hs. lia.
  - split.
    + intros _. exact Hn.
    + intros m -> Hm. subst max_pages.
      rewrite (given_cap m) in * by lia.
      destruct (pages_of_cap m Hm) as [Hc Hc1].
      specialize (Hb _ eq_refl ltac:(lia)). rewrite Hc in Hb.
      split; [lia|]. cbn [snd]. rewrite Hn, length_app.
      assert (Hp : length (page_requests
                             ("/repos/" +:+ owner +:+ "/" +:+ repo
                              +:+ "/stargazers") 30 1 n) = n).
      { clear. generalize 1%Z. induction n; intros z; cbn;
          [reflexivity|now rewrite IHn]. }
      rewrite Hp. destruct detailed; nia.
Qed.

Lemma extract_forkers_requests owner repo max_count detailed aggressive w :
  exists n,
    (detailed = false ->
     trace (snd (_extract_forkers owner repo max_count detailed
                   aggressive w))
     = trace w
       ++ page_requests
            ("/repos/" +:+ owner +:+ "/" +:+ repo +:+ "/forks") 30 1 n)
    /\ (forall m, max_count = Some m -> (1 <= m)%Z ->
          (Z.of_nat n <= (m + 29) / 30)%Z
          /\ (Z.of_nat (length (trace (snd (_extract_forkers owner repo
                                              max_count detailed aggressive
                                              w))))
              <= Z.of_nat (length (trace w)) + (m + 29) / 30
                 + (if detailed
                    then Z.of_nat (details_cost aggressive) * m else 0))%Z).
Proof.
  unfold _extract_forkers.
  set (max_pages := match max_count with
                    | Some n => if given max_count
                                then Some ((n + 30 - 1) / 30)%Z else None
                    | None => None
                    end).
  destruct (get_forks_requests owner repo 30 max_pages w)
    as (n & Hn & Hb).
  exists n. rewrite bind_run.
  destruct (get_forks owner repo 30 max_pages w) as [[raw|e] w1];
    cbn [snd] in Hn.
  - split.
    + intros ->. rewrite ret_run. exact Hn.
    + intros m -> Hm. subst max_pages.
      rewrite (given_cap m) in * by lia.
      destruct (pages_of_cap m Hm) as [Hc Hc1].
      specialize (Hb _ eq_refl ltac:(lia)). rewrite Hc in Hb.
      split; [lia|].
      destruct (section_requests aggressive detailed m raw w1 Hm)
        as [_ Hs]. cbv zeta in Hs.
      rewrite Hn, length_app in Hs.
      assert (Hp : length (page_requests
                             ("/repos/" +:+ owner +:+ "/" +:+ repo
                              +:+ "/forks") 30 1 n) = n).
      { clear. generalize 1%Z. induction n; intros z; cbn;
          [reflexivity|now rewrite IHn]. }
      rewrite Hp in Hs. lia.
  - split.
    + intros _. exact Hn.
    + intros m -> Hm. subst max_pages.
      rewrite (given_cap m) in * by lia.
      destruct (pages_of_cap m Hm) as [Hc Hc1].
      specialize (Hb _ eq_refl ltac:(lia)). rewrite Hc in Hb.
      split; [lia|]. cbn [snd]. rewrite Hn, length_app.
      assert (Hp : length (page_requests
                             ("/repos/" +:+ owner +:+ "/" +:+ repo
                              +:+ "/forks") 30 1 n) = n).
      { clear. generalize 1%Z. induction n; intros z; cbn;
          [reflexivity|now rewrite IHn]. }
      rewrite Hp. destruct detailed; nia.
Qed.


Lemma page_requests_length endpoint per_page n : forall page,
  length (page_requests endpoint per_page page n) = n.
Proof.
  induction n as [|n IH]; intros page; cbn; [reflexivity|now rewrite IH].
Qed.

(** X10.  An extraction without user details asks for the repository, then
    for pages 1, 2, ... of its stargazers, then for pages 1, 2, ... of its
    forks, each with 30 items to the page, and for nothing else: no user is
    looked up.  A section that is not included, and every section when the
    repository fetch failed, costs no request; a cap of at least 1 on a
    section bounds its pages by the cap divided by 30, rounded up. *)
Theorem plain_extraction_requests (url owner repo : string)
  (include_stargazers include_forkers : bool)
  (max_stargazers max_forkers : option Z) (aggressive : bool) (w : World) :
  _parse_repo_identifier url = Ok (owner, repo) ->
  exists n1 n2,
    trace (snd (extract_repository_info url include_stargazers
                  include_forkers max_stargazers max_forkers false
                  aggressive w))
    = trace w
      ++ repository_request owner repo
         :: page_requests
              ("/repos/" +:+ owner +:+ "/" +:+ repo +:+ "/stargazers")
              30 1 n1
         ++ page_requests
              ("/repos/" +:+ owner +:+ "/" +:+ repo +:+ "/forks") 30 1 n2
    /\ (include_stargazers = false -> n1 = 0)
    /\ (include_forkers = false -> n2 = 0)
    /\ (forall m, max_stargazers = Some m -> (1 <= m)%Z ->
                  (Z.of_nat n1 <= (m + 29) / 30)%Z)
    /\ (forall m, max_forkers = Some m -> (1 <= m)%Z ->
                  (Z.of_nat n2 <= (m + 29) / 30)%Z)
    /\ (forall e, fst (get_repository_info owner repo w) = Raise e ->
                  n1 = 0 /\ n2 = 0).
Proof.
  intros Hp.
  assert (Ht := repository_info_trace owner repo w).
  destruct (get_repository_info owner repo w) as [[info|e] w1] eqn:Er;
    cbn [snd] in Ht.
  2:{ exists 0, 0.
      rewrite (extract_repository_failure _ _ _ _ _ _ _ _ _ _ _ _ Hp Er).
      cbn [snd page_requests app].
      split; [exact Ht|]. split; [reflexivity|]. split; [reflexivity|].
      assert (Hd : forall m, (1 <= m)%Z -> (Z.of_nat 0 <= (m + 29) / 30)%Z).
      { intros m Hm.
        assert (0 <= (m + 29) / 30)%Z by (apply Z.div_pos; lia). lia. }
      split; [intros m _; apply Hd|]. split; [intros m _; apply Hd|auto]. }
  rewrite (extract_sections _ include_stargazers include_forkers
             max_stargazers max_forkers false aggressive _ _ _ _ _ Hp Er).
  cbn [snd fst].
  assert (Hs : exists n1,
             trace (snd (if include_stargazers
                         then _extract_stargazers owner repo max_stargazers
                                false aggressive w1
                         else (Ok [], w1)))
             = trace w1
               ++ page_requests
                    ("/repos/" +:+ owner +:+ "/" +:+ repo +:+ "/stargazers")
                    30 1 n1
             /\ (include_stargazers = false -> n1 = 0)
             /\ (forall m, max_stargazers = Some m -> (1 <= m)%Z ->
                           (Z.of_nat n1 <= (m + 29) / 30)%Z)).
  { destruct include_stargazers.
    - destruct (extract_stargazers_requests owner repo max_stargazers false
                  aggressive w1) as (n & Hn & Hb).
      exists n. split; [exact (Hn eq_refl)|]. split; [discriminate|].
      intros m Hm Hm1. exact (proj1 (Hb m Hm Hm1)).
    - exists 0. cbn [snd page_requests]. rewrite app_nil_r.
      split; [reflexivity|]. split; [reflexivity|].
      intros m _ Hm. assert (0 <= (m + 29) / 30)%Z by (apply Z.div_pos; lia).
      lia. }
  destruct Hs as (n1 & Hn1 & Hz1 & Hb1).
  set (w2 := snd (if include_stargazers
                  then _extract_stargazers owner repo max_stargazers false
                         aggressive w1
                  else (Ok [], w1))) in *.
  assert (Hf : exists n2,
             trace (snd (if include_forkers
                         then _extract_forkers owner repo max_forkers
                                false aggressive w2
                         else (Ok [], w2)))
             = trace w2
               ++ page_requests
                    ("/repos/" +:+ owner +:+ "/" +:+ repo +:+ "/forks")
                    30 1 n2
             /\ (include_forkers = false -> n2 = 0)
             /\ (forall m, max_forkers = Some m -> (1 <= m)%Z ->
                           (Z.of_nat n2 <= (m + 29) / 30)%Z)).
  { destruct include_forkers.
    - destruct (extract_forkers_requests owner repo max_forkers false
                  aggressive w2) as (n & Hn & Hb).
      exists n. split; [exact (Hn eq_refl)|]. split; [discriminate|].
      intros m Hm Hm1. exact (proj1 (Hb m Hm Hm1)).
    - exists 0. cbn [snd page_requests]. rewrite app_nil_r.
      split; [reflexivity|]. split; [reflexivity|].
      intros m _ Hm. assert (0 <= (m + 29) / 30)%Z by (apply Z.div_pos; lia).
      lia. }
  destruct Hf as (n2 & Hn2 & Hz2 & Hb2).
  exists n1, n2. split.
  - rewrite Hn2, Hn1, Ht, <- !app_assoc. reflexivity.
  - split; [exact Hz1|]. split; [exact Hz2|]. split; [exact Hb1|].
    split; [exact Hb2|discriminate].
Qed.

(** X11.  With caps of at least 1 on both sections an extraction makes at
    most 1 + ceil(max_stargazers / 30) + ceil(max_forkers / 30) requests
    without user details, and with them at most 7 more for each record the
    caps allow (1 more when aggressive email extraction is off), whatever
    the answers are. *)
Theorem extraction_budget (url : string)
  (include_stargazers include_forkers : bool) (m1 m2 : Z)
  (detailed aggressive : bool) (w : World) :
  (1 <= m1)%Z -> (1 <= m2)%Z ->
  (Z.of_nat (length (trace (snd (extract_repository_info url
                                   include_stargazers include_forkers
                                   (Some m1) (Some m2) detailed aggressive
                                   w))))
   <= Z.of_nat (length (trace w)) + 1 + (m1 + 29) / 30 + (m2 + 29) / 30
      + (if detailed
         then Z.of_nat (details_cost aggressive) * (m1 + m2) else 0))%Z.
Proof.
  intros H1 H2.
  assert (Hd1 : (0 <= (m1 + 29) / 30)%Z) by (apply Z.div_pos; lia).
  assert (Hd2 : (0 <= (m2 + 29) / 30)%Z) by (apply Z.div_pos; lia).
  assert (Hc : (0 <= (if detailed
                      then Z.of_nat (details_cost aggressive) * (m1 + m2)
                      else 0))%Z) by (destruct detailed; nia).
  destruct (_parse_repo_identifier url) as [[owner repo]|e] eqn:Hp.
  2:{ rewrite (extract_parse_failure _ _ _ _ _ _ _ _ _ Hp). cbn [snd]. lia. }
  assert (Ht := repository_info_trace owner repo w).
  destruct (get_repository_info owner repo w) as [[info|e] w1] eqn:Er;
    cbn [snd] in Ht.
  2:{ rewrite (extract_repository_failure _ _ _ _ _ _ _ _ _ _ _ _ Hp Er).
      cbn [snd]. rewrite Ht, length_app. cbn [length]. lia. }
  rewrite (extract_sections _ include_stargazers include_forkers
             (Some m1) (Some m2) detailed aggressive _ _ _ _ _ Hp Er).
  cbn [snd fst].
  assert (Hw1 : length (trace w1) = length (trace w) + 1).
  { rewrite Ht, length_app. reflexivity. }
  set (w2 := snd (if include_stargazers
                  then _extract_stargazers owner repo (Some m1) detailed
                         aggressive w1
                  else (Ok [], w1))).
  assert (Hs : (Z.of_nat (length (trace w2))
                <= Z.of_nat (length (trace w1)) + (m1 + 29) / 30
                   + (if detailed
                      then Z.of_nat (details_cost aggressive) * m1
                      else 0))%Z).
  { subst w2. destruct include_stargazers.
    - destruct (extract_stargazers_requests owner repo (Some m1) detailed
                  aggressive w1) as (n & _ & Hb).
      exact (proj2 (Hb m1 eq_refl H1)).
    - cbn [snd]. destruct detailed; nia. }
  assert (Hf : (Z.of_nat (length (trace
                  (snd (if include_forkers
                        then _extract_forkers owner repo (Some m2) detailed
                               aggressive w2
                        else (Ok [], w2)))))
                <= Z.of_nat (length (trace w2)) + (m2 + 29) / 30
                   + (if detailed
                      then Z.of_nat (details_cost aggressive) * m2
                      else 0))%Z).
  { destruct include_forkers.
    - destruct (extract_forkers_requests owner repo (Some m2) detailed
                  aggressive w2) as (n & _ & Hb).
      exact (proj2 (Hb m2 eq_refl H2)).
    - cbn [snd]. destruct detailed; nia. }
  destruct detailed; nia.
Qed.

Lemma details_log_cons user users more mores :
  details_log (user :: users) (more :: mores)
  = profile_request (UserInfo.login user) :: more ++ details_log users mores.
Proof. reflexivity. Qed.

Lemma details_log_plain users mores :
  Forall2 (fun (u : UserInfo.t) (more : list Request) => more = [])
    users mores ->
  details_log users mores
  = map (fun u => profile_request (UserInfo.login u)) users.
Proof.
  induction 1 as [|u more users mores -> _ IH]; [reflexivity|].
  rewrite details_log_cons. cbn [app map]. rewrite IH. reflexivity.
Qed.

(** X12.  The details are looked up record by record, in the order of the
    section: for each record one request for the profile of its login,
    followed by what email discovery asks for that user, and nothing
    between.  Without aggressive extraction that is exactly one request for
    each record, whether the lookup succeeds or fails. *)
Theorem details_in_order (aggressive : bool) (users detailed :
  list UserInfo.t) (w : World) :
  exists mores,
    Forall2 (fun u more => discovery_log (UserInfo.login u) more) users mores
    /\ trace (snd (fetch_details aggressive detailed users w))
       = trace w ++ details_log users mores
    /\ (aggressive = false ->
        trace (snd (fetch_details aggressive detailed users w))
        = trace w ++ map (fun u => profile_request (UserInfo.login u)) users).
Proof.
  assert (H : exists mores,
            Forall2 (fun u more =>
                       discovery_log (UserInfo.login u) more
                       /\ (aggressive = false -> more = [])) users mores
            /\ trace (snd (fetch_details aggressive detailed users w))
               = trace w ++ details_log users mores).
  { revert detailed w.
    induction users as [|user rest IH]; intros detailed w.
    - exists []. split; [constructor|]. cbn. rewrite app_nil_r. reflexivity.
    - rewrite fetch_details_step.
      destruct (get_user_info_log (UserInfo.login user) aggressive w)
        as (more & Ht & Hlog & Hoff).
      destruct (get_user_info _ _ w) as [r w1]. cbn [snd] in Ht.
      destruct (IH (detailed
                    ++ [match r with Ok d => d | Raise _ => user end]) w1)
        as (mores & Hf & Hrest).
      exists (more :: mores). split; [constructor; [split|]; assumption|].
      rewrite Hrest, Ht, details_log_cons, <- app_assoc. reflexivity. }
  destruct H as (mores & Hf & Ht).
  exists mores. split; [|split; [exact Ht|]].
  - eapply Forall2_impl; [|exact Hf]. intros u more [Hl _]. exact Hl.
  - intros Ha. rewrite Ht. f_equal. apply details_log_plain.
    eapply Forall2_impl; [|exact Hf]. intros u more [_ Hoff].
    exact (Hoff Ha).
Qed.

End ExtractionRequests.

(** ** Caps below zero *)

Section NegativeCaps.
Context {P : Platform}.

Lemma pages_of_large_negative_cap n :
  (n <= -30)%Z -> ((n + 30 - 1) / 30 <= -1)%Z.
Proof.
  intros Hn.
  assert ((n + 30 - 1) / 30 < 0)%Z; [|lia].
  apply Z.div_lt_upper_bound; lia.
Qed.

Lemma pages_of_small_negative_cap n :
  (-29 <= n <= -1)%Z -> ((n + 30 - 1) / 30 = 0)%Z.
Proof. intros Hn. apply Z.div_small. lia. Qed.

Lemma page_one_beyond k :
  (k <= -1)%Z -> page_limit_reached (Some k) 1 = true.
Proof.
  intros Hk. unfold page_limit_reached.
  apply andb_true_intro. split.
  - apply negb_true_iff, Z.eqb_neq. lia.
  - apply Z.gtb_lt. lia.
Qed.

(** X13.  A cap of -30 or less on a section fetches nothing: the page cap
    computed from it is negative, page 1 is already beyond it, and the
    section is empty without a single request, with user details or
    without. *)
Theorem large_negative_cap_fetches_nothing (owner repo : string) (n : Z)
  (detailed aggressive : bool) (w : World) :
  (n <= -30)%Z ->
  _extract_stargazers owner repo (Some n) detailed aggressive w = (Ok [], w)
  /\ _extract_forkers owner repo (Some n) detailed aggressive w = (Ok [], w).
Proof.
  intros Hn. assert (Hk := pages_of_large_negative_cap n Hn).
  unfold _extract_stargazers, _extract_forkers.
  rewrite (given_cap n) by lia.
  unfold get_stargazers, get_forks, _paginate_users.
  rewrite !bind_run. cbn [_paginate_users_loop get_forks_loop].
  rewrite (page_one_beyond _ Hk). rewrite !ret_run.
  assert (Hs : slice_to n (@nil UserInfo.t) = []).
  { unfold slice_to. destruct (0 <=? n)%Z; apply firstn_nil. }
  rewrite Hs. destruct detailed; split; reflexivity.
Qed.

(** X14.  A cap from -29 to -1 on a section is no cap on its pages: the
    page cap computed from it is 0, so every page is fetched as without a
    cap, and the slice then drops the last records, as many as the cap is
    below zero; the records that remain are detailed if details are asked
    for. *)
Theorem small_negative_cap_drops_last (owner repo : string) (n : Z)
  (detailed aggressive : bool) (w : World) :
  (-29 <= n <= -1)%Z ->
  _extract_stargazers owner repo (Some n) detailed aggressive w
  = (stargazers <- get_stargazers owner repo 30 None ;;
     let kept := drop_last (Z.to_nat (- n)) stargazers in
     if detailed then fetch_details aggressive [] kept else ret kept) w
  /\ _extract_forkers owner repo (Some n) detailed aggressive w
     = (forkers <- get_forks owner repo 30 None ;;
        let kept := drop_last (Z.to_nat (- n)) forkers in
        if detailed then fetch_details aggressive [] kept else ret kept) w.
Proof.
  intros Hn. assert (Hk := pages_of_small_negative_cap n Hn).
  unfold _extract_stargazers, _extract_forkers.
  rewrite (given_cap n) by lia. rewrite Hk.
  assert (Hs : forall l : list UserInfo.t,
            slice_to n l = drop_last (Z.to_nat (- n)) l).
  { intros l. unfold slice_to, drop_last.
    destruct (0 <=? n)%Z eqn:E; [apply Z.leb_le in E; lia|reflexivity]. }
  rewrite !bind_run.
  assert (H1 : get_stargazers owner repo 30 (Some 0%Z) w
               = get_stargazers owner repo 30 None w).
  { apply paginate_loop_zero_cap. }
  assert (H2 : get_forks owner repo 30 (Some 0%Z) w
               = get_forks owner repo 30 None w).
  { apply forks_loop_zero_cap. }
  rewrite H1, H2.
  split.
  - destruct (get_stargazers owner repo 30 None w) as [[l|e] w1];
      [rewrite Hs|]; reflexivity.
  - destruct (get_forks owner repo 30 None w) as [[l|e] w1];
      [rewrite Hs|]; reflexivity.
Qed.

End NegativeCaps.

(** ** More on repository identifiers *)

Section IdentifierOutcome.
Context {P : Platform}.

Lemma split_parts_clean c s :
  Forall (fun part => PyStr.char_in c part = false) (PyStr.split c s).
Proof.
  induction s as [|a s IH].
  - cbn. constructor; [reflexivity|constructor].
  - rewrite split_cons. destruct (Ascii.eqb a c) eqn:E.
    + constructor; [reflexivity|exact IH].
    + destruct (PyStr.split c s) as [|h t].
      * constructor; [|constructor]. cbn. rewrite E. reflexivity.
      * inversion IH as [|? ? Hh Ht]; subst.
        constructor; [|exact Ht]. cbn. rewrite E. exact Hh.
Qed.

Lemma nth_part_clean c s i :
  PyStr.char_in c (nth i (PyStr.split c s) EmptyString) = false.
Proof.
  assert (H := split_parts_clean c s). revert i.
  induction H as [|part parts Hp _ IH]; intros [|i]; cbn [nth];
    try reflexivity; [exact Hp|apply IH].
Qed.

Lemma lstrip_by_head p s :
  PyStr.lstrip_by p s = EmptyString
  \/ exists c r, PyStr.lstrip_by p s = String c r /\ p c = false.
Proof.
  induction s as [|a s IH]; [left; reflexivity|].
  cbn. destruct (p a) eqn:E; [exact IH|].
  right. exists a, s. auto.
Qed.

Lemma strip_by_head p s :
  PyStr.strip_by p s = EmptyString
  \/ exists c r, PyStr.strip_by p s = String c r /\ p c = false.
Proof.
  unfold PyStr.strip_by.
  destruct (lstrip_by_head p s) as [->|(c & r & -> & Hc)];
    [left; reflexivity|].
  right. exists c, (PyStr.rstrip_by p r).
  split; [apply rstrip_by_cons_keep; exact Hc|exact Hc].
Qed.

Lemma first_segment_nonempty path :
  (length (PyStr.split "/" (PyStr.strip_char "/" path)) <? 2)%nat = false ->
  nth 0 (PyStr.split "/" (PyStr.strip_char "/" path)) EmptyString
  <> EmptyString.
Proof.
  unfold PyStr.strip_char.
  destruct (strip_by_head (Ascii.eqb "/") path) as [->|(c & r & -> & Hc)].
  - cbn. discriminate.
  - intros _. rewrite split_cons.
    rewrite Ascii.eqb_sym in Hc. rewrite Hc.
    destruct (PyStr.split "/" r); cbn [nth]; discriminate.
Qed.

Lemma two_parts_join c s :
  (length (PyStr.split c s) =? 2)%nat = true ->
  s = nth 0 (PyStr.split c s) EmptyString
      +:+ String c (nth 1 (PyStr.split c s) EmptyString).
Proof.
  intros H. apply Nat.eqb_eq in H. rewrite split_length in H.
  destruct (split_two c s ltac:(lia)) as (a & b & Hs & ->).
  exact Hs.
Qed.

Lemma urlparse_raises url e :
  Urllib.urlparse url = Raise e -> exists v, e = ValueError v.
Proof.
  unfold Urllib.urlparse.
  destruct (Urllib.split_scheme _) as [scheme rest].
  match goal with
  | |- context [let '(_, _) := ?p in _] => destruct p as [netloc url']
  end.
  destruct (xorb _ _); [intros H; injection H as <-; eauto|].
  destruct (_ && _ && _); [intros H; injection H as <-; eauto|].
  discriminate.
Qed.

(** X15.  What [_parse_repo_identifier] gives back.  It fails with a
    ValueError and nothing else.  The owner and the repository name it
    returns never hold a '/'.  For an identifier in URL form the owner is
    never empty; for any other identifier the two names joined by '/' are
    the identifier itself, trimmed. *)
Theorem resolve_outcome (repo_identifier : string) :
  match _parse_repo_identifier repo_identifier with
  | Ok (owner, repo) =>
      PyStr.char_in "/" owner = false
      /\ PyStr.char_in "/" repo = false
      /\ (if is_url (PyStr.strip repo_identifier)
          then owner <> EmptyString
          else PyStr.strip repo_identifier = owner +:+ "/" +:+ repo)
  | Raise e => exists v, e = ValueError v
  end.
Proof.
  unfold _parse_repo_identifier, is_url.
  set (t := PyStr.strip repo_identifier).
  destruct (PyStr.startswith t "http://" || PyStr.startswith t "https://").
  - destruct (Urllib.urlparse t) as [parsed|e] eqn:Eu;
      [|exact (urlparse_raises _ _ Eu)].
    destruct (negb (String.eqb (Urllib.netloc parsed) "github.com"));
      [eauto|].
    destruct (length _ <? 2)%nat eqn:El; [eauto|].
    split; [apply nth_part_clean|]. split; [apply nth_part_clean|].
    exact (first_segment_nonempty _ El).
  - destruct (PyStr.char_in "/" t); [|eauto].
    destruct (length (PyStr.split "/" t) =? 2)%nat eqn:El; cbn [negb];
      [|eauto].
    split; [apply nth_part_clean|]. split; [apply nth_part_clean|].
    exact (two_parts_join _ _ El).
Qed.



Lemma parse_bare_join repo_identifier owner repo :
  is_url (PyStr.strip repo_identifier) = false ->
  _parse_repo_identifier repo_identifier = Ok (owner, repo) ->
  PyStr.strip repo_identifier = owner +:+ "/" +:+ repo.
Proof.
  unfold _parse_repo_identifier, is_url.
  set (t := PyStr.strip repo_identifier). intros ->.
  destruct (PyStr.char_in "/" t); [|discriminate].
  destruct (length (PyStr.split "/" t) =? 2)%nat eqn:El; cbn [negb];
    [|discriminate].
  intros H. injection H as <- <-. exact (two_parts_join _ _ El).
Qed.

Lemma parse_raises repo_identifier e :
  _parse_repo_identifier repo_identifier = Raise e ->
  exists v, e = ValueError v.
Proof.
  unfold _parse_repo_identifier.
  set (t := PyStr.strip repo_identifier).
  destruct (PyStr.startswith t "http://" || PyStr.startswith t "https://").
  - destruct (Urllib.urlparse t) as [parsed|e'] eqn:Eu.
    + destruct (negb (String.eqb (Urllib.netloc parsed) "github.com"));
        [intros H; injection H as <-; eauto|].
      destruct (length _ <? 2)%nat; [|discriminate].
      intros H; injection H as <-; eauto.
    + intros H. injection H as <-. exact (urlparse_raises _ _ Eu).
  - destruct (PyStr.char_in "/" t); [|intros H; injection H as <-; eauto].
    destruct (negb (length (PyStr.split "/" t) =? 2)%nat); [|discriminate].
    intros H; injection H as <-; eauto.
Qed.

Lemma lstrip_by_blank p l s :
  PyStr.forallb p l = true ->
  PyStr.lstrip_by p (l +:+ s) = PyStr.lstrip_by p s.
Proof.
  induction l as [|a l IH]; [reflexivity|].
  cbn. destruct (p a); [exact IH|discriminate].
Qed.

Lemma lstrip_by_all p r :
  PyStr.forallb p r = true -> PyStr.lstrip_by p r = EmptyString.
Proof.
  induction r as [|a r IH]; [reflexivity|].
  cbn. destruct (p a); [exact IH|discriminate].
Qed.

Lemma rstrip_by_all p r :
  PyStr.forallb p r = true -> PyStr.rstrip_by p r = EmptyString.
Proof.
  induction r as [|a r IH]; [reflexivity|].
  cbn. destruct (p a); [|discriminate].
  intros H. rewrite (IH H). reflexivity.
Qed.

Lemma lstrip_by_app p s r :
  PyStr.lstrip_by p (s +:+ r)
  = match PyStr.lstrip_by p s with
    | EmptyString => PyStr.lstrip_by p r
    | t => t +:+ r
    end.
Proof.
  induction s as [|a s IH]; cbn.
  - destruct (PyStr.lstrip_by p r); reflexivity.
  - destruct (p a); [exact IH|reflexivity].
Qed.

Lemma strip_by_padded p l s r :
  PyStr.forallb p l = true -> PyStr.forallb p r = true ->
  PyStr.strip_by p (l +:+ s +:+ r) = PyStr.strip_by p s.
Proof.
  intros Hl Hr. unfold PyStr.strip_by.
  rewrite (lstrip_by_blank p l _ Hl), lstrip_by_app, (lstrip_by_all p r Hr).
  destruct (PyStr.lstrip_by p s) as [|c t] eqn:E; [reflexivity|].
  rewrite rstrip_by_app, (rstrip_by_all p r Hr). reflexivity.
Qed.

(** X16.  Whitespace around an identifier does not count: padded with
    whitespace on either side, an identifier resolves as it does without
    the padding, to the same names or the same failure. *)
Theorem resolve_ignores_padding (left right repo_identifier : string) :
  blank left -> blank right ->
  _parse_repo_identifier (left +:+ repo_identifier +:+ right)
  = _parse_repo_identifier repo_identifier.
Proof.
  intros Hl Hr. unfold _parse_repo_identifier, PyStr.strip.
  rewrite (strip_by_padded _ _ _ _ Hl Hr). reflexivity.
Qed.

(** X17.  An extraction is the same for the URL of a repository as for its
    owner/repo form: for valid names, with http or https, whatever further
    path segments, query or fragment the URL goes on with and whatever
    whitespace surrounds it, the two runs make the same requests and
    return the same report or the same error. *)
Theorem url_extraction_is_bare_extraction (secure : bool)
  (left right owner repo rest : string)
  (include_stargazers include_forkers : bool)
  (max_stargazers max_forkers : option Z) (detailed aggressive : bool)
  (w : World) :
  blank left -> blank right ->
  valid_name owner -> valid_name repo -> trailing rest ->
  extract_repository_info
    (left +:+ ((if secure then "https://" else "http://")
               +:+ "github.com/" +:+ owner +:+ "/" +:+ repo +:+ rest)
     +:+ right)
    include_stargazers include_forkers max_stargazers max_forkers detailed
    aggressive w
  = extract_repository_info (owner +:+ "/" +:+ repo)
      include_stargazers include_forkers max_stargazers max_forkers detailed
      aggressive w.
Proof.
  intros Hl Hr Ho Hn Ht. unfold extract_repository_info.
  assert (Hp : _parse_repo_identifier
                 (left +:+ ((if secure then "https://" else "http://")
                            +:+ "github.com/" +:+ owner +:+ "/" +:+ repo
                            +:+ rest) +:+ right)
               = Ok (owner, repo)).
  { rewrite <- (parse_url secure owner repo rest Ho Hn Ht).
    unfold _parse_repo_identifier, PyStr.strip.
    rewrite (strip_by_padded _ _ _ _ Hl Hr). reflexivity. }
  rewrite Hp, (parse_bare owner repo Ho Hn). reflexivity.
Qed.

End IdentifierOutcome.

(** ** Round trip, sections and records *)

Section Reports.
Context {P : Platform}.

Lemma rstrip_by_again p s :
  PyStr.rstrip_by p (PyStr.rstrip_by p s) = PyStr.rstrip_by p s.
Proof.
  induction s as [|c s IH]; [reflexivity|].
  cbn [PyStr.rstrip_by].
  destruct (PyStr.rstrip_by p s) as [|d r] eqn:E.
  - destruct (p c) eqn:Ec; [reflexivity|].
    cbn [PyStr.rstrip_by]. rewrite Ec. reflexivity.
  - change (PyStr.rstrip_by p (String c (String d r)))
      with (match PyStr.rstrip_by p (String d r) with
            | EmptyString => if p c then EmptyString else String c EmptyString
            | t => String c t
            end).
    rewrite IH. reflexivity.
Qed.

Lemma strip_by_again p s :
  PyStr.strip_by p (PyStr.strip_by p s) = PyStr.strip_by p s.
Proof.
  destruct (strip_by_head p s) as [E|(c & r & E & Hc)].
  - rewrite E. reflexivity.
  - unfold PyStr.strip_by at 1. rewrite E. cbn [PyStr.lstrip_by].
    rewrite Hc, <- E. unfold PyStr.strip_by. apply rstrip_by_again.
Qed.

Lemma parse_stripped s :
  _parse_repo_identifier (PyStr.strip s) = _parse_repo_identifier s.
Proof.
  unfold _parse_repo_identifier, PyStr.strip.
  rewrite strip_by_again. reflexivity.
Qed.

(** X18.  Resolving is a round trip on the owner/repo form: when an
    identifier that is not in URL form resolves to an owner and a
    repository name, the two joined by '/' resolve to the same owner and
    name again. *)
Theorem bare_round_trip (repo_identifier owner repo : string) :
  is_url (PyStr.strip repo_identifier) = false ->
  _parse_repo_identifier repo_identifier = Ok (owner, repo) ->
  _parse_repo_identifier (owner +:+ "/" +:+ repo) = Ok (owner, repo).
Proof.
  intros Hu Hp. rewrite <- (parse_bare_join _ _ _ Hu Hp).
  rewrite parse_stripped. exact Hp.
Qed.

(** X19.  Whether the forkers are included changes nothing else: with and
    without them (and whatever their cap) an extraction fails with the
    same error or reports the same repository, the same totals and the
    same stargazers; without them the forker section is empty. *)
Theorem forkers_change_nothing_else (url : string)
  (include_stargazers : bool) (max_stargazers max_forkers max_forkers' :
  option Z) (detailed aggressive : bool) (w : World) :
  match fst (extract_repository_info url include_stargazers true
               max_stargazers max_forkers detailed aggressive w),
        fst (extract_repository_info url include_stargazers false
               max_stargazers max_forkers' detailed aggressive w) with
  | Ok r1, Ok r2 =>
      ExtractionResult.repository r1 = ExtractionResult.repository r2
      /\ ExtractionResult.stargazers r1 = ExtractionResult.stargazers r2
      /\ ExtractionResult.total_stargazers r1
         = ExtractionResult.total_stargazers r2
      /\ ExtractionResult.total_forkers r1
         = ExtractionResult.total_forkers r2
      /\ ExtractionResult.forkers r2 = []
  | Raise e1, Raise e2 => e1 = e2
  | _, _ => False
  end.
Proof.
  destruct (_parse_repo_identifier url) as [[owner repo]|e] eqn:Hp.
  2:{ rewrite !(extract_parse_failure _ _ _ _ _ _ _ _ _ Hp). reflexivity. }
  destruct (get_repository_info owner repo w) as [[info|e] w1] eqn:Er.
  2:{ rewrite !(extract_repository_failure _ _ _ _ _ _ _ _ _ _ _ _ Hp Er).
      reflexivity. }
  rewrite (extract_sections _ include_stargazers true max_stargazers
             max_forkers detailed aggressive _ _ _ _ _ Hp Er).
  rewrite (extract_sections _ include_stargazers false max_stargazers
             max_forkers' detailed aggressive _ _ _ _ _ Hp Er).
  cbn [fst ExtractionResult.repository ExtractionResult.stargazers
       ExtractionResult.total_stargazers ExtractionResult.total_forkers
       ExtractionResult.forkers or_empty].
  repeat split; reflexivity.
Qed.

Lemma minimal_plain login avatar_url html_url u :
  UserInfo.minimal login avatar_url html_url = Ok u -> plain_record u.
Proof.
  unfold UserInfo.minimal, validated.
  destruct (validate_str login); cbn [Result_bind]; [|discriminate].
  destruct (validate_opt_str avatar_url); cbn [Result_bind]; [|discriminate].
  destruct (validate_opt_str html_url); cbn [Result_bind]; [|discriminate].
  intros H. injection H as <-. repeat split; reflexivity.
Qed.

Lemma projects_plain item u : projects item u -> plain_record u.
Proof. intros (l & a & h & _ & _ & _ & H). exact (minimal_plain _ _ _ _ H). Qed.

Lemma stargazers_plain owner repo per_page max_pages w raw w' :
  get_stargazers owner repo per_page max_pages w = (Ok raw, w') ->
  Forall plain_record raw.
Proof.
  unfold get_stargazers. rewrite paginate_is_from. intros H.
  apply (paginate_from_walk _ per_page max_pages (pending w) w [] 1%Z raw w'
           eq_refl) in H.
  destruct H as (uss & n & Hw & -> & _). cbn [app].
  eapply Forall_impl; [|exact (Walk_projects _ _ _ _ _ _ Hw)].
  intros u (item & Hi). exact (projects_plain _ _ Hi).
Qed.

Lemma forks_plain owner repo per_page max_pages w raw w' :
  get_forks owner repo per_page max_pages w = (Ok raw, w') ->
  Forall plain_record raw.
Proof.
  rewrite get_forks_is_from. intros H.
  set (endpoint := "/repos/" +:+ owner +:+ "/" +:+ repo +:+ "/forks") in *.
  destruct (forks_as_owner_walk endpoint per_page max_pages (pending w) w []
              1%Z eq_refl) as (_ & Hs & _).
  rewrite H in Hs. cbn [fst] in Hs.
  destruct (paginate_from endpoint per_page max_pages [] 1 (owners_world w))
    as [[raw'|e] w2] eqn:Er; cbn [fst same_outcome] in Hs; [|contradiction].
  subst raw'.
  apply (paginate_from_walk endpoint per_page max_pages
           (pending (owners_world w)) (owners_world w) [] 1%Z raw w2 eq_refl)
    in Er.
  destruct Er as (uss & n & Hw & -> & _). cbn [app].
  eapply Forall_impl; [|exact (owner_walk_projects _ _ _ _ _ _ Hw)].
  intros u (fork & Hi). exact (projects_plain _ _ Hi).
Qed.

Lemma slice_to_Forall {A} (Q : A -> Prop) n l :
  Forall Q l -> Forall Q (slice_to n l).
Proof.
  intros H. unfold slice_to.
  assert (Hk : forall k, Forall Q (firstn k l)).
  { intros k. rewrite <- (firstn_skipn k l) in H.
    exact (proj1 (proj1 (Forall_app _ _ _) H)). }
  destruct (0 <=? n)%Z; apply Hk.
Qed.

(** X20.  Without user details the report holds plain records only: every
    stargazer and every forker carries its login, avatar and profile URL
    and nothing else, so no name, no email, no location, no company, no
    counts and no dates, whatever the API delivered. *)
Theorem plain_report (url : string)
  (include_stargazers include_forkers : bool)
  (max_stargazers max_forkers : option Z) (aggressive : bool) (w : World) :
  match fst (extract_repository_info url include_stargazers include_forkers
               max_stargazers max_forkers false aggressive w) with
  | Ok report =>
      Forall plain_record (ExtractionResult.stargazers report)
      /\ Forall plain_record (ExtractionResult.forkers report)
  | Raise _ => True
  end.
Proof.
  destruct (_parse_repo_identifier url) as [[owner repo]|e] eqn:Hp.
  2:{ rewrite (extract_parse_failure _ _ _ _ _ _ _ _ _ Hp). exact I. }
  destruct (get_repository_info owner repo w) as [[info|e] w1] eqn:Er.
  2:{ rewrite (extract_repository_failure _ _ _ _ _ _ _ _ _ _ _ _ Hp Er).
      exact I. }
  rewrite (extract_sections _ include_stargazers include_forkers
             max_stargazers max_forkers false aggressive _ _ _ _ _ Hp Er).
  cbn [fst ExtractionResult.stargazers ExtractionResult.forkers].
  assert (Hs : forall w0,
            Forall plain_record
              (or_empty (fst (_extract_stargazers owner repo max_stargazers
                                false aggressive w0)))).
  { intros w0. unfold _extract_stargazers. rewrite bind_run.
    destruct (get_stargazers _ _ _ _ w0) as [[raw|e] w2] eqn:Eg;
      [|constructor].
    apply stargazers_plain in Eg. rewrite ret_run. cbn [fst or_empty].
    destruct max_stargazers as [n|]; [|exact Eg].
    destruct (given (Some n)); [apply slice_to_Forall|]; exact Eg. }
  assert (Hf : forall w0,
            Forall plain_record
              (or_empty (fst (_extract_forkers owner repo max_forkers
                                false aggressive w0)))).
  { intros w0. unfold _extract_forkers. rewrite bind_run.
    destruct (get_forks _ _ _ _ w0) as [[raw|e] w2] eqn:Eg;
      [|constructor].
    apply forks_plain in Eg. rewrite ret_run. cbn [fst or_empty].
    destruct max_forkers as [n|]; [|exact Eg].
    destruct (given (Some n)); [apply slice_to_Forall|]; exact Eg. }
  split.
  - destruct include_stargazers; [apply Hs|constructor].
  - destruct include_forkers; [apply Hf|constructor].
Qed.

Lemma make_record_raises v1 v2 v3 v4 v5 v6 v7 v8 v9 v10 e :
  RepoInfo.make v1 v2 v3 v4 v5 v6 v7 v8 v9 v10 = Raise e ->
  e = ValidationError.
Proof.
  unfold RepoInfo.make, validated.
  repeat match goal with
         | |- context [match ?v with Some _ => _ | None => _ end] =>
             destruct v; cbn [Result_bind];
             [|intros H; injection H as <-; reflexivity]
         end.
  discriminate.
Qed.

Ltac indexed_key k :=
  destruct (PyJson.lookup k _); cbn [Result_bind];
  [|intros H; injection H as <-; cbn; tauto].

Lemma repository_info_raises owner repo w e :
  fst (get_repository_info owner repo w) = Raise e -> extraction_failure e.
Proof.
  rewrite repository_info_run.
  assert (Hr := make_request_raises ("/repos/" +:+ owner +:+ "/" +:+ repo)
                  [] w).
  destruct (_make_request _ _ w) as [[data|e'] w1]; cbn [fst] in Hr |- *.
  2:{ intros H. injection H as <-.
      destruct e' as [v| | | | | | |a|t]; cbn in Hr |- *;
        try contradiction; try exact I; exact Hr. }
  clear Hr. destruct data as [| | | | | |fields];
    try (intros H; injection H as <-; exact I).
  unfold PyJson.getitem at 1 2 3.
  indexed_key "name". indexed_key "full_name". indexed_key "owner".
  match goal with
  | |- context [PyJson.getitem ?o "login"] =>
      destruct o as [| | | | | |ofields];
        try (intros H; injection H as <-; exact I)
  end.
  unfold PyJson.getitem at 1. indexed_key "login".
  unfold PyJson.get, PyJson.getitem.
  destruct (PyJson.lookup "description" fields); cbn [Result_bind];
    (indexed_key "html_url"; indexed_key "stargazers_count";
     indexed_key "forks_count";
     destruct (PyJson.lookup "language" fields); cbn [Result_bind];
     indexed_key "created_at"; indexed_key "updated_at";
     intros H; rewrite (make_record_raises _ _ _ _ _ _ _ _ _ _ _ H);
     exact I).
Qed.

(** X21.  What an extraction may raise, and when.
    [extract_repository_info] fails only before the sections: when it
    raises, it has made no request at all, or the request for the
    repository and nothing more.  It fails with the ValueError of an
    identifier that does not resolve, or with what the repository fetch
    raises, that is a GitHubAPIError, a RateLimitError with a wait of at
    least 60 seconds, the ValueError of a malformed reset header, a
    TypeError or a KeyError (for "login" or one of the eight repository
    keys) on a body of the wrong shape, or a ValidationError.  It never
    lets an HTTPError, a RequestException or an AttributeError through. *)
Theorem extraction_raises (url : string)
  (include_stargazers include_forkers : bool)
  (max_stargazers max_forkers : option Z) (detailed aggressive : bool)
  (w : World) :
  match extract_repository_info url include_stargazers include_forkers
          max_stargazers max_forkers detailed aggressive w with
  | (Ok _, _) => True
  | (Raise e, w') =>
      extraction_failure e
      /\ (trace w' = trace w
          \/ exists owner repo,
               _parse_repo_identifier url = Ok (owner, repo)
               /\ trace w' = trace w ++ [repository_request owner repo])
  end.
Proof.
  destruct (_parse_repo_identifier url) as [[owner repo]|e] eqn:Hp.
  2:{ rewrite (extract_parse_failure _ _ _ _ _ _ _ _ _ Hp).
      destruct (parse_raises _ _ Hp) as [v ->].
      split; [exact I|left; reflexivity]. }
  destruct (get_repository_info owner repo w) as [[info|e] w1] eqn:Er.
  2:{ rewrite (extract_repository_failure _ _ _ _ _ _ _ _ _ _ _ _ Hp Er).
      split.
      - apply (repository_info_raises owner repo w).
        rewrite Er. reflexivity.
      - right. exists owner, repo. split; [reflexivity|].
        pose proof (repository_info_trace owner repo w) as Ht.
        rewrite Er in Ht. exact Ht. }
  rewrite (extract_sections _ include_stargazers include_forkers
             max_stargazers max_forkers detailed aggressive _ _ _ _ _ Hp Er).
  exact I.
Qed.

End Reports.

(** ** The token and the headers *)

Section Tokens.

Lemma strip_blank s : blank s -> PyStr.strip s = EmptyString.
Proof.
  intros H. unfold PyStr.strip, PyStr.strip_by.
  rewrite (lstrip_by_all _ _ H). reflexivity.
Qed.

Lemma strip_nonempty s :
  String.eqb (PyStr.strip s) "" = false -> String.eqb s "" = false.
Proof. destruct s; [intros H; exact H|reflexivity]. Qed.

(** X22.  [has_token] and the Authorization header do not test the same
    thing.  When [has_token] holds the headers are Accept, User-Agent and
    "Authorization: token <GITHUB_TOKEN>", in this order.  The header is
    sent exactly when the token is a non-empty string, so a token of
    whitespace only is sent although [has_token] is false. *)
Theorem token_and_headers (C : Config.cls) :
  (Config.has_token C = true ->
   exists token,
     Config.GITHUB_TOKEN C = Some token
     /\ Config.get_headers C
        = [("Accept", "application/vnd.github.v3+json");
           ("User-Agent", "Stargazer/0.1.0");
           ("Authorization", "token " +:+ token)])
  /\ (In "Authorization" (map fst (Config.get_headers C))
      <-> exists token,
            Config.GITHUB_TOKEN C = Some token /\ token <> EmptyString)
  /\ (forall token,
        Config.GITHUB_TOKEN C = Some token ->
        blank token -> token <> EmptyString ->
        Config.has_token C = false
        /\ In ("Authorization", "token " +:+ token) (Config.get_headers C)).
Proof.
  unfold Config.has_token, Config.get_headers.
  destruct (Config.GITHUB_TOKEN C) as [token|].
  - split; [|split].
    + intros H. apply negb_true_iff, strip_nonempty in H. rewrite H.
      exists token. split; reflexivity.
    + destruct (String.eqb token "") eqn:E; cbn [negb map fst app In].
      * apply String.eqb_eq in E. split.
        -- intros [H|[H|[]]]; discriminate.
        -- intros (t & Ht & Hn). injection Ht as <-. contradiction.
      * apply String.eqb_neq in E. split; [|auto].
        intros _. exists token. auto.
    + intros t Ht Hb Hn. injection Ht as <-.
      rewrite (strip_blank _ Hb). split; [reflexivity|].
      apply String.eqb_neq in Hn. rewrite Hn. cbn. auto.
  - split; [discriminate|]. split.
    + cbn. split.
      * intros [H|[H|[]]]; discriminate.
      * intros (t & Ht & _). discriminate.
    + intros t Ht. discriminate.
Qed.

(** X23.  The token given to the constructor is not sent.  The
    constructor stores a non-empty token on its [Config] instance, where
    reading [config.GITHUB_TOKEN] finds it; the headers of a request come
    from the class method [get_headers], which reads the attribute of the
    class: they are those of the environment's token whatever token the
    extractor or the client was built with, and hold no Authorization when
    the environment has none. *)
Theorem constructor_token_is_not_sent (C : Config.cls)
  (github_token : option string) :
  let client :=
    GitHubExtractor.client (GitHubExtractor.__init__ C github_token) in
  GitHubClient.request_headers client = Config.get_headers C
  /\ (forall token,
        github_token = Some token -> token <> EmptyString ->
        Config.read_GITHUB_TOKEN (GitHubClient.config client) = Some token)
  /\ (Config.GITHUB_TOKEN C = None ->
      ~ In "Authorization" (map fst (GitHubClient.request_headers client))).
Proof.
  cbn [GitHubExtractor.__init__ GitHubExtractor.client].
  unfold GitHubClient.request_headers, GitHubClient.__init__.
  cbn [GitHubClient.config].
  split; [|split].
  - destruct github_token as [tok|]; [destruct (negb (String.eqb tok ""))|];
      reflexivity.
  - intros token -> Hn. apply String.eqb_neq in Hn. rewrite Hn. reflexivity.
  - intros Hc.
    assert (Hh : Config.get_headers C
                 = [("Accept", "application/vnd.github.v3+json");
                    ("User-Agent", "Stargazer/0.1.0")]).
    { unfold Config.get_headers. rewrite Hc. reflexivity. }
    destruct github_token as [tok|]; [destruct (negb (String.eqb tok ""))|];
      cbn [Config.class_of]; rewrite Hh; cbn;
      intros [H|[H|[]]]; discriminate.
Qed.

End Tokens.

(** ** Timestamps *)

Section Timestamps.
Context {P : Platform}.

Lemma replace_app old new a b :
  replace old new (a +:+ b) = replace old new a +:+ replace old new b.
Proof.
  induction a as [|c a IH]; [reflexivity|].
  cbn. rewrite IH. destruct (Ascii.eqb c old); [|reflexivity].
  generalize (replace old new a) (replace old new b). clear. intros x y.
  induction new as [|n new IH]; [reflexivity|].
  cbn. rewrite IH. reflexivity.
Qed.

Lemma replace_clean old new s :
  clean (Ascii.eqb old) s -> replace old new s = s.
Proof.
  induction s as [|c s IH]; [reflexivity|].
  intros H. apply clean_cons in H. destruct H as [Hc Hs].
  cbn. rewrite Ascii.eqb_sym, Hc, (IH Hs). reflexivity.
Qed.

Lemma replace_again old new s :
  clean (Ascii.eqb old) new ->
  replace old new (replace old new s) = replace old new s.
Proof.
  intros Hn. induction s as [|c s IH]; [reflexivity|].
  cbn. destruct (Ascii.eqb c old) eqn:E.
  - rewrite replace_app, IH, (replace_clean _ _ _ Hn). reflexivity.
  - cbn. rewrite E, IH. reflexivity.
Qed.

(** X24.  [parse_datetime] hands a string to [fromisoformat] with every
    'Z' rewritten to "+00:00": a timestamp ending in its only 'Z' is parsed
    as the same timestamp with the offset +00:00, a string without 'Z' is
    parsed as it is, and a string already rewritten is parsed the same
    again.  A value that is no string is passed on untouched. *)
Theorem zulu_timestamps (fromisoformat : string -> option datetime) :
  (forall s,
     clean (Ascii.eqb "Z") s ->
     parse_datetime fromisoformat (JStr (s +:+ "Z"))
     = option_map inl (fromisoformat (s +:+ "+00:00"))
     /\ parse_datetime fromisoformat (JStr s)
        = option_map inl (fromisoformat s))
  /\ (forall s,
        parse_datetime fromisoformat (JStr (replace "Z" "+00:00" s))
        = parse_datetime fromisoformat (JStr s))
  /\ (forall v,
        (forall s, v <> JStr s) ->
        parse_datetime fromisoformat v = Some (inr v)).
Proof.
  split; [|split].
  - intros s Hs. cbn [parse_datetime].
    rewrite replace_app, (replace_clean _ _ _ Hs). split; reflexivity.
  - intros s. cbn [parse_datetime].
    rewrite replace_again; reflexivity.
  - intros v Hv. destruct v; try reflexivity.
    exfalso. exact (Hv _ eq_refl).
Qed.

End Timestamps.

(** ** Worked instances *)

Lemma repository_requires_keys_example :
  pending (world_of [answer_with 200 [] (Some (JObj [("name", JStr "r")]))])
  = [answer_with 200 [] (Some (JObj [("name", JStr "r")]))]
  /\ delivered "/repos/o/r"
       (answer_with 200 [] (Some (JObj [("name", JStr "r")])))
     = Ok (JObj [("name", JStr "r")])
  /\ fst (@get_repository_info strict_platform "o" "r"
            (world_of [answer_with 200 []
                         (Some (JObj [("name", JStr "r")]))]))
     = Raise (KeyError "full_name").
Proof.
  split; [reflexivity|]. split; [reflexivity|].
  exact (proj1 (proj2 (@repository_requires_keys strict_platform "o" "r"
                         (world_of [answer_with 200 []
                                      (Some (JObj [("name", JStr "r")]))])
                         (answer_with 200 []
                            (Some (JObj [("name", JStr "r")])))
                         [] (JObj [("name", JStr "r")]) eq_refl eq_refl))
           [("name", JStr "r")] "full_name" eq_refl eq_refl).
Defined.

Lemma profile_requires_keys_example :
  pending (world_of [answer_with 200 [] (Some (JObj [("login", JStr "u")]))])
  = [answer_with 200 [] (Some (JObj [("login", JStr "u")]))]
  /\ delivered "/users/u"
       (answer_with 200 [] (Some (JObj [("login", JStr "u")])))
     = Ok (JObj [("login", JStr "u")])
  /\ fst (@get_user_info strict_platform "u" true
            (world_of [answer_with 200 []
                         (Some (JObj [("login", JStr "u")]))]))
     = Raise (KeyError "public_repos").
Proof.
  split; [reflexivity|]. split; [reflexivity|].
  exact (proj1 (proj2 (@profile_requires_keys strict_platform "u" true
                         (world_of [answer_with 200 []
                                      (Some (JObj [("login", JStr "u")]))])
                         (answer_with 200 []
                            (Some (JObj [("login", JStr "u")])))
                         [] (JObj [("login", JStr "u")]) eq_refl eq_refl))
           [("login", JStr "u")] "public_repos" eq_refl eq_refl).
Defined.

Lemma walk_fails_as_a_whole_example :
  pending (world_of [page_of_users ["a"]; answer_with 500 [] None;
                     page_of_users ["b"]])
  = [page_of_users ["a"]] ++ answer_with 500 [] None :: [page_of_users ["b"]]
  /\ room_after None 1
  /\ fst (@_paginate_users strict_platform "/repos/o/r/stargazers" 30 None
            (world_of [page_of_users ["a"]; answer_with 500 [] None;
                       page_of_users ["b"]]))
     = Raise (GitHubAPIError (HTTPStatus 500))
  /\ pending (snd (@_paginate_users strict_platform "/repos/o/r/stargazers"
                     30 None
                     (world_of [page_of_users ["a"]; answer_with 500 [] None;
                                page_of_users ["b"]])))
     = [page_of_users ["b"]].
Proof.
  assert (Hroom : room_after None 1) by (intros m H; discriminate H).
  split; [reflexivity|]. split; [exact Hroom|].
  assert (Hg : Forall (@good_page strict_platform (@users_of strict_platform)
                         "/repos/o/r/stargazers") [page_of_users ["a"]]).
  { constructor; [|constructor].
    eexists. eexists. repeat split; reflexivity. }
  assert (Hb : @bad_page strict_platform (@users_of strict_platform)
                 "/repos/o/r/stargazers" (answer_with 500 [] None)
                 (GitHubAPIError (HTTPStatus 500)))
    by (left; reflexivity).
  destruct (proj1 (@walk_fails_as_a_whole strict_platform 30 None
                     [page_of_users ["a"]] (answer_with 500 [] None)
                     [page_of_users ["b"]] (GitHubAPIError (HTTPStatus 500))
                     (world_of [page_of_users ["a"]; answer_with 500 [] None;
                                page_of_users ["b"]])
                     eq_refl Hroom)
              "/repos/o/r/stargazers" Hg Hb) as (H1 & _ & H3).
  split; [exact H1|exact H3].
Defined.

Lemma page_must_be_a_list_example :
  pending (world_of [answer_with 200 []
                       (Some (JObj [("message", JStr "Not Found")]))])
  = [] ++ answer_with 200 [] (Some (JObj [("message", JStr "Not Found")]))
          :: []
  /\ room_after (Some 3%Z) 0
  /\ PyJson.truthy (JObj [("message", JStr "Not Found")]) = true
  /\ is_array (JObj [("message", JStr "Not Found")]) = false
  /\ fst (@_paginate_users strict_platform "/repos/o/r/stargazers" 30
            (Some 3%Z)
            (world_of [answer_with 200 []
                         (Some (JObj [("message", JStr "Not Found")]))]))
     = Raise TypeError
  /\ fst (@get_forks strict_platform "o" "r" 30 (Some 3%Z)
            (world_of [answer_with 200 []
                         (Some (JObj [("message", JStr "Not Found")]))]))
     = Raise TypeError.
Proof.
  assert (Hroom : room_after (Some 3%Z) 0).
  { intros m H _. injection H as <-. reflexivity. }
  split; [reflexivity|]. split; [exact Hroom|].
  split; [reflexivity|]. split; [reflexivity|].
  destruct (@page_must_be_a_list strict_platform 30 (Some 3%Z) []
              (answer_with 200 []
                 (Some (JObj [("message", JStr "Not Found")])))
              [] (JObj [("message", JStr "Not Found")])
              (world_of [answer_with 200 []
                           (Some (JObj [("message", JStr "Not Found")]))])
              eq_refl Hroom eq_refl eq_refl) as [Hs Hf].
  split.
  - exact (Hs "/repos/o/r/stargazers" (Forall_nil _) eq_refl).
  - exact (Hf "o" "r" (Forall_nil _) eq_refl).
Defined.

Lemma plain_extraction_requests_example :
  @_parse_repo_identifier strict_platform "o/r" = Ok ("o", "r")
  /\ exists n1 n2,
       trace (snd (@extract_repository_info strict_platform "o/r" true false
                     (Some 45%Z) None false true
                     (world_of [repository_answer 50 7; page_of_users ["a"];
                                page_of_users []])))
       = trace (world_of [repository_answer 50 7; page_of_users ["a"];
                          page_of_users []])
         ++ repository_request "o" "r"
            :: page_requests "/repos/o/r/stargazers" 30 1 n1
            ++ page_requests "/repos/o/r/forks" 30 1 n2
       /\ n2 = 0
       /\ (Z.of_nat n1 <= 2)%Z.
Proof.
  split; [reflexivity|].
  destruct (@plain_extraction_requests strict_platform "o/r" "o" "r" true
              false (Some 45%Z) None true
              (world_of [repository_answer 50 7; page_of_users ["a"];
                         page_of_users []])
              eq_refl) as (n1 & n2 & Ht & _ & Hf & Hb & _).
  exists n1, n2. split; [exact Ht|]. split; [exact (Hf eq_refl)|].
  exact (Hb 45%Z eq_refl ltac:(lia)).
Defined.

Lemma extraction_budget_example :
  (1 <= 45)%Z /\ (1 <= 5)%Z
  /\ (Z.of_nat (length (trace (snd (@extract_repository_info strict_platform
                                      "o/r" true true (Some 45%Z) (Some 5%Z)
                                      true true
                                      (world_of [repository_answer 50 7;
                                                 page_of_users ["a"];
                                                 page_of_users []])))))
      <= 354)%Z.
Proof.
  split; [lia|]. split; [lia|].
  exact (@extraction_budget strict_platform "o/r" true true 45 5 true true
           (world_of [repository_answer 50 7; page_of_users ["a"];
                      page_of_users []])
           ltac:(lia) ltac:(lia)).
Defined.

Lemma large_negative_cap_example :
  (-30 <= -30)%Z
  /\ @_extract_stargazers strict_platform "o" "r" (Some (-30)%Z) true true
       (world_of [page_of_users ["a"]; page_of_users []])
     = (Ok [], world_of [page_of_users ["a"]; page_of_users []])
  /\ @_extract_forkers strict_platform "o" "r" (Some (-30)%Z) true true
       (world_of [page_of_users ["a"]; page_of_users []])
     = (Ok [], world_of [page_of_users ["a"]; page_of_users []]).
Proof.
  split; [lia|].
  exact (@large_negative_cap_fetches_nothing strict_platform "o" "r" (-30)
           true true (world_of [page_of_users ["a"]; page_of_users []])
           ltac:(lia)).
Defined.

Lemma small_negative_cap_example :
  (-29 <= -1 <= -1)%Z
  /\ exists records w',
       @_extract_stargazers strict_platform "o" "r" (Some (-1)%Z) false true
         (world_of [page_of_users ["a"; "b"; "c"]; page_of_users []])
       = (Ok records, w')
       /\ map UserInfo.login records = ["a"; "b"]
       /\ length (trace w') = 2.
Proof.
  split; [lia|].
  destruct (@small_negative_cap_drops_last strict_platform "o" "r" (-1)
              false true
              (world_of [page_of_users ["a"; "b"; "c"]; page_of_users []])
              ltac:(lia)) as [Hs _].
  eexists. eexists. split; [rewrite Hs; vm_compute; reflexivity|].
  split; reflexivity.
Defined.

Lemma resolve_ignores_padding_example :
  blank "  " /\ blank (String "009" (String "010" EmptyString))
  /\ @_parse_repo_identifier strict_platform
       ("  " +:+ "octocat/Hello-World"
        +:+ String "009" (String "010" EmptyString))
     = @_parse_repo_identifier strict_platform "octocat/Hello-World".
Proof.
  split; [reflexivity|]. split; [reflexivity|].
  exact (@resolve_ignores_padding strict_platform "  "
           (String "009" (String "010" EmptyString)) "octocat/Hello-World"
           eq_refl eq_refl).
Defined.

Lemma bare_round_trip_example :
  is_url (PyStr.strip " octocat/Hello-World ") = false
  /\ @_parse_repo_identifier strict_platform " octocat/Hello-World "
     = Ok ("octocat", "Hello-World")
  /\ @_parse_repo_identifier strict_platform
       ("octocat" +:+ "/" +:+ "Hello-World")
     = Ok ("octocat", "Hello-World").
Proof.
  split; [reflexivity|]. split; [reflexivity|].
  exact (@bare_round_trip strict_platform " octocat/Hello-World " "octocat"
           "Hello-World" eq_refl eq_refl).
Defined.

Lemma url_extraction_is_bare_extraction_example :
  blank " " /\ blank "" /\ valid_name "o" /\ valid_name "r"
  /\ trailing "/tree/master"
  /\ @extract_repository_info strict_platform
       (" " +:+ ("https://" +:+ "github.com/" +:+ "o" +:+ "/" +:+ "r"
                 +:+ "/tree/master") +:+ "")
       true false None None false true
       (world_of [repository_answer 50 7; page_of_users ["a"];
                  page_of_users []])
     = @extract_repository_info strict_platform ("o" +:+ "/" +:+ "r")
         true false None None false true
         (world_of [repository_answer 50 7; page_of_users ["a"];
                    page_of_users []]).
Proof.
  assert (Ho : valid_name "o") by (split; [discriminate|reflexivity]).
  assert (Hr : valid_name "r") by (split; [discriminate|reflexivity]).
  assert (Ht : trailing "/tree/master")
    by (right; exists "/"%char, "tree/master"; auto).
  split; [reflexivity|]. split; [reflexivity|].
  split; [exact Ho|]. split; [exact Hr|]. split; [exact Ht|].
  exact (@url_extraction_is_bare_extraction strict_platform true " " "" "o"
           "r" "/tree/master" true false None None false true
           (world_of [repository_answer 50 7; page_of_users ["a"];
                      page_of_users []])
           eq_refl eq_refl Ho Hr Ht).
Defined.

Lemma first_acceptable_email_example :
  pending (world_of [answer_with 200 [] (Some (JArr recent_events))])
  = [answer_with 200 [] (Some (JArr recent_events))]
  /\ Forall2 event_with recent_events
       [("WatchEvent", []);
        ("PushEvent", [Some "u@users.noreply.github.com"; None;
                       Some "me@example.org"; Some "other@example.org"])]
  /\ fst (_extract_email_from_commits "u"
            (world_of [answer_with 200 [] (Some (JArr recent_events))]))
     = Ok (Some "me@example.org").
Proof.
  assert (Hs : Forall2 event_with recent_events
                 [("WatchEvent", []);
                  ("PushEvent", [Some "u@users.noreply.github.com"; None;
                                 Some "me@example.org";
                                 Some "other@example.org"])]).
  { constructor; [|constructor; [|constructor]].
    - split; [reflexivity|]. right. eexists. repeat split; reflexivity.
    - split; [reflexivity|]. left. eexists. eexists.
      split; [reflexivity|]. split; [reflexivity|].
      repeat constructor; eexists; split; reflexivity. }
  split; [reflexivity|]. split; [exact Hs|].
  exact (proj1 (first_acceptable_email "u"
                  (world_of [answer_with 200 [] (Some (JArr recent_events))])
                  (answer_with 200 [] (Some (JArr recent_events))) []
                  recent_events
                  [("WatchEvent", []);
                   ("PushEvent", [Some "u@users.noreply.github.com"; None;
                                  Some "me@example.org";
                                  Some "other@example.org"])]
                  eq_refl Hs)
           eq_refl).
Defined.

(** * The cases of the test suite, run on the model *)

(** test_parse_repo_identifier_url, _owner_repo, _invalid_url,
    _invalid_format and _empty *)
Example parse_repo_identifier_cases :
  @_parse_repo_identifier strict_platform "https://github.com/owner/repo"
  = Ok ("owner", "repo")
  /\ @_parse_repo_identifier strict_platform "owner/repo"
     = Ok ("owner", "repo")
  /\ @_parse_repo_identifier strict_platform "https://gitlab.com/owner/repo"
     = Raise (ValueError OnlyGitHubSupported)
  /\ @_parse_repo_identifier strict_platform "invalid-format"
     = Raise (ValueError InvalidRepositoryIdentifier)
  /\ @_parse_repo_identifier strict_platform ""
     = Raise (ValueError InvalidRepositoryIdentifier).
Proof. repeat split; reflexivity. Qed.

(** test_make_request_success, _rate_limit, _404_error, _forbidden_error and
    _connection_error *)
Example make_request_cases :
  fst (_make_request "/test" []
         (world_of [answer_with 200 []
                      (Some (JObj [("login", JStr "testuser")]))]))
  = Ok (JObj [("login", JStr "testuser")])
  /\ fst (_make_request "/test" []
            (world_of [answer_with 429 [("X-RateLimit-Reset", "1635206400")]
                         None]))
     = Raise (RateLimitError 1635206400)
  /\ fst (_make_request "/repos/nonexistent/repo" []
            (world_of [answer_with 404 [] None]))
     = Raise (GitHubAPIError (RepositoryNotFound "/repos/nonexistent/repo"))
  /\ fst (_make_request "/test" [] (world_of [answer_with 403 [] None]))
     = Raise (GitHubAPIError (AccessForbidden "/test"))
  /\ fst (_make_request "/test" []
            (world_of [{| reply := ConnectionFailed; clock := 0 |}]))
     = Raise (GitHubAPIError RequestFailed).
Proof. repeat split; reflexivity. Qed.

(** test_paginate_users: two pages of one user, then an empty page *)
Example paginate_users_case :
  exists users w',
    @_paginate_users strict_platform "/test" 30 None
      (world_of [page_of_users ["user1"]; page_of_users ["user2"];
                 page_of_users []])
    = (Ok users, w')
    /\ map UserInfo.login users = ["user1"; "user2"]
    /\ length (trace w') = 3.
Proof.
  eexists. eexists. split; [vm_compute; reflexivity|]. split; reflexivity.
Qed.

(** test_paginate_users_with_limit: the same page at every request, one page
    allowed *)
Example paginate_users_with_limit_case :
  exists users w',
    @_paginate_users strict_platform "/test" 30 (Some 1%Z)
      (world_of [page_of_users ["user1"]; page_of_users ["user1"];
                 page_of_users ["user1"]])
    = (Ok users, w')
    /\ map UserInfo.login users = ["user1"]
    /\ length (trace w') = 1.
Proof.
  eexists. eexists. split; [vm_compute; reflexivity|]. split; reflexivity.
Qed.

(** test_get_forks: one page of two forks, then an empty page *)
Example get_forks_case :
  exists users w',
    @get_forks strict_platform "owner" "repo" 30 None
      (world_of [answer_with 200 []
                   (Some (JArr [fork_of "forker1"; fork_of "forker2"]));
                 answer_with 200 [] (Some (JArr []))])
    = (Ok users, w')
    /\ map UserInfo.login users = ["forker1"; "forker2"]
    /\ length (trace w') = 2.
Proof.
  eexists. eexists. split; [vm_compute; reflexivity|]. split; reflexivity.
Qed.

(** test_extract_stargazers_with_limit: fifty stargazers delivered, ten
    asked for *)
Example extract_stargazers_with_limit_case :
  exists users w',
    @_extract_stargazers strict_platform "owner" "repo" (Some 10%Z) false true
      (world_of [page_of_users
                   (map (fun i => "star" +:+ String (ascii_of_nat (48 + i))
                                              EmptyString)
                        (seq 0 50))])
    = (Ok users, w')
    /\ length users = 10.
Proof.
  eexists. eexists. split; [vm_compute; reflexivity|]. reflexivity.
Qed.
